(** * Schema derivation of ndc-nodejs-lambda (src/typescript.ts)

    A shallow embedding of the type-derivation engine: the recursive walk
    [deriveSchemaTypeForTsType], the name qualifier [qualifyTypeName], the
    per-function derivation [deriveFunctionSchema] and the assembler
    [deriveSchemaFromFunctions], followed by the properties of the
    specification that were checked against them.

    Modelling conventions.
    - A [ts.Type] is an opaque handle ([TypeId]); the type checker maps a
      handle to the observations the code makes on it ([TsType]).  Handles can
      therefore form cycles, as recursive TypeScript types do.
    - The two registries of the derivation context are JavaScript objects used
      as dictionaries; they are [gmap string _].  Keys inherited from
      [Object.prototype] are outside the model.
    - Strings are sequences of 8-bit characters: names and paths are taken
      to be ASCII.
    - A [throw] aborts the pass: computations live in the monad [M], whose
      outcomes are [Returned] (with the mutated context), [Thrown] or
      [OutOfFuel].  The last one is an artefact of the structural recursion and
      is shown unreachable ([deriveSchemaTypeForTsType_total]). *)

From Stdlib Require Import ZArith Ascii String List Lia Bool.
From stdpp Require Import base option list strings pretty gmap fin_maps.

Open Scope string_scope.
Open Scope list_scope.

(* ===================================================================== *)
(** * Strings: the JavaScript string operations the code uses             *)
(* ===================================================================== *)

Module Js.

(** [s.slice(n)] *)
Fixpoint drop (n : nat) (s : string) : string :=
  match n, s with
  | O, _ => s
  | S n', String _ s' => drop n' s'
  | S _, EmptyString => EmptyString
  end.

(** [s.slice(0, n)] *)
Fixpoint take (n : nat) (s : string) : string :=
  match n, s with
  | S n', String c s' => String c (take n' s')
  | _, _ => EmptyString
  end.

(** [s.replace(pattern, replacement)] with a string pattern: only the first
    occurrence is replaced, wherever it is. *)
Fixpoint replace (pattern replacement s : string) : string :=
  if String.prefix pattern s
  then replacement +:+ drop (String.length pattern) s
  else match s with
       | EmptyString => EmptyString
       | String c s' => String c (replace pattern replacement s')
       end.

(** [s.replace(/\.ts$/, '')] *)
Fixpoint removeTsSuffix (s : string) : string :=
  match s with
  | EmptyString => EmptyString
  | String c s' => if String.eqb s ".ts" then EmptyString
                   else String c (removeTsSuffix s')
  end.

Definition isLetter (c : ascii) : bool :=
  (Ascii.leb "a" c && Ascii.leb c "z") || (Ascii.leb "A" c && Ascii.leb c "Z").

Definition isDigit (c : ascii) : bool :=
  Ascii.leb "0" c && Ascii.leb c "9".

(** [s.replace(/^[^a-zA-Z]/, '')] *)
Definition removeLeadingNonLetter (s : string) : string :=
  match s with
  | EmptyString => EmptyString
  | String c s' => if isLetter c then s else s'
  end.

(** [s.replace(/[^0-9a-zA-Z]/g, '_')] *)
Fixpoint replaceNonAlphanumerics (s : string) : string :=
  match s with
  | EmptyString => EmptyString
  | String c s' =>
      String (if isDigit c || isLetter c then c else "_"%char)
             (replaceNonAlphanumerics s')
  end.

Definition isWhitespace (c : ascii) : bool :=
  match c with
  | " "%char | "009"%char | "010"%char | "011"%char | "012"%char | "013"%char => true
  | _ => false
  end.

Fixpoint trimStart (s : string) : string :=
  match s with
  | String c s' => if isWhitespace c then trimStart s' else s
  | EmptyString => EmptyString
  end.

Fixpoint trimEnd (s : string) : string :=
  match s with
  | EmptyString => EmptyString
  | String c s' =>
      match trimEnd s' with
      | EmptyString => if isWhitespace c then EmptyString else String c EmptyString
      | t => String c t
      end
  end.

(** [s.trim()] *)
Definition trim (s : string) : string := trimEnd (trimStart s).

(** Backwards scan of [path.dirname]: [chars] holds the characters at
    indices [i], [i-1], ..., [1]. *)
Fixpoint dirnameScan (chars : list ascii) (i : nat) (matchedSlash : bool) : option nat :=
  match chars with
  | [] => None
  | c :: rest =>
      if Ascii.eqb c "/"
      then if matchedSlash then dirnameScan rest (i - 1) true else Some i
      else dirnameScan rest (i - 1) false
  end.

(** [path.dirname(p)] of node:path, POSIX flavour. *)
Definition dirname (p : string) : string :=
  match p with
  | EmptyString => "."
  | String c0 rest =>
      let hasRoot := Ascii.eqb c0 "/" in
      match dirnameScan (rev (list_ascii_of_string rest)) (String.length rest) true with
      | None => if hasRoot then "/" else "."
      | Some e => if hasRoot && (e =? 1)%nat then "//" else take e p
      end
  end.

End Js.

(* ===================================================================== *)
(** * The schema data model (module ./schema)                             *)
(* ===================================================================== *)

(** Modelled from the spec: the declaration of [schema.NullOrUndefinability]
    is not among the sources.  It is the three-valued "nullable acceptance";
    its members are non-empty string constants, hence truthy where
    [unwrapNullableType] tests one. *)
Inductive NullOrUndefinability : Set :=
  | AcceptsNullOnly
  | AcceptsUndefinedOnly
  | AcceptsEither.

(** Modelled from the spec: the kind of a named type reference,
    ["scalar"] or ["object"] in the object literals the code builds. *)
Inductive NamedTypeKind : Set := scalar | object.

(** Modelled from the spec: [schema.TypeDefinition], the tagged variant
    [{type: "array"}], [{type: "nullable"}], [{type: "named"}]. *)
Inductive TypeDefinition : Set :=
  | array (elementType : TypeDefinition)
  | nullable (underlyingType : TypeDefinition) (nullOrUndefinability : NullOrUndefinability)
  | named (name : string) (kind : NamedTypeKind).

(** Modelled from the spec: one entry of [ObjectTypeDefinition.properties]. *)
Record ObjectPropertyDefinition : Set := {
  propertyName : string;
  propertyType : TypeDefinition
}.

(** Modelled from the spec: [schema.ObjectTypeDefinition]. *)
Record ObjectTypeDefinition : Set := {
  properties : list ObjectPropertyDefinition
}.

(** Modelled from the spec: [schema.ScalarTypeDefinition]; the code only ever
    stores the empty object. *)
Inductive ScalarTypeDefinition : Set := EmptyScalarDefinition.

(** Modelled from the spec: [schema.FunctionNdcKind]. *)
Inductive FunctionNdcKind : Set := Function_ | Procedure.

(** Modelled from the spec: [schema.ArgumentDefinition]. *)
Record ArgumentDefinition : Set := {
  argumentName : string;
  argumentDescription : option string;
  argumentType : TypeDefinition
}.

(** Modelled from the spec: [schema.FunctionDefinition]. *)
Record FunctionDefinition : Set := {
  description : option string;
  ndcKind : FunctionNdcKind;
  arguments : list ArgumentDefinition;
  resultType : TypeDefinition
}.

(* ===================================================================== *)
(** * The TypeScript compiler interface                                   *)
(* ===================================================================== *)

(** A [ts.Type] object, as a handle. *)
Definition TypeId := nat.

(** The members of the compiler's [ts.TypeFlags] the code tests. *)
Module TypeFlags.
Definition String_ : Z := 4.
Definition Number : Z := 8.
Definition Boolean : Z := 16.
Definition Void : Z := 16384.
Definition Undefined : Z := 32768.
Definition Null : Z := 65536.
Definition Object : Z := 524288.
Definition Union : Z := 1048576.
Definition Intersection : Z := 2097152.
Definition UnionOrIntersection : Z := 3145728.
End TypeFlags.

(** The members of the compiler's [ts.ObjectFlags] the code tests. *)
Module ObjectFlags.
Definition Class : Z := 1.
Definition Interface : Z := 2.
Definition Reference : Z := 4.
Definition Anonymous : Z := 16.
End ObjectFlags.

(** A [ts.Symbol]: its name and the file names of the source files of its
    declarations ([d.getSourceFile().fileName] for each [d] of
    [symbol.declarations], which may be undefined). *)
Record TsSymbol : Set := {
  symbolName : string;
  declarations : option (list string)
}.

(** What the code observes of one type. *)
Record TsType : Set := {
  flags : Z;                               (* type.flags *)
  objectFlags : Z;                         (* type.objectFlags *)
  targetObjectFlags : Z;                   (* type.target.objectFlags of a reference *)
  symbol : option TsSymbol;                (* type.getSymbol() *)
  aliasSymbol : option TsSymbol;           (* type.aliasSymbol *)
  types : list TypeId;                     (* constituents of a union or intersection *)
  typeArguments : list TypeId;             (* typeChecker.getTypeArguments(type) *)
  arrayType : bool;                        (* typeChecker.isArrayType(type) *)
  rendered : string;                       (* typeChecker.typeToString(type) *)
  propertySymbols : list (string * TypeId) (* type.getProperties(): the name of each symbol
                                              and typeChecker.getTypeOfSymbol of it *)
}.

(** The type checker: it resolves a handle. *)
Definition TypeChecker := TypeId -> TsType.

(** The predicates of ts-api-utils the code calls: tests of flag bits. *)
Module tsutils.
Definition isFlagSet (allFlags flag : Z) : bool := negb (Z.land allFlags flag =? 0)%Z.
Definition isTypeFlagSet (t : TsType) (flag : Z) : bool := isFlagSet (flags t) flag.
Definition isObjectType (t : TsType) : bool := isTypeFlagSet t TypeFlags.Object.
Definition isObjectFlagSet (t : TsType) (flag : Z) : bool := isFlagSet (objectFlags t) flag.
Definition isTypeReference (t : TsType) : bool :=
  isObjectType t && isObjectFlagSet t ObjectFlags.Reference.
Definition isIntrinsicVoidType (t : TsType) : bool := isTypeFlagSet t TypeFlags.Void.
Definition isIntrinsicBooleanType (t : TsType) : bool := isTypeFlagSet t TypeFlags.Boolean.
Definition isIntrinsicStringType (t : TsType) : bool := isTypeFlagSet t TypeFlags.String_.
Definition isIntrinsicNumberType (t : TsType) : bool := isTypeFlagSet t TypeFlags.Number.
Definition isIntrinsicNullType (t : TsType) : bool := isTypeFlagSet t TypeFlags.Null.
Definition isIntrinsicUndefinedType (t : TsType) : bool := isTypeFlagSet t TypeFlags.Undefined.
Definition isIntersectionType (t : TsType) : bool := isTypeFlagSet t TypeFlags.Intersection.
Definition isUnionOrIntersectionType (t : TsType) : bool :=
  isTypeFlagSet t TypeFlags.UnionOrIntersection.
End tsutils.

(** [type.isUnion()] *)
Definition isUnion (t : TsType) : bool := tsutils.isTypeFlagSet t TypeFlags.Union.

(** [type.target] has the given object flag. *)
Definition isTargetObjectFlagSet (t : TsType) (flag : Z) : bool :=
  tsutils.isFlagSet (targetObjectFlags t) flag.

(** [symbol?.name] *)
Definition symbolNameOf (t : TsType) : option string := symbolName <$> symbol t.

(* ===================================================================== *)
(** * Type paths                                                          *)
(* ===================================================================== *)

Inductive TypePathSegment : Set :=
  | FunctionParameter (functionName parameterName : string)
  | FunctionReturn (functionName : string)
  | ObjectProperty (typeName propertyName : string)
  | Array.

Definition typePathSegmentToString (segment : TypePathSegment) : string :=
  match segment with
  | FunctionParameter functionName parameterName =>
      "function '" +:+ functionName +:+ "' parameter '" +:+ parameterName +:+ "'"
  | FunctionReturn functionName => "function '" +:+ functionName +:+ "' return value"
  | ObjectProperty typeName propertyName =>
      "type '" +:+ typeName +:+ "' property '" +:+ propertyName +:+ "'"
  | Array => "array type"
  end.

Definition typePathToString (segments : list TypePathSegment) : string :=
  String.concat ", " (map typePathSegmentToString segments).

Definition generateTypeNameFromTypePath (typePath : list TypePathSegment) : string :=
  String.concat "_"
    (map (fun segment =>
            match segment with
            | FunctionParameter functionName parameterName =>
                functionName +:+ "_arguments_" +:+ parameterName
            | FunctionReturn functionName => functionName +:+ "_output"
            | ObjectProperty _ propertyName => "field_'" +:+ propertyName
            | Array => "array"
            end) typePath).

Definition gqlName (n : string) : string :=
  Js.replaceNonAlphanumerics (Js.removeLeadingNonLetter n).

(* ===================================================================== *)
(** * Completions: a value or a thrown [Error]                            *)
(* ===================================================================== *)

Inductive Completion (A : Type) : Type :=
  | Normal (value : A)
  | Throw (message : string).
Arguments Normal {A} value.
Arguments Throw {A} message.

(** Modelled from the spec: [throwError] of module ./util is not among the
    sources; it raises an [Error] carrying the message (the "unrecoverable
    internal error" of the missing-symbol cases). *)
Definition throwError {A : Type} (message : string) : Completion A := Throw message.

(** [value ?? throwError(message)] *)
Definition orThrowError {A : Type} (value : option A) (message : string) : Completion A :=
  match value with
  | Some a => Normal a
  | None => throwError message
  end.

(** Sequencing: a thrown error passes through. *)
Definition completionBind {A B : Type} (c : Completion A) (k : A -> Completion B)
    : Completion B :=
  match c with
  | Normal a => k a
  | Throw message => Throw message
  end.

(** A template literal renders [null] as the text "null". *)
Definition renderNullable (name : option string) : string := default "null" name.

(* ===================================================================== *)
(** * The name qualifier                                                  *)
(* ===================================================================== *)

Definition qualifyTypeName (typeChecker : TypeChecker) (tsType : TypeId)
    (typePath : list TypePathSegment) (name : option string)
    (functionsFilePath : string) : Completion string :=
  let ty := typeChecker tsType in
  let symbol1 : Completion (option TsSymbol) :=
    match symbol ty with
    | Some s => Normal (Some s)
    | None =>
        if tsutils.isUnionOrIntersectionType ty then
          match types ty with
          | first :: _ => Normal (symbol (typeChecker first))
          | [] => Throw "TypeError: Cannot read properties of undefined (reading 'getSymbol')"
          end
        else Normal None
    end in
  match symbol1 with
  | Throw m => Throw m
  | Normal None =>
      Throw ("Couldn't find symbol for type at " +:+ typePathToString typePath)
  | Normal (Some sym) =>
      let locations := default [] (declarations sym) in
      (* every path through the body of the loop over [locations] leaves the
         function, so only the first location is ever looked at *)
      match locations with
      | where_ :: _ =>
          let short :=
            Js.removeTsSuffix
              (Js.replace (Js.dirname functionsFilePath +:+ "/") "" where_) in
          let nameOrGeneratedName := default (generateTypeNameFromTypePath typePath) name in
          if String.eqb functionsFilePath where_ then
            Normal nameOrGeneratedName
          else if (String.length short <? String.length where_)%nat then
            Normal (gqlName short +:+ "_" +:+ nameOrGeneratedName)
          else
            Throw ("Unsupported location for type "
                   +:+ default (generateTypeNameFromTypePath typePath) name
                   +:+ " in " +:+ where_)
      | [] => Throw ("Couldn't find any declarations for type " +:+ renderNullable name)
      end
  end.

(** [new Map(entries)]: a later entry with a key already present replaces the
    value and keeps the position of the first one. *)
Fixpoint mapSet {V : Type} (key : string) (value : V) (m : list (string * V)) : list (string * V) :=
  match m with
  | [] => [(key, value)]
  | (k, v) :: rest =>
      if String.eqb k key then (k, value) :: rest else (k, v) :: mapSet key value rest
  end.

Definition newMap {V : Type} (entries : list (string * V)) : list (string * V) :=
  fold_left (fun m kv => mapSet (fst kv) (snd kv) m) entries [].

Definition getMembers (propertySymbols : list (string * TypeId)) : list (string * TypeId) :=
  newMap propertySymbols.

Record ObjectTypeInfo : Set := {
  generatedTypeName : string;
  members : list (string * TypeId)
}.

Definition getObjectTypeInfo (typeChecker : TypeChecker) (tsType : TypeId)
    (typePath : list TypePathSegment) (functionsFilePath : string)
    : Completion (option ObjectTypeInfo) :=
  let ty := typeChecker tsType in
  (* Anonymous object type *)
  if tsutils.isObjectType ty && tsutils.isObjectFlagSet ty ObjectFlags.Anonymous then
    completionBind
      (qualifyTypeName typeChecker tsType typePath
         (match aliasSymbol ty with Some _ => Some (rendered ty) | None => None end)
         functionsFilePath)
      (fun name =>
         Normal (Some {| generatedTypeName := name;
                         members := getMembers (propertySymbols ty) |}))
  (* Interface type *)
  else if tsutils.isObjectType ty && tsutils.isObjectFlagSet ty ObjectFlags.Interface then
    Normal (Some {| generatedTypeName :=
                      default (generateTypeNameFromTypePath typePath) (symbolNameOf ty);
                    members := getMembers (propertySymbols ty) |})
  (* Generic interface type *)
  else if tsutils.isTypeReference ty
          && isTargetObjectFlagSet ty ObjectFlags.Interface
          && negb (arrayType ty)
          && negb (bool_decide (symbolNameOf ty = Some "Promise")) then
    Normal (Some {| generatedTypeName :=
                      default (generateTypeNameFromTypePath typePath) (symbolNameOf ty);
                    members := getMembers (propertySymbols ty) |})
  (* Intersection type *)
  else if tsutils.isIntersectionType ty then
    completionBind
      (qualifyTypeName typeChecker tsType typePath
         (match aliasSymbol ty with Some _ => Some (rendered ty) | None => None end)
         functionsFilePath)
      (fun name =>
         Normal (Some {| generatedTypeName := name;
                         members := getMembers (propertySymbols ty) |}))
  else Normal None.

(** [unwrapPromiseType(tsType, typeChecker) !== undefined]; the handle of the
    awaited type is never used. *)
Definition unwrapPromiseType (typeChecker : TypeChecker) (tsType : TypeId) : option TypeId :=
  let ty := typeChecker tsType in
  if tsutils.isTypeReference ty && bool_decide (symbolNameOf ty = Some "Promise") then
    match typeArguments ty with
    | [awaited] => Some awaited
    | _ => None
    end
  else None.

Definition unwrapNullableType (typeChecker : TypeChecker) (tsType : TypeId)
    : option (TypeId * NullOrUndefinability) :=
  let ty := typeChecker tsType in
  if negb (isUnion ty) then None
  else
    let isNullable :=
      existsb (fun t => tsutils.isIntrinsicNullType (typeChecker t)) (types ty) in
    let isUndefined :=
      existsb (fun t => tsutils.isIntrinsicUndefinedType (typeChecker t)) (types ty) in
    let nullOrUndefinability :=
      if isNullable
      then (if isUndefined then Some AcceptsEither else Some AcceptsNullOnly)
      else (if isUndefined then Some AcceptsUndefinedOnly else None) in
    let typesWithoutNullAndUndefined :=
      List.filter (fun t => negb (tsutils.isIntrinsicNullType (typeChecker t))
                            && negb (tsutils.isIntrinsicUndefinedType (typeChecker t)))
                  (types ty) in
    match typesWithoutNullAndUndefined, nullOrUndefinability with
    | [only], Some n => Some (only, n)
    | _, _ => None
    end.

(* ===================================================================== *)
(** * The derivation context and the monad of derivations                 *)
(* ===================================================================== *)

Record TypeDerivationContext : Type := {
  objectTypeDefinitions : gmap string ObjectTypeDefinition;
  scalarTypeDefinitions : gmap string ScalarTypeDefinition;
  typeChecker : TypeChecker;
  functionsFilePath : string
}.

(** [context.objectTypeDefinitions[name] = definition] *)
Definition setObjectType (name : string) (definition : ObjectTypeDefinition)
    (context : TypeDerivationContext) : TypeDerivationContext :=
  {| objectTypeDefinitions := <[name := definition]> (objectTypeDefinitions context);
     scalarTypeDefinitions := scalarTypeDefinitions context;
     typeChecker := typeChecker context;
     functionsFilePath := functionsFilePath context |}.

(** [context.scalarTypeDefinitions[name] = {}] *)
Definition setScalarType (name : string) (context : TypeDerivationContext)
    : TypeDerivationContext :=
  {| objectTypeDefinitions := objectTypeDefinitions context;
     scalarTypeDefinitions := <[name := EmptyScalarDefinition]> (scalarTypeDefinitions context);
     typeChecker := typeChecker context;
     functionsFilePath := functionsFilePath context |}.

Inductive Outcome (A : Type) : Type :=
  | Returned (value : A) (context : TypeDerivationContext)
  | Thrown (message : string)
  | OutOfFuel.
Arguments Returned {A} value context.
Arguments Thrown {A} message.
Arguments OutOfFuel {A}.

Definition M (A : Type) : Type := TypeDerivationContext -> Outcome A.

Definition ret {A : Type} (a : A) : M A := fun context => Returned a context.

Definition bind {A B : Type} (m : M A) (k : A -> M B) : M B :=
  fun context =>
    match m context with
    | Returned a context' => k a context'
    | Thrown message => Thrown message
    | OutOfFuel => OutOfFuel
    end.

Definition throw {A : Type} (message : string) : M A := fun _ => Thrown message.

Definition liftCompletion {A : Type} (c : Completion A) : M A :=
  match c with
  | Normal a => ret a
  | Throw message => throw message
  end.

Definition getContext : M TypeDerivationContext := fun context => Returned context context.

Definition modifyContext (f : TypeDerivationContext -> TypeDerivationContext) : M unit :=
  fun context => Returned tt (f context).

Declare Scope derive_scope.
Delimit Scope derive_scope with derive.
Notation "x <- m ;; k" := (bind m (fun x => k))
  (at level 100, m at next level, right associativity) : derive_scope.
Notation "m ;;; k" := (bind m (fun _ => k))
  (at level 100, right associativity) : derive_scope.
Open Scope derive_scope.

(* ===================================================================== *)
(** * The type derivation engine                                          *)
(* ===================================================================== *)

Definition MAX_TYPE_DERIVATION_RECURSION : nat := 20.

Inductive DeriveSchemaTypeResult : Set :=
  | TypeOk (typeDefinition : TypeDefinition) (warnings : list string)
  | TypeErrors (errors : list string).

(** The recursive knot: [deriveSchemaTypeForTsType] as seen from the handlers
    of the individual type forms, with the context as the state of [M]. *)
Definition Derive : Type :=
  TypeId -> list TypePathSegment -> nat -> M DeriveSchemaTypeResult.

Section Handlers.

Variable deriveSchemaTypeForTsType : Derive.

Definition deriveSchemaTypeIfTsArrayType (tsType : TypeId)
    (typePath : list TypePathSegment) (recursionDepth : nat)
    : M (option DeriveSchemaTypeResult) :=
  context <- getContext;;
  let ty := typeChecker context tsType in
  if arrayType ty && tsutils.isTypeReference ty then
    match typeArguments ty with
    | [innerType] =>
        innerTypeResult <-
          deriveSchemaTypeForTsType innerType (typePath ++ [Array]) (S recursionDepth);;
        match innerTypeResult with
        | TypeErrors _ => ret (Some innerTypeResult)
        | TypeOk typeDefinition warnings =>
            ret (Some (TypeOk (array typeDefinition) warnings))
        end
    | _ => ret None
    end
  else ret None.

Definition deriveSchemaTypeIfScalarType (tsType : TypeId)
    : M (option DeriveSchemaTypeResult) :=
  context <- getContext;;
  let ty := typeChecker context tsType in
  if tsutils.isIntrinsicBooleanType ty then
    modifyContext (setScalarType "Boolean");;;
    ret (Some (TypeOk (named "Boolean" scalar) []))
  else if tsutils.isIntrinsicStringType ty then
    modifyContext (setScalarType "String");;;
    ret (Some (TypeOk (named "String" scalar) []))
  else if tsutils.isIntrinsicNumberType ty then
    modifyContext (setScalarType "Float");;;
    ret (Some (TypeOk (named "Float" scalar) []))
  else ret None.

Definition deriveSchemaTypeIfNullableType (tsType : TypeId)
    (typePath : list TypePathSegment) (recursionDepth : nat)
    : M (option DeriveSchemaTypeResult) :=
  context <- getContext;;
  match unwrapNullableType (typeChecker context) tsType with
  | Some (notNullableType, nullOrUndefinability) =>
      notNullableTypeResult <-
        deriveSchemaTypeForTsType notNullableType typePath (S recursionDepth);;
      match notNullableTypeResult with
      | TypeErrors _ => ret (Some notNullableTypeResult)
      | TypeOk typeDefinition warnings =>
          ret (Some (TypeOk (nullable typeDefinition nullOrUndefinability) warnings))
      end
  | None => ret None
  end.

(** The [flatMap] over the members of an object type, with the pushes to the
    local [errors] and [warnings] arrays it performs on the way. *)
Fixpoint derivePropertyTypes (generatedTypeName : string)
    (typePath : list TypePathSegment) (recursionDepth : nat)
    (members : list (string * TypeId))
    : M (list ObjectPropertyDefinition * list string * list string) :=
  match members with
  | [] => ret ([], [], [])
  | (propertyName, propertyType) :: rest =>
      propertyTypeResult <-
        deriveSchemaTypeForTsType propertyType
          (typePath ++ [ObjectProperty generatedTypeName propertyName])
          (S recursionDepth);;
      others <- derivePropertyTypes generatedTypeName typePath recursionDepth rest;;
      let '(properties, errors, warnings) := others in
      match propertyTypeResult with
      | TypeErrors propertyErrors => ret (properties, propertyErrors ++ errors, warnings)
      | TypeOk typeDefinition propertyWarnings =>
          ret ({| propertyName := propertyName; propertyType := typeDefinition |}
                 :: properties,
               errors, propertyWarnings ++ warnings)
      end
  end.

Definition deriveSchemaTypeIfObjectType (tsType : TypeId)
    (typePath : list TypePathSegment) (recursionDepth : nat)
    : M (option DeriveSchemaTypeResult) :=
  context <- getContext;;
  info <- liftCompletion
            (getObjectTypeInfo (typeChecker context) tsType typePath
               (functionsFilePath context));;
  match info with
  | None => ret None
  | Some info =>
      match objectTypeDefinitions context !! generatedTypeName info with
      | Some _ =>
          (* Shortcut recursion if the type has already been named *)
          ret (Some (TypeOk (named (generatedTypeName info) object) []))
      | None =>
          (* Break infinite recursion *)
          modifyContext (setObjectType (generatedTypeName info) {| properties := [] |});;;
          derived <- derivePropertyTypes (generatedTypeName info) typePath
                       recursionDepth (members info);;
          let '(properties, errors, warnings) := derived in
          match errors with
          | [] =>
              modifyContext
                (setObjectType (generatedTypeName info) {| properties := properties |});;;
              ret (Some (TypeOk (named (generatedTypeName info) object) warnings))
          | _ :: _ => ret (Some (TypeErrors errors))
          end
      end
  end.

(** [a ?? b] on handler results *)
Definition orElse {A : Type} (a : M (option A)) (b : M A) : M A :=
  r <- a;;
  match r with
  | Some v => ret v
  | None => b
  end.

(** The body of [deriveSchemaTypeForTsType]. *)
Definition deriveSchemaTypeForTsType_body (tsType : TypeId)
    (typePath : list TypePathSegment) (recursionDepth : nat)
    : M DeriveSchemaTypeResult :=
  context <- getContext;;
  let ty := typeChecker context tsType in
  let typeRenderedName := rendered ty in
  if (MAX_TYPE_DERIVATION_RECURSION <? recursionDepth)%nat then
    throw ("Schema inference validation exceeded depth "
           +:+ pretty MAX_TYPE_DERIVATION_RECURSION
           +:+ " for type " +:+ typeRenderedName)
  else if unwrapPromiseType (typeChecker context) tsType is Some _ then
    ret (TypeErrors ["Promise types are not supported, but one was encountered in "
                     +:+ typePathToString typePath +:+ "."])
  else if tsutils.isObjectType ty && tsutils.isObjectFlagSet ty ObjectFlags.Class then
    ret (TypeErrors ["Class types are not supported, but one was encountered in "
                     +:+ typePathToString typePath])
  else if tsutils.isIntrinsicVoidType ty then
    ret (TypeErrors ["The void type is not supported, but one was encountered in "
                     +:+ typePathToString typePath])
  else
    orElse (deriveSchemaTypeIfTsArrayType tsType typePath recursionDepth)
      (orElse (deriveSchemaTypeIfScalarType tsType)
         (orElse (deriveSchemaTypeIfNullableType tsType typePath recursionDepth)
            (orElse (deriveSchemaTypeIfObjectType tsType typePath recursionDepth)
               (ret (TypeErrors ["fallback"]))))).

End Handlers.

(** [deriveSchemaTypeForTsType] by recursion on a fuel that the recursion
    ceiling bounds: [deriveSchemaTypeForTsType] below gives it enough. *)
Fixpoint deriveSchemaTypeForTsType_fuel (fuel : nat) : Derive :=
  match fuel with
  | O => fun _ _ _ _ => OutOfFuel
  | S fuel' => deriveSchemaTypeForTsType_body (deriveSchemaTypeForTsType_fuel fuel')
  end.

Definition deriveSchemaTypeForTsType : Derive :=
  fun tsType typePath recursionDepth =>
    deriveSchemaTypeForTsType_fuel
      (S (S MAX_TYPE_DERIVATION_RECURSION - recursionDepth))
      tsType typePath recursionDepth.

(* ===================================================================== *)
(** * Function derivation                                                 *)
(* ===================================================================== *)

(** A parameter symbol of a call signature: [getName()], the rendered
    documentation comment, and the type the checker gives the symbol at its
    value declaration ([None] when the symbol has no value declaration). *)
Record ParameterSymbol : Set := {
  parameterSymbolName : string;
  parameterDocumentation : string;
  valueDeclarationType : option TypeId
}.

Record Signature : Set := {
  signatureParameters : list ParameterSymbol;   (* getParameters() *)
  signatureReturnType : TypeId                  (* getReturnType() *)
}.

(** The symbol of a function: the rendered documentation comment, the names
    of its JSDoc tags and the call signatures of its type. *)
Record FunctionSymbol : Set := {
  functionDocumentation : string;
  jsDocTags : list string;
  callSignatures : list Signature
}.

Inductive SyntaxKind : Set :=
  | ExportKeyword | DefaultKeyword | AsyncKeyword | DeclareKeyword.

Definition SyntaxKind_eqb (a b : SyntaxKind) : bool :=
  match a, b with
  | ExportKeyword, ExportKeyword | DefaultKeyword, DefaultKeyword
  | AsyncKeyword, AsyncKeyword | DeclareKeyword, DeclareKeyword => true
  | _, _ => false
  end.

(** A [ts.FunctionDeclaration]: the text of its name identifier, the symbol
    the checker finds at that identifier, and its modifiers. *)
Record FunctionDeclaration : Set := {
  declarationName : option string;
  declarationSymbol : option FunctionSymbol;
  modifiers : option (list SyntaxKind)
}.

Record DeriveFunctionSchemaResult : Set := {
  resultName : string;
  definition : option FunctionDefinition;
  issues : list string
}.

(** [text ? text : null] *)
Definition nonEmptyOrNull (text : string) : option string :=
  match text with
  | EmptyString => None
  | _ => Some text
  end.

(** The [flatMap] over the parameters of the call signature: the arguments
    kept, the issues pushed, and whether [functionIsBroken] was set. *)
Fixpoint deriveParameters (functionName : string) (parameters : list ParameterSymbol)
    : M (list ArgumentDefinition * list string * bool) :=
  match parameters with
  | [] => ret ([], [], false)
  | paramSymbol :: rest =>
      let paramName := parameterSymbolName paramSymbol in
      let paramDesc := Js.trim (parameterDocumentation paramSymbol) in
      paramType <-
        liftCompletion
          (orThrowError (valueDeclarationType paramSymbol)
             ("Function '" +:+ functionName +:+ "' parameter '" +:+ paramName
              +:+ "' didn't have a value declaration"));;
      let paramTypePath := [FunctionParameter functionName paramName] in
      paramTypeResult <- deriveSchemaTypeForTsType paramType paramTypePath 0;;
      others <- deriveParameters functionName rest;;
      let '(functionSchemaArguments, issues, functionIsBroken) := others in
      match paramTypeResult with
      | TypeErrors errors => ret (functionSchemaArguments, errors ++ issues, true)
      | TypeOk typeDefinition warnings =>
          ret ({| argumentName := paramName;
                  argumentDescription := nonEmptyOrNull paramDesc;
                  argumentType := typeDefinition |} :: functionSchemaArguments,
               warnings ++ issues, functionIsBroken)
      end
  end.

Definition deriveFunctionSchema (functionDeclaration : FunctionDeclaration)
    : M DeriveFunctionSchemaResult :=
  functionName <-
    liftCompletion (orThrowError (declarationName functionDeclaration)
                      "Function didn't have an identifier");;
  functionSymbol <-
    liftCompletion (orThrowError (declarationSymbol functionDeclaration)
                      ("Function '" +:+ functionName +:+ "' didn't have a symbol"));;
  let functionDescription := Js.trim (functionDocumentation functionSymbol) in
  let markedPureInJsDoc := existsb (String.eqb "pure") (jsDocTags functionSymbol) in
  functionCallSig <-
    liftCompletion (orThrowError (head (callSignatures functionSymbol))
                      ("Function '" +:+ functionName +:+ "' didn't have a call signature"));;
  derivedParameters <- deriveParameters functionName (signatureParameters functionCallSig);;
  let '(functionSchemaArguments, parameterIssues, parameterBroken) := derivedParameters in
  returnTypeResult <-
    deriveSchemaTypeForTsType (signatureReturnType functionCallSig)
      [FunctionReturn functionName] 0;;
  match returnTypeResult with
  | TypeErrors errors =>
      ret {| resultName := functionName;
             definition := None;
             issues := parameterIssues ++ errors |}
  | TypeOk typeDefinition warnings =>
      let functionDefinition :=
        {| description := nonEmptyOrNull functionDescription;
           ndcKind := if markedPureInJsDoc then Function_ else Procedure;
           arguments := functionSchemaArguments;
           resultType := typeDefinition |} in
      ret {| resultName := functionName;
             definition := if parameterBroken then None else Some functionDefinition;
             issues := parameterIssues ++ warnings |}
  end.

(* ===================================================================== *)
(** * The schema assembler                                                *)
(* ===================================================================== *)

Inductive Node : Set :=
  | FunctionDeclarationNode (declaration : FunctionDeclaration)
  | OtherNode.

Record SourceFile : Set := {
  fileName : string;
  children : list Node
}.

Definition isExportedFunction (node : FunctionDeclaration) : bool :=
  existsb (fun kind => SyntaxKind_eqb kind ExportKeyword) (default [] (modifiers node)).

(** The declarations collected by [sourceFile.forEachChild]. *)
Definition exportedFunctionDeclarations (sourceFile : SourceFile) : list FunctionDeclaration :=
  flat_map (fun child =>
              match child with
              | FunctionDeclarationNode declaration =>
                  if isExportedFunction declaration then [declaration] else []
              | OtherNode => []
              end) (children sourceFile).

(** [schema.FunctionsSchema & SchemaIssues] *)
Record FunctionsSchemaWithIssues : Type := {
  functions : gmap string FunctionDefinition;
  objectTypes : gmap string ObjectTypeDefinition;
  scalarTypes : gmap string ScalarTypeDefinition;
  functionIssues : gmap string (list string)
}.

(** One round of the loop over the function declarations, on the two local
    dictionaries [schemaFunctions] and [functionIssues]. *)
Definition recordFunctionResult (result : DeriveFunctionSchemaResult)
    (acc : gmap string FunctionDefinition * gmap string (list string))
    : gmap string FunctionDefinition * gmap string (list string) :=
  let '(schemaFunctions, functionIssues) := acc in
  let functionIssues' :=
    match issues result with
    | [] => functionIssues
    | _ :: _ => <[resultName result := issues result]> functionIssues
    end in
  let schemaFunctions' :=
    match definition result with
    | Some definition => <[resultName result := definition]> schemaFunctions
    | None => schemaFunctions
    end in
  (schemaFunctions', functionIssues').

Fixpoint deriveFunctionSchemas (functionDeclarations : list FunctionDeclaration)
    (acc : gmap string FunctionDefinition * gmap string (list string))
    : M (gmap string FunctionDefinition * gmap string (list string)) :=
  match functionDeclarations with
  | [] => ret acc
  | functionDeclaration :: rest =>
      result <- deriveFunctionSchema functionDeclaration;;
      deriveFunctionSchemas rest (recordFunctionResult result acc)
  end.

Definition initialContext (sourceFile : SourceFile) (typeChecker : TypeChecker)
    : TypeDerivationContext :=
  {| objectTypeDefinitions := ∅;
     scalarTypeDefinitions := ∅;
     typeChecker := typeChecker;
     functionsFilePath := fileName sourceFile |}.

Definition deriveSchemaFromFunctions (sourceFile : SourceFile) (typeChecker : TypeChecker)
    : Outcome FunctionsSchemaWithIssues :=
  (collected <- deriveFunctionSchemas (exportedFunctionDeclarations sourceFile) (∅, ∅);;
   typeDerivationContext <- getContext;;
   ret {| functions := fst collected;
          objectTypes := objectTypeDefinitions typeDerivationContext;
          scalarTypes := scalarTypeDefinitions typeDerivationContext;
          functionIssues := snd collected |})
    (initialContext sourceFile typeChecker).

(* ===================================================================== *)
(** * The classification order, as the specification words it             *)
(* ===================================================================== *)

(** The forms of section 4.1, each with what its handler needs. *)
Inductive TypeForm : Set :=
  | PromiseForm
  | ClassForm
  | VoidForm
  | ArrayForm (elementType : TypeId)
  | ScalarForm (scalarName : string)
  | NullableUnionForm (notNullableType : TypeId) (nullOrUndefinability : NullOrUndefinability)
  | StructuredForm
  | UnrecognizedForm.

Definition isClassType (t : TsType) : bool :=
  tsutils.isObjectType t && tsutils.isObjectFlagSet t ObjectFlags.Class.

Definition arrayElementType (t : TsType) : option TypeId :=
  if arrayType t && tsutils.isTypeReference t then
    match typeArguments t with
    | [innerType] => Some innerType
    | _ => None
    end
  else None.

Definition scalarTypeName (t : TsType) : option string :=
  if tsutils.isIntrinsicBooleanType t then Some "Boolean"
  else if tsutils.isIntrinsicStringType t then Some "String"
  else if tsutils.isIntrinsicNumberType t then Some "Float"
  else None.

(** The four shapes [getObjectTypeInfo] recognises. *)
Definition isStructuredType (t : TsType) : bool :=
  (tsutils.isObjectType t && tsutils.isObjectFlagSet t ObjectFlags.Anonymous)
  || (tsutils.isObjectType t && tsutils.isObjectFlagSet t ObjectFlags.Interface)
  || (tsutils.isTypeReference t
      && isTargetObjectFlagSet t ObjectFlags.Interface
      && negb (arrayType t)
      && negb (bool_decide (symbolNameOf t = Some "Promise")))
  || tsutils.isIntersectionType t.

(** Unsupported forms first; then array, scalar, nullable union, structured
    object; anything else is unrecognised. *)
Definition classify (typeChecker : TypeChecker) (tsType : TypeId) : TypeForm :=
  let t := typeChecker tsType in
  if unwrapPromiseType typeChecker tsType is Some _ then PromiseForm
  else if isClassType t then ClassForm
  else if tsutils.isIntrinsicVoidType t then VoidForm
  else match arrayElementType t with
       | Some innerType => ArrayForm innerType
       | None =>
           match scalarTypeName t with
           | Some scalarName => ScalarForm scalarName
           | None =>
               match unwrapNullableType typeChecker tsType with
               | Some (notNullableType, n) => NullableUnionForm notNullableType n
               | None => if isStructuredType t then StructuredForm else UnrecognizedForm
               end
           end
       end.

Definition wrapArrayResult (r : DeriveSchemaTypeResult) : DeriveSchemaTypeResult :=
  match r with
  | TypeErrors _ => r
  | TypeOk typeDefinition warnings => TypeOk (array typeDefinition) warnings
  end.

Definition wrapNullableResult (n : NullOrUndefinability) (r : DeriveSchemaTypeResult)
    : DeriveSchemaTypeResult :=
  match r with
  | TypeErrors _ => r
  | TypeOk typeDefinition warnings => TypeOk (nullable typeDefinition n) warnings
  end.

(** What derivation does for a type of each form. *)
Definition deriveByForm (derive : Derive) (form : TypeForm) (tsType : TypeId)
    (typePath : list TypePathSegment) (recursionDepth : nat)
    : M DeriveSchemaTypeResult :=
  match form with
  | PromiseForm =>
      ret (TypeErrors ["Promise types are not supported, but one was encountered in "
                       +:+ typePathToString typePath +:+ "."])
  | ClassForm =>
      ret (TypeErrors ["Class types are not supported, but one was encountered in "
                       +:+ typePathToString typePath])
  | VoidForm =>
      ret (TypeErrors ["The void type is not supported, but one was encountered in "
                       +:+ typePathToString typePath])
  | ArrayForm innerType =>
      r <- derive innerType (typePath ++ [Array]) (S recursionDepth);;
      ret (wrapArrayResult r)
  | ScalarForm scalarName =>
      modifyContext (setScalarType scalarName);;;
      ret (TypeOk (named scalarName scalar) [])
  | NullableUnionForm notNullableType n =>
      r <- derive notNullableType typePath (S recursionDepth);;
      ret (wrapNullableResult n r)
  | StructuredForm =>
      r <- deriveSchemaTypeIfObjectType derive tsType typePath recursionDepth;;
      ret (default (TypeErrors ["fallback"]) r)
  | UnrecognizedForm => ret (TypeErrors ["fallback"])
  end.

(** The acceptance flag that the markers present in a union stand for. *)
Definition acceptanceOfMarkers (hasNull hasUndefined : bool) : option NullOrUndefinability :=
  match hasNull, hasUndefined with
  | true, true => Some AcceptsEither
  | true, false => Some AcceptsNullOnly
  | false, true => Some AcceptsUndefinedOnly
  | false, false => None
  end.

Definition hasNullMember (typeChecker : TypeChecker) (t : TsType) : bool :=
  existsb (fun m => tsutils.isIntrinsicNullType (typeChecker m)) (types t).

Definition hasUndefinedMember (typeChecker : TypeChecker) (t : TsType) : bool :=
  existsb (fun m => tsutils.isIntrinsicUndefinedType (typeChecker m)) (types t).

(** The members of a union that are neither null nor undefined. *)
Definition membersWithoutNullAndUndefined (typeChecker : TypeChecker) (t : TsType)
    : list TypeId :=
  List.filter (fun m => negb (tsutils.isIntrinsicNullType (typeChecker m))
                        && negb (tsutils.isIntrinsicUndefinedType (typeChecker m)))
              (types t).

(** No [nullable] directly under a [nullable], anywhere in a definition. *)
Fixpoint noNullableInNullable (d : TypeDefinition) : bool :=
  match d with
  | array elementType => noNullableInNullable elementType
  | nullable (nullable _ _) _ => false
  | nullable underlyingType _ => noNullableInNullable underlyingType
  | named _ _ => true
  end.

(** The compiler flattens unions: no member of a union is itself a union. *)
Definition unionsAreFlat (typeChecker : TypeChecker) : Prop :=
  forall tsType member,
    isUnion (typeChecker tsType) = true ->
    In member (types (typeChecker tsType)) ->
    isUnion (typeChecker member) = false.

(** Everything a registry holds respects the nullable invariant. *)
Definition registryNullableFree (registry : gmap string ObjectTypeDefinition) : Prop :=
  forall name entry property,
    registry !! name = Some entry ->
    In property (properties entry) ->
    noNullableInNullable (propertyType property) = true.

(** A context extends another when it still holds every registration of the
    other, unchanged, and reads the same program. *)
Definition extendsContext (before after : TypeDerivationContext) : Prop :=
  objectTypeDefinitions before ⊆ objectTypeDefinitions after
  /\ scalarTypeDefinitions before ⊆ scalarTypeDefinitions after
  /\ typeChecker after = typeChecker before
  /\ functionsFilePath after = functionsFilePath before.

(** A derivation function whose calls at depth [d] only extend the context. *)
Definition extending (derive : Derive) (d : nat) : Prop :=
  forall t p c r c', derive t p d c = Returned r c' -> extendsContext c c'.

(** Array and nullable wrappers around a type. *)
Inductive Wrapper : Set :=
  | ArrayOf
  | NullableOf (n : NullOrUndefinability).

(** [wrapsTo chk ws t target]: unwrapping [t] through the forms [ws], outermost
    first, arrives at [target]. *)
Fixpoint wrapsTo (typeChecker : TypeChecker) (wrappers : list Wrapper)
    (tsType target : TypeId) : Prop :=
  match wrappers with
  | [] => tsType = target
  | ArrayOf :: rest =>
      exists inner, classify typeChecker tsType = ArrayForm inner
                    /\ wrapsTo typeChecker rest inner target
  | NullableOf n :: rest =>
      exists inner, classify typeChecker tsType = NullableUnionForm inner n
                    /\ wrapsTo typeChecker rest inner target
  end.

Definition wrapDefinition (wrappers : list Wrapper) (d : TypeDefinition) : TypeDefinition :=
  fold_right (fun w acc => match w with
                           | ArrayOf => array acc
                           | NullableOf n => nullable acc n
                           end) d wrappers.



(* ===================================================================== *)
(** * The type derivations one function performs                          *)
(* ===================================================================== *)

(** The strings a derivation result adds to the issues of its function. *)
Definition resultIssues (r : DeriveSchemaTypeResult) : list string :=
  match r with
  | TypeErrors errors => errors
  | TypeOk _ warnings => warnings
  end.

Definition isFatal (r : DeriveSchemaTypeResult) : bool :=
  match r with
  | TypeErrors _ => true
  | TypeOk _ _ => false
  end.

(** The derivation results of the parameters of a call signature, in
    declaration order, each with its parameter. *)
Fixpoint deriveParameterTypes (functionName : string) (parameters : list ParameterSymbol)
    : M (list (ParameterSymbol * DeriveSchemaTypeResult)) :=
  match parameters with
  | [] => ret []
  | paramSymbol :: rest =>
      paramType <-
        liftCompletion
          (orThrowError (valueDeclarationType paramSymbol)
             ("Function '" +:+ functionName +:+ "' parameter '"
              +:+ parameterSymbolName paramSymbol
              +:+ "' didn't have a value declaration"));;
      r <- deriveSchemaTypeForTsType paramType
             [FunctionParameter functionName (parameterSymbolName paramSymbol)] 0;;
      others <- deriveParameterTypes functionName rest;;
      ret ((paramSymbol, r) :: others)
  end.

(** The arguments a function definition keeps: one for each parameter whose
    type derived. *)
Definition keptArguments (results : list (ParameterSymbol * DeriveSchemaTypeResult))
    : list ArgumentDefinition :=
  flat_map (fun pr =>
              match snd pr with
              | TypeErrors _ => []
              | TypeOk typeDefinition _ =>
                  [{| argumentName := parameterSymbolName (fst pr);
                      argumentDescription :=
                        nonEmptyOrNull (Js.trim (parameterDocumentation (fst pr)));
                      argumentType := typeDefinition |}]
              end) results.

(** The results of all functions of a pass, in declaration order. *)
Fixpoint deriveAllFunctionSchemas (functionDeclarations : list FunctionDeclaration)
    : M (list DeriveFunctionSchemaResult) :=
  match functionDeclarations with
  | [] => ret []
  | functionDeclaration :: rest =>
      result <- deriveFunctionSchema functionDeclaration;;
      others <- deriveAllFunctionSchemas rest;;
      ret (result :: others)
  end.

(** What a pass that completes hands to its caller. *)
Definition passResult (o : Outcome FunctionsSchemaWithIssues) : option FunctionsSchemaWithIssues :=
  match o with
  | Returned schema _ => Some schema
  | _ => None
  end.

(* ===================================================================== *)
(** * Vocabulary of the properties                                       *)
(* ===================================================================== *)


(** The definition of a function all of whose types derived. *)
Definition functionDefinitionOf (functionSymbol : FunctionSymbol)
    (results : list (ParameterSymbol * DeriveSchemaTypeResult))
    (returnDefinition : TypeDefinition) : FunctionDefinition :=
  {| description := nonEmptyOrNull (Js.trim (functionDocumentation functionSymbol));
     ndcKind := if existsb (String.eqb "pure") (jsDocTags functionSymbol)
                then Function_ else Procedure;
     arguments := keptArguments results;
     resultType := returnDefinition |}.

(** The result of a function, from the results of its type derivations. *)
Definition functionResultOf (functionName : string) (functionSymbol : FunctionSymbol)
    (results : list (ParameterSymbol * DeriveSchemaTypeResult))
    (returnResult : DeriveSchemaTypeResult) : DeriveFunctionSchemaResult :=
  {| resultName := functionName;
     definition :=
       match returnResult with
       | TypeErrors _ => None
       | TypeOk returnDefinition _ =>
           if existsb (fun pr => isFatal (snd pr)) results then None
           else Some (functionDefinitionOf functionSymbol results returnDefinition)
       end;
     issues := flat_map (fun pr => resultIssues (snd pr)) results
               ++ resultIssues returnResult |}.

(** The two dictionaries after the loop has recorded [results]. *)
Definition recordAll (results : list DeriveFunctionSchemaResult)
    (acc : gmap string FunctionDefinition * gmap string (list string))
    : gmap string FunctionDefinition * gmap string (list string) :=
  fold_left (fun acc result => recordFunctionResult result acc) results acc.


(** A declaration without a name identifier, a symbol or a call signature. *)
Definition isMalformed (functionDeclaration : FunctionDeclaration) : Prop :=
  declarationName functionDeclaration = None
  \/ declarationSymbol functionDeclaration = None
  \/ exists functionSymbol,
       declarationSymbol functionDeclaration = Some functionSymbol
       /\ callSignatures functionSymbol = [].

(** No form that is tried before the nullable union matches. *)
Definition reachesNullableCheck (typeChecker : TypeChecker) (tsType : TypeId) : Prop :=
  unwrapPromiseType typeChecker tsType = None
  /\ isClassType (typeChecker tsType) = false
  /\ tsutils.isIntrinsicVoidType (typeChecker tsType) = false
  /\ arrayElementType (typeChecker tsType) = None
  /\ scalarTypeName (typeChecker tsType) = None.

Definition isNullableDefinition (d : TypeDefinition) : bool :=
  match d with
  | nullable _ _ => true
  | _ => false
  end.

(** What the nullable invariant asks of a derivation function at depth [d]. *)
Definition nullableSound (typeChecker0 : TypeChecker) (derive : Derive) (d : nat) : Prop :=
  forall tsType typePath context r context',
    typeChecker context = typeChecker0 ->
    derive tsType typePath d context = Returned r context' ->
    (forall definition warnings,
        r = TypeOk definition warnings ->
        noNullableInNullable definition = true
        /\ (isNullableDefinition definition = true ->
            isUnion (typeChecker0 tsType) = true))
    /\ (registryNullableFree (objectTypeDefinitions context) ->
        registryNullableFree (objectTypeDefinitions context')).

(** The symbol the qualifier takes for a type: its own or, for a union or
    intersection without one, that of its first constituent. *)
Definition resolveSymbol (typeChecker : TypeChecker) (tsType : TypeId) : option TsSymbol :=
  match symbol (typeChecker tsType) with
  | Some s => Some s
  | None =>
      if tsutils.isUnionOrIntersectionType (typeChecker tsType) then
        match types (typeChecker tsType) with
        | first :: _ => symbol (typeChecker first)
        | [] => None
        end
      else None
  end.

(** The file of the first declaration of the symbol the qualifier looks at. *)
Definition firstDeclarationFile (typeChecker : TypeChecker) (tsType : TypeId)
    : option string :=
  s ← resolveSymbol typeChecker tsType;
  ds ← declarations s;
  head ds.





(* ===================================================================== *)
(** * Example programs                                                    *)
(* ===================================================================== *)

Module Fixtures.

Definition entryFile : string := "/functions/index.ts".

Definition libFile : string := "/functions/node_modules/typescript/lib/lib.es5.d.ts".

Definition intrinsicType (flag : Z) (text : string) : TsType :=
  {| flags := flag; objectFlags := 0; targetObjectFlags := 0; symbol := None;
     aliasSymbol := None; types := []; typeArguments := []; arrayType := false;
     rendered := text; propertySymbols := [] |}.

Definition numberType : TsType := intrinsicType TypeFlags.Number "number".
Definition stringType : TsType := intrinsicType TypeFlags.String_ "string".
Definition booleanType : TsType := intrinsicType TypeFlags.Boolean "boolean".
Definition nullType : TsType := intrinsicType TypeFlags.Null "null".
Definition undefinedType : TsType := intrinsicType TypeFlags.Undefined "undefined".
Definition voidType : TsType := intrinsicType TypeFlags.Void "void".
Definition anyType : TsType := intrinsicType 1 "any".

Definition unionType (members : list TypeId) (alias : option string) (text : string)
    : TsType :=
  {| flags := TypeFlags.Union; objectFlags := 0; targetObjectFlags := 0; symbol := None;
     aliasSymbol :=
       (fun n => {| symbolName := n; declarations := Some [entryFile] |}) <$> alias;
     types := members; typeArguments := []; arrayType := false;
     rendered := text; propertySymbols := [] |}.

(** An instantiation [Name<argument>] of a generic interface of the standard
    library. *)
Definition referenceType (name : string) (isArray : bool) (argument : TypeId)
    (text : string) : TsType :=
  {| flags := TypeFlags.Object; objectFlags := ObjectFlags.Reference;
     targetObjectFlags := Z.lor ObjectFlags.Interface ObjectFlags.Reference;
     symbol := Some {| symbolName := name; declarations := Some [libFile] |};
     aliasSymbol := None; types := []; typeArguments := [argument];
     arrayType := isArray; rendered := text; propertySymbols := [] |}.


Definition promiseTypeOf (awaited : TypeId) (text : string) : TsType :=
  referenceType "Promise" false awaited text.

(** A type literal [{ ... }] written in [declaredIn], possibly the body of a
    type alias. *)
Definition anonymousObjectType (declaredIn : string) (alias : option string)
    (props : list (string * TypeId)) : TsType :=
  {| flags := TypeFlags.Object; objectFlags := ObjectFlags.Anonymous;
     targetObjectFlags := 0;
     symbol := Some {| symbolName := "__type"; declarations := Some [declaredIn] |};
     aliasSymbol :=
       (fun n => {| symbolName := n; declarations := Some [declaredIn] |}) <$> alias;
     types := []; typeArguments := []; arrayType := false;
     rendered := default "{ ... }" alias; propertySymbols := props |}.

Definition interfaceType (name declaredIn : string) (props : list (string * TypeId))
    : TsType :=
  {| flags := TypeFlags.Object; objectFlags := ObjectFlags.Interface;
     targetObjectFlags := 0;
     symbol := Some {| symbolName := name; declarations := Some [declaredIn] |};
     aliasSymbol := None; types := []; typeArguments := []; arrayType := false;
     rendered := name; propertySymbols := props |}.

Definition classType (name : string) : TsType :=
  {| flags := TypeFlags.Object;
     objectFlags := Z.lor ObjectFlags.Class ObjectFlags.Reference;
     targetObjectFlags := Z.lor ObjectFlags.Class ObjectFlags.Reference;
     symbol := Some {| symbolName := name; declarations := Some [entryFile] |};
     aliasSymbol := None; types := []; typeArguments := []; arrayType := false;
     rendered := name; propertySymbols := [] |}.

Definition parameter (name : string) (type : TypeId) : ParameterSymbol :=
  {| parameterSymbolName := name; parameterDocumentation := "";
     valueDeclarationType := Some type |}.

Definition functionSymbolOf (parameters : list ParameterSymbol) (returnType : TypeId)
    : FunctionSymbol :=
  {| functionDocumentation := ""; jsDocTags := [];
     callSignatures := [ {| signatureParameters := parameters;
                            signatureReturnType := returnType |} ] |}.

Definition exportedDeclaration (name : string) (parameters : list ParameterSymbol)
    (returnType : TypeId) : FunctionDeclaration :=
  {| declarationName := Some name;
     declarationSymbol := Some (functionSymbolOf parameters returnType);
     modifiers := Some [ExportKeyword] |}.

Definition exportedFunction (name : string) (parameters : list ParameterSymbol)
    (returnType : TypeId) : Node :=
  FunctionDeclarationNode (exportedDeclaration name parameters returnType).

Definition entrySource (nodes : list Node) : SourceFile :=
  {| fileName := entryFile; children := nodes |}.

Definition contextOf (checker : TypeChecker) : TypeDerivationContext :=
  {| objectTypeDefinitions := ∅; scalarTypeDefinitions := ∅;
     typeChecker := checker; functionsFilePath := entryFile |}.

(** [type Broken = { a: number; b: Promise<string> }] and
    [type Inner = { v: number }], [type Outer = { inner: Inner; bad: void }];
    [f(x: Broken): number], [g(y: Broken): number], [h(z: Outer): number]. *)
Definition brokenChecker : TypeChecker := fun id =>
  match id with
  | 0 => numberType
  | 1 => stringType
  | 2 => promiseTypeOf 1 "Promise<string>"
  | 3 => anonymousObjectType entryFile (Some "Broken") [("a", 0); ("b", 2)]
  | 4 => anonymousObjectType entryFile (Some "Inner") [("v", 0)]
  | 5 => voidType
  | 6 => anonymousObjectType entryFile (Some "Outer") [("inner", 4); ("bad", 5)]
  | _ => anyType
  end%nat.

Definition brokenSource : SourceFile :=
  entrySource [ exportedFunction "f" [parameter "x" 3] 0;
                exportedFunction "g" [parameter "y" 3] 0 ].

(** [m(a: Promise<string>, b: number, c: void): Promise<string>] next to
    [n(b: number): number]. *)
Definition severalProblemsSource : SourceFile :=
  entrySource [ exportedFunction "m" [parameter "a" 2; parameter "b" 0; parameter "c" 5] 2;
                exportedFunction "n" [parameter "b" 0] 0 ].


(** [type T = { next: T } | null] (the alias names the union, the type
    literal inside has no name of its own) and
    [type Node = { next: Node | null; value: number }];
    [c] is an object whose type [typeof c] has no name. *)
Definition listChecker : TypeChecker := fun id =>
  match id with
  | 0 => nullType
  | 1 => unionType [0; 2] (Some "T") "T"
  | 2 => anonymousObjectType entryFile None [("next", 1)]
  | 3 => numberType
  | 4 => anonymousObjectType entryFile (Some "Node") [("next", 5); ("value", 3)]
  | 5 => unionType [0; 4] None "Node | null"
  | 6 => anonymousObjectType entryFile None [("a", 3)]
  | 7 => undefinedType
  | 8 => stringType
  | 9 => unionType [0; 7; 8] None "string | null | undefined"
  | 10 => unionType [0; 3; 8] None "string | number | null"
  | _ => anyType
  end%nat.





(** Types declared in other files: a type alias in a module outside the
    directory of the entry file, an interface outside it, aliases in two
    modules next to the entry file, and one in a .ts file outside. *)
Definition locationChecker : TypeChecker := fun id =>
  match id with
  | 0 => numberType
  | 1 => anonymousObjectType "/shared/shapes.mts" (Some "Shape") [("side", 0)]
  | 2 => interfaceType "Api" "/shared/api.ts" [("version", 0)]
  | 3 => anonymousObjectType "/functions/a-b.ts" (Some "T") [("left", 0)]
  | 4 => anonymousObjectType "/functions/a_b.ts" (Some "T") [("right", 0)]
  | 5 => anonymousObjectType "/shared/shapes.ts" (Some "Shape") [("side", 0)]
  | 6 => anonymousObjectType "/functions/lib/geo.ts" (Some "Point") [("x", 0)]
  | 7 => anonymousObjectType entryFile (Some "Local") [("x", 0)]
  | _ => anyType
  end%nat.



Definition collidingSource : SourceFile :=
  entrySource [ exportedFunction "f" [parameter "l" 3; parameter "r" 4] 0 ].

(** [f(p: { a: { b: number } }): number]: two type literals without a name. *)
Definition nestedChecker : TypeChecker := fun id =>
  match id with
  | 0 => numberType
  | 1 => anonymousObjectType entryFile None [("b", 0)]
  | 2 => anonymousObjectType entryFile None [("a", 1)]
  | _ => anyType
  end%nat.

Definition nestedSource : SourceFile :=
  entrySource [ exportedFunction "f" [parameter "p" 2] 0 ].

(** A declaration without a name after a function that derives. *)
Definition namelessSource : SourceFile :=
  entrySource [ exportedFunction "ok" [] 0;
                FunctionDeclarationNode
                  {| declarationName := None;
                     declarationSymbol := Some (functionSymbolOf [] 0);
                     modifiers := Some [ExportKeyword; DefaultKeyword] |} ].

End Fixtures.

(* ===================================================================== *)
(** * Vocabulary of the further properties                                *)
(* ===================================================================== *)

(** Every reference of a definition is to a registered type. *)
Fixpoint definitionClosed (objectTypes : gmap string ObjectTypeDefinition)
    (scalarTypes : gmap string ScalarTypeDefinition) (d : TypeDefinition) : Prop :=
  match d with
  | array elementType => definitionClosed objectTypes scalarTypes elementType
  | nullable underlyingType _ => definitionClosed objectTypes scalarTypes underlyingType
  | named name scalar => is_Some (scalarTypes !! name)
  | named name object => is_Some (objectTypes !! name)
  end.

(** The properties of every registered object type refer to registered
    types. *)
Definition registryClosed (objectTypes : gmap string ObjectTypeDefinition)
    (scalarTypes : gmap string ScalarTypeDefinition) : Prop :=
  forall name entry property,
    objectTypes !! name = Some entry ->
    In property (properties entry) ->
    definitionClosed objectTypes scalarTypes (propertyType property).

(** Only the three scalar names are registered. *)
Definition scalarNamesKnown (scalarTypes : gmap string ScalarTypeDefinition) : Prop :=
  forall name,
    is_Some (scalarTypes !! name) ->
    name = "Boolean" \/ name = "String" \/ name = "Float".

(** No registered object type has two properties of the same name. *)
Definition propertiesDistinct (objectTypes : gmap string ObjectTypeDefinition) : Prop :=
  forall name entry,
    objectTypes !! name = Some entry ->
    NoDup (map propertyName (properties entry)).

Definition registriesWellFormed (objectTypes : gmap string ObjectTypeDefinition)
    (scalarTypes : gmap string ScalarTypeDefinition) : Prop :=
  registryClosed objectTypes scalarTypes
  /\ scalarNamesKnown scalarTypes
  /\ propertiesDistinct objectTypes.

Definition contextWellFormed (context : TypeDerivationContext) : Prop :=
  registriesWellFormed (objectTypeDefinitions context) (scalarTypeDefinitions context).

Definition resultClosed (context : TypeDerivationContext) (r : DeriveSchemaTypeResult)
    : Prop :=
  match r with
  | TypeOk typeDefinition _ =>
      definitionClosed (objectTypeDefinitions context) (scalarTypeDefinitions context)
        typeDefinition
  | TypeErrors _ => True
  end.

(** What well-formedness asks of a derivation function at depth [d]. *)
Definition keepsWellFormed (derive : Derive) (d : nat) : Prop :=
  forall tsType typePath context r context',
    contextWellFormed context ->
    derive tsType typePath d context = Returned r context' ->
    contextWellFormed context' /\ resultClosed context' r.

(** The types of a function definition refer to registered types. *)
Definition functionDefinitionClosed (objectTypes : gmap string ObjectTypeDefinition)
    (scalarTypes : gmap string ScalarTypeDefinition) (f : FunctionDefinition) : Prop :=
  definitionClosed objectTypes scalarTypes (resultType f)
  /\ forall argument,
       In argument (arguments f) ->
       definitionClosed objectTypes scalarTypes (argumentType argument).

(** A context that has every key of another, in both registries. *)
Definition keepsKeys (before after : TypeDerivationContext) : Prop :=
  (forall name, is_Some (objectTypeDefinitions before !! name) ->
                is_Some (objectTypeDefinitions after !! name))
  /\ (forall name, is_Some (scalarTypeDefinitions before !! name) ->
                   is_Some (scalarTypeDefinitions after !! name)).

(** A context whose scalar registry has, beyond the keys of another, only
    the three scalar names. *)
Definition addsKnownScalars (before after : TypeDerivationContext) : Prop :=
  forall name,
    is_Some (scalarTypeDefinitions after !! name) ->
    is_Some (scalarTypeDefinitions before !! name)
    \/ name = "Boolean" \/ name = "String" \/ name = "Float".

(** An error message of one of the unsupported forms, found at [typePath]. *)
Definition reportsPath (typePath : list TypePathSegment) (e : string) : Prop :=
  e = "Promise types are not supported, but one was encountered in "
      +:+ typePathToString typePath +:+ "."
  \/ e = "Class types are not supported, but one was encountered in "
         +:+ typePathToString typePath
  \/ e = "The void type is not supported, but one was encountered in "
         +:+ typePathToString typePath.

(** Every error is the fallback error or reports a path that extends
    [typePath]. *)
Definition errorsWithin (typePath : list TypePathSegment) (errors : list string) : Prop :=
  forall e,
    In e errors ->
    e = "fallback" \/ exists suffix, reportsPath (typePath ++ suffix) e.

(** The characters of identifiers: letters, digits and the underscore. *)
Definition isNameCharacter (c : ascii) : bool :=
  Js.isDigit c || Js.isLetter c || Ascii.eqb c "_".

Definition isAlphanumeric (c : ascii) : bool := Js.isDigit c || Js.isLetter c.

(** The first character of a string, if any, satisfies [p]. *)
Definition startsWith (p : ascii -> bool) (s : string) : bool :=
  match s with
  | EmptyString => false
  | String c _ => p c
  end.

(** The last character of a string, if any, satisfies [p]. *)
Fixpoint endsWith (p : ascii -> bool) (s : string) : bool :=
  match s with
  | EmptyString => false
  | String c EmptyString => p c
  | String _ rest => endsWith p rest
  end.

(** A description as the code stores it: absent, or text that is not empty
    and has no white space at either end. *)
Definition isTidyDescription (text : option string) : Prop :=
  match text with
  | None => True
  | Some s =>
      s <> "" /\ startsWith Js.isWhitespace s = false
      /\ endsWith Js.isWhitespace s = false
  end.

(** A parameter symbol without a value declaration. *)
Definition hasUndeclaredParameter (functionDeclaration : FunctionDeclaration) : Prop :=
  exists functionSymbol functionCallSig paramSymbol,
    declarationSymbol functionDeclaration = Some functionSymbol
    /\ head (callSignatures functionSymbol) = Some functionCallSig
    /\ In paramSymbol (signatureParameters functionCallSig)
    /\ valueDeclarationType paramSymbol = None.


(** The error for a type of one of the three unsupported forms. *)
Definition unsupportedMessage (typeChecker : TypeChecker) (tsType : TypeId)
    (typePath : list TypePathSegment) : option string :=
  match classify typeChecker tsType with
  | PromiseForm =>
      Some ("Promise types are not supported, but one was encountered in "
            +:+ typePathToString typePath +:+ ".")
  | ClassForm =>
      Some ("Class types are not supported, but one was encountered in "
            +:+ typePathToString typePath)
  | VoidForm =>
      Some ("The void type is not supported, but one was encountered in "
            +:+ typePathToString typePath)
  | _ => None
  end.

(** A scalar under array and nullable wrappers, no more of them than the
    recursion ceiling allows, and the definition it stands for. *)
Definition isWrappedScalar (typeChecker : TypeChecker) (tsType : TypeId)
    (typeDefinition : TypeDefinition) : Prop :=
  exists wrappers target scalarName,
    wrapsTo typeChecker wrappers tsType target
    /\ classify typeChecker target = ScalarForm scalarName
    /\ length wrappers <= MAX_TYPE_DERIVATION_RECURSION
    /\ typeDefinition = wrapDefinition wrappers (named scalarName scalar).

(** A parameter whose declared type is a wrapped scalar. *)
Definition hasWrappedScalarType (typeChecker : TypeChecker) (paramSymbol : ParameterSymbol)
    (typeDefinition : TypeDefinition) : Prop :=
  exists paramType,
    valueDeclarationType paramSymbol = Some paramType
    /\ isWrappedScalar typeChecker paramType typeDefinition.

(** The argument of a parameter whose type derived as [typeDefinition]. *)
Definition argumentOf (paramSymbol : ParameterSymbol) (typeDefinition : TypeDefinition)
    : ArgumentDefinition :=
  {| argumentName := parameterSymbolName paramSymbol;
     argumentDescription := nonEmptyOrNull (Js.trim (parameterDocumentation paramSymbol));
     argumentType := typeDefinition |}.

(* ===================================================================== *)
(** * The entry point                                                     *)
(* ===================================================================== *)

(** A [ts.Diagnostic], by its code and message text. *)
Record Diagnostic : Set := {
  code : Z;
  messageText : string
}.

(** The JSON of a [tsconfig.json]. *)
#[warnings="-register-all"]
Inductive Json : Set :=
  | JsonNull
  | JsonBoolean (b : bool)
  | JsonNumber (n : Z)
  | JsonString (s : string)
  | JsonArray (items : list Json)
  | JsonObject (fields : list (string * Json)).

(** What [ts.readConfigFile] gives. *)
Record ConfigFileRead : Set := {
  config : Json;
  error : option Diagnostic
}.

(** A [ts.Program], by the two methods the code calls. *)
Record TsProgram : Type := {
  getSourceFile : string -> option SourceFile;
  getTypeChecker : TypeChecker
}.

(** The functions of the TypeScript compiler that the entry point calls,
    with the file system of [ts.sys] behind them.  They are taken to return;
    the compiler options and the compiler host are whatever the compiler
    makes them. *)
Record TypeScriptApi : Type := {
  CompilerOptions : Type;
  CompilerHost : Type;
  findConfigFile : string -> option string;
  readConfigFile : string -> ConfigFileRead;
  parseJsonConfigFileContent : Json -> string -> CompilerOptions;
  createCompilerHost : CompilerOptions -> CompilerHost;
  createProgram : list string -> CompilerOptions -> CompilerHost -> TsProgram;
  getPreEmitDiagnostics : TsProgram -> list Diagnostic
}.

(** What the entry point throws: a [TsError] with its diagnostics, or a plain
    [Error]. *)
Inductive Exception : Set :=
  | TsError (diagnosticErrors : list Diagnostic) (message : string)
  | Error (message : string).

Inductive Attempt (A : Type) : Type :=
  | Success (value : A)
  | Failure (exception : Exception)
  | Unfinished.
Arguments Success {A} value.
Arguments Failure {A} exception.
Arguments Unfinished {A}.

Definition defaultTsConfig : Json :=
  JsonObject [("extends", JsonString "./node_modules/@tsconfig/node18/tsconfig.json")].

Definition loadTsConfig (ts : TypeScriptApi) (functionsDir : string) : Attempt Json :=
  match findConfigFile ts functionsDir with
  | Some configPath =>
      let configFile := readConfigFile ts configPath in
      match error configFile with
      | Some configError =>
          Failure (TsError [configError]
                     "Error loading TypeScript compiler configuration (tsconfig.json)")
      | None => Success (config configFile)
      end
  | None => Success defaultTsConfig
  end.

(** The program the compiler makes of the functions file under [tsConfig]. *)
Definition programOf (ts : TypeScriptApi) (functionsFilePath : string) (tsConfig : Json)
    : TsProgram :=
  let fileDirectory := Js.dirname functionsFilePath in
  let parsedCommandLineOptions := parseJsonConfigFileContent ts tsConfig fileDirectory in
  let compilerHost := createCompilerHost ts parsedCommandLineOptions in
  createProgram ts [functionsFilePath] parsedCommandLineOptions compilerHost.

Definition createTsProgram (ts : TypeScriptApi) (functionsFilePath : string)
    : Attempt TsProgram :=
  let fileDirectory := Js.dirname functionsFilePath in
  match loadTsConfig ts fileDirectory with
  | Success tsConfig => Success (programOf ts functionsFilePath tsConfig)
  | Failure exception => Failure exception
  | Unfinished => Unfinished
  end.

Definition throwIfCompilerErrors (ts : TypeScriptApi) (program : TsProgram) : Attempt unit :=
  let diagnostics := getPreEmitDiagnostics ts program in
  if (0 <? length diagnostics)%nat
  then Failure (TsError diagnostics "Compiler errors")
  else Success tt.

Definition deriveSchema (ts : TypeScriptApi) (functionsFilePath : string)
    : Attempt FunctionsSchemaWithIssues :=
  match createTsProgram ts functionsFilePath with
  | Success program =>
      match throwIfCompilerErrors ts program with
      | Success _ =>
          match getSourceFile program functionsFilePath with
          | None =>
              Failure (Error ("'" +:+ functionsFilePath
                              +:+ "' not returned as a TypeScript compiler source file"))
          | Some sourceFile =>
              match deriveSchemaFromFunctions sourceFile (getTypeChecker program) with
              | Returned schema _ => Success schema
              | Thrown message => Failure (Error message)
              | OutOfFuel => Unfinished
              end
          end
      | Failure exception => Failure exception
      | Unfinished => Unfinished
      end
  | Failure exception => Failure exception
  | Unfinished => Unfinished
  end.

Module MoreFixtures.

Definition undeclaredParameter : ParameterSymbol :=
  {| parameterSymbolName := "b"; parameterDocumentation := "";
     valueDeclarationType := None |}.

(** [h(a: number, b)], where the symbol of [b] has no value declaration. *)
Definition undeclaredDeclaration : FunctionDeclaration :=
  {| declarationName := Some "h";
     declarationSymbol :=
       Some {| functionDocumentation := ""; jsDocTags := [];
               callSignatures :=
                 [ {| signatureParameters := [Fixtures.parameter "a" 0; undeclaredParameter];
                      signatureReturnType := 0 |} ] |};
     modifiers := Some [ExportKeyword] |}.

Definition undeclaredSource : SourceFile :=
  Fixtures.entrySource [ Fixtures.exportedFunction "ok" [] 0;
                         FunctionDeclarationNode undeclaredDeclaration ].

(** [/** Adds one. */ export function inc(/** the number */ n: number): number],
    with white space around the two comments. *)
Definition documentedDeclaration : FunctionDeclaration :=
  {| declarationName := Some "inc";
     declarationSymbol :=
       Some {| functionDocumentation := "  Adds one. "; jsDocTags := ["pure"];
               callSignatures :=
                 [ {| signatureParameters :=
                        [ {| parameterSymbolName := "n";
                             parameterDocumentation := " the number ";
                             valueDeclarationType := Some 0 |};
                          {| parameterSymbolName := "m";
                             parameterDocumentation := "   ";
                             valueDeclarationType := Some 0 |} ];
                      signatureReturnType := 0 |} ] |};
     modifiers := Some [ExportKeyword] |}.

Definition documentedSource : SourceFile :=
  Fixtures.entrySource [FunctionDeclarationNode documentedDeclaration].


(** A compiler without a [tsconfig.json], whose program of the entry file is
    [source] checked by [checker] and has the given diagnostics. *)
Definition compiler (source : SourceFile) (checker : TypeChecker)
    (diagnostics : list Diagnostic) : TypeScriptApi :=
  {| CompilerOptions := Json;
     CompilerHost := unit;
     findConfigFile := fun _ => None;
     readConfigFile := fun _ => {| config := JsonNull; error := None |};
     parseJsonConfigFileContent := fun json _ => json;
     createCompilerHost := fun _ => tt;
     createProgram := fun _ _ _ =>
       {| getSourceFile := fun file =>
            if String.eqb file (fileName source) then Some source else None;
          getTypeChecker := checker |};
     getPreEmitDiagnostics := fun _ => diagnostics |}.

(** A compiler that finds a [tsconfig.json] it cannot read. *)
Definition compilerWithBadConfig (diagnostic : Diagnostic) : TypeScriptApi :=
  {| CompilerOptions := Json;
     CompilerHost := unit;
     findConfigFile := fun functionsDir => Some (functionsDir +:+ "/tsconfig.json");
     readConfigFile := fun _ => {| config := JsonObject []; error := Some diagnostic |};
     parseJsonConfigFileContent := fun json _ => json;
     createCompilerHost := fun _ => tt;
     createProgram := fun _ _ _ =>
       {| getSourceFile := fun _ => None;
          getTypeChecker := Fixtures.brokenChecker |};
     getPreEmitDiagnostics := fun _ => [] |}.

End MoreFixtures.

(* ===================================================================== *)
(** * Properties                                                          *)
(* ===================================================================== *)

(** ** The handlers, one equation each *)

Ltac run_monad :=
  unfold orElse, bind, ret, throw, getContext, modifyContext, liftCompletion in *.

Lemma deriveSchemaTypeIfTsArrayType_spec (derive : Derive) tsType typePath recursionDepth context :
  deriveSchemaTypeIfTsArrayType derive tsType typePath recursionDepth context =
  match arrayElementType (typeChecker context tsType) with
  | Some innerType =>
      (r <- derive innerType (typePath ++ [Array]) (S recursionDepth);;
       ret (Some (wrapArrayResult r))) context
  | None => Returned None context
  end.
Proof.
  unfold deriveSchemaTypeIfTsArrayType, arrayElementType. run_monad.
  destruct (arrayType _ && _); [|reflexivity].
  destruct (typeArguments _) as [|inner [|]]; try reflexivity.
  destruct (derive _ _ _ _) as [[]| |]; reflexivity.
Qed.

Lemma deriveSchemaTypeIfScalarType_spec tsType context :
  deriveSchemaTypeIfScalarType tsType context =
  match scalarTypeName (typeChecker context tsType) with
  | Some scalarName =>
      Returned (Some (TypeOk (named scalarName scalar) [])) (setScalarType scalarName context)
  | None => Returned None context
  end.
Proof.
  unfold deriveSchemaTypeIfScalarType, scalarTypeName. run_monad.
  repeat case_match; reflexivity.
Qed.

Lemma deriveSchemaTypeIfNullableType_spec (derive : Derive) tsType typePath recursionDepth context :
  deriveSchemaTypeIfNullableType derive tsType typePath recursionDepth context =
  match unwrapNullableType (typeChecker context) tsType with
  | Some (notNullableType, n) =>
      (r <- derive notNullableType typePath (S recursionDepth);;
       ret (Some (wrapNullableResult n r))) context
  | None => Returned None context
  end.
Proof.
  unfold deriveSchemaTypeIfNullableType. run_monad.
  destruct (unwrapNullableType _ _) as [[inner n]|]; [|reflexivity].
  destruct (derive _ _ _ _) as [[]| |]; reflexivity.
Qed.

Lemma getObjectTypeInfo_unrecognized typeChecker tsType typePath file :
  isStructuredType (typeChecker tsType) = false ->
  getObjectTypeInfo typeChecker tsType typePath file = Normal None.
Proof.
  unfold isStructuredType, getObjectTypeInfo. intros H.
  repeat (apply orb_false_iff in H; destruct H as [H ?]).
  cbv zeta. rewrite H.
  repeat match goal with E : _ = false |- _ => rewrite E; clear E end.
  reflexivity.
Qed.

Lemma getObjectTypeInfo_structured typeChecker tsType typePath file :
  isStructuredType (typeChecker tsType) = true ->
  getObjectTypeInfo typeChecker tsType typePath file <> Normal None.
Proof.
  unfold isStructuredType, getObjectTypeInfo, completionBind. intros H. cbv zeta.
  repeat case_match; discriminate.
Qed.

Lemma deriveSchemaTypeIfObjectType_unrecognized (derive : Derive) tsType typePath d context :
  isStructuredType (typeChecker context tsType) = false ->
  deriveSchemaTypeIfObjectType derive tsType typePath d context = Returned None context.
Proof.
  intros H. unfold deriveSchemaTypeIfObjectType. run_monad.
  rewrite getObjectTypeInfo_unrecognized by assumption. reflexivity.
Qed.

Lemma body_by_form (derive : Derive) tsType typePath recursionDepth context :
  recursionDepth <= MAX_TYPE_DERIVATION_RECURSION ->
  deriveSchemaTypeForTsType_body derive tsType typePath recursionDepth context =
  deriveByForm derive (classify (typeChecker context) tsType) tsType typePath
    recursionDepth context.
Proof.
  intros Hd. unfold deriveSchemaTypeForTsType_body, classify.
  unfold bind at 1, getContext at 1.
  replace (MAX_TYPE_DERIVATION_RECURSION <? recursionDepth)%nat with false
    by (symmetry; apply Nat.ltb_ge; exact Hd).
  destruct (unwrapPromiseType _ _); [reflexivity|].
  fold (isClassType (typeChecker context tsType)).
  destruct (isClassType _); [reflexivity|].
  destruct (tsutils.isIntrinsicVoidType _); [reflexivity|].
  unfold orElse at 1, bind at 1. rewrite deriveSchemaTypeIfTsArrayType_spec.
  destruct (arrayElementType _) as [inner|].
  { simpl. run_monad. destruct (derive _ _ _ _); reflexivity. }
  unfold orElse at 1, bind at 1. rewrite deriveSchemaTypeIfScalarType_spec.
  destruct (scalarTypeName _) as [s|]; [reflexivity|].
  unfold orElse at 1, bind at 1. rewrite deriveSchemaTypeIfNullableType_spec.
  destruct (unwrapNullableType _ _) as [[inner n]|].
  { simpl. run_monad. destruct (derive _ _ _ _); reflexivity. }
  destruct (isStructuredType _) eqn:Hs.
  - simpl. run_monad.
    destruct (deriveSchemaTypeIfObjectType _ _ _ _ _) as [[]| |]; reflexivity.
  - unfold orElse, bind. rewrite deriveSchemaTypeIfObjectType_unrecognized by assumption.
    reflexivity.
Qed.

Lemma derivePropertyTypes_ext (derive1 derive2 : Derive) name typePath d members context :
  (forall t p c, derive1 t p (S d) c = derive2 t p (S d) c) ->
  derivePropertyTypes derive1 name typePath d members context =
  derivePropertyTypes derive2 name typePath d members context.
Proof.
  intros Hext. revert context.
  induction members as [|[propName propType] rest IH]; intros context; [reflexivity|].
  simpl. unfold bind. rewrite Hext.
  destruct (derive2 _ _ _ _) as [r context1| |]; [|reflexivity..].
  rewrite IH. reflexivity.
Qed.

Lemma deriveSchemaTypeIfObjectType_spec (derive : Derive) tsType typePath d context :
  deriveSchemaTypeIfObjectType derive tsType typePath d context =
  match getObjectTypeInfo (typeChecker context) tsType typePath (functionsFilePath context) with
  | Throw message => Thrown message
  | Normal None => Returned None context
  | Normal (Some info) =>
      let name := generatedTypeName info in
      match objectTypeDefinitions context !! name with
      | Some _ => Returned (Some (TypeOk (named name object) [])) context
      | None =>
          match derivePropertyTypes derive name typePath d (members info)
                  (setObjectType name {| properties := [] |} context) with
          | Returned (properties, [], warnings) context1 =>
              Returned (Some (TypeOk (named name object) warnings))
                (setObjectType name {| properties := properties |} context1)
          | Returned (_, (_ :: _) as errors, _) context1 =>
              Returned (Some (TypeErrors errors)) context1
          | Thrown message => Thrown message
          | OutOfFuel => OutOfFuel
          end
      end
  end.
Proof.
  unfold deriveSchemaTypeIfObjectType. run_monad.
  destruct (getObjectTypeInfo _ _ _ _) as [[info|]|]; try reflexivity.
  cbv zeta. unfold ret. destruct (_ !! _); [reflexivity|].
  destruct (derivePropertyTypes _ _ _ _ _ _) as [[[ps es] ws] c1| |]; try reflexivity.
  destruct es; reflexivity.
Qed.

Lemma deriveSchemaTypeIfObjectType_ext (derive1 derive2 : Derive) tsType typePath d context :
  (forall t p c, derive1 t p (S d) c = derive2 t p (S d) c) ->
  deriveSchemaTypeIfObjectType derive1 tsType typePath d context =
  deriveSchemaTypeIfObjectType derive2 tsType typePath d context.
Proof.
  intros Hext. rewrite !deriveSchemaTypeIfObjectType_spec.
  destruct (getObjectTypeInfo _ _ _ _) as [[info|]|]; try reflexivity.
  cbv zeta. destruct (_ !! _); [reflexivity|].
  rewrite (derivePropertyTypes_ext derive1 derive2) by assumption. reflexivity.
Qed.

Lemma deriveByForm_ext (derive1 derive2 : Derive) form tsType typePath d context :
  (forall t p c, derive1 t p (S d) c = derive2 t p (S d) c) ->
  deriveByForm derive1 form tsType typePath d context =
  deriveByForm derive2 form tsType typePath d context.
Proof.
  intros Hext. destruct form; simpl; try reflexivity; unfold bind.
  - rewrite Hext. reflexivity.
  - rewrite Hext. reflexivity.
  - rewrite (deriveSchemaTypeIfObjectType_ext derive1 derive2) by assumption. reflexivity.
Qed.

Lemma deriveSchemaTypeForTsType_exceeded tsType typePath d context :
  MAX_TYPE_DERIVATION_RECURSION < d ->
  deriveSchemaTypeForTsType tsType typePath d context =
  Thrown ("Schema inference validation exceeded depth 20 for type "
          +:+ rendered (typeChecker context tsType)).
Proof.
  intros Hd. unfold deriveSchemaTypeForTsType.
  replace (S MAX_TYPE_DERIVATION_RECURSION - d) with 0 by lia.
  simpl. unfold deriveSchemaTypeForTsType_body, bind, getContext, throw.
  replace (MAX_TYPE_DERIVATION_RECURSION <? d)%nat with true
    by (symmetry; apply Nat.ltb_lt; exact Hd).
  reflexivity.
Qed.

Lemma deriveSchemaTypeForTsType_by_form tsType typePath d context :
  d <= MAX_TYPE_DERIVATION_RECURSION ->
  deriveSchemaTypeForTsType tsType typePath d context =
  deriveByForm deriveSchemaTypeForTsType (classify (typeChecker context) tsType)
    tsType typePath d context.
Proof.
  intros Hd. unfold deriveSchemaTypeForTsType at 1.
  replace (S MAX_TYPE_DERIVATION_RECURSION - d)
    with (S (S MAX_TYPE_DERIVATION_RECURSION - S d)) by lia.
  cbn [deriveSchemaTypeForTsType_fuel].
  rewrite body_by_form by assumption.
  apply deriveByForm_ext. intros t p c. reflexivity.
Qed.

Lemma depth_induction (P : nat -> Prop) :
  (forall d, MAX_TYPE_DERIVATION_RECURSION < d -> P d) ->
  (forall d, d <= MAX_TYPE_DERIVATION_RECURSION -> P (S d) -> P d) ->
  forall d, P d.
Proof.
  intros Hhigh Hstep d.
  remember (S MAX_TYPE_DERIVATION_RECURSION - d) as k eqn:Hk.
  revert d Hk. induction k as [|k IH]; intros d Hk.
  - apply Hhigh. lia.
  - apply Hstep; [lia|]. apply IH. lia.
Qed.

(** ** Contexts only grow *)

Lemma extendsContext_refl context : extendsContext context context.
Proof. repeat split; reflexivity. Qed.

Lemma extendsContext_trans c1 c2 c3 :
  extendsContext c1 c2 -> extendsContext c2 c3 -> extendsContext c1 c3.
Proof.
  intros (Ho1 & Hs1 & Ht1 & Hf1) (Ho2 & Hs2 & Ht2 & Hf2).
  repeat split; [by etrans | by etrans | congruence | congruence].
Qed.

Lemma extendsContext_setScalarType name context :
  extendsContext context (setScalarType name context).
Proof.
  repeat split; try reflexivity. simpl.
  destruct (scalarTypeDefinitions context !! name) as [[]|] eqn:E.
  - rewrite insert_id by exact E. reflexivity.
  - apply insert_subseteq. exact E.
Qed.

Lemma extendsContext_setObjectType_fresh name entry context :
  objectTypeDefinitions context !! name = None ->
  extendsContext context (setObjectType name entry context).
Proof.
  intros E. repeat split; try reflexivity. simpl. apply insert_subseteq. exact E.
Qed.

Lemma extendsContext_overwrite name placeholder entry context context1 :
  objectTypeDefinitions context !! name = None ->
  extendsContext (setObjectType name placeholder context) context1 ->
  extendsContext context (setObjectType name entry context1).
Proof.
  intros E (Ho & Hs & Ht & Hf). simpl in *.
  repeat split; simpl; try assumption.
  apply insert_subseteq_r; [exact E|].
  etrans; [|exact Ho]. apply insert_subseteq. exact E.
Qed.

Lemma extendsContext_lookup c1 c2 name entry :
  extendsContext c1 c2 ->
  objectTypeDefinitions c1 !! name = Some entry ->
  objectTypeDefinitions c2 !! name = Some entry.
Proof. intros (Ho & _) E. eapply lookup_weaken; eassumption. Qed.

Lemma derivePropertyTypes_extends (derive : Derive) name typePath d members context out context' :
  extending derive (S d) ->
  derivePropertyTypes derive name typePath d members context = Returned out context' ->
  extendsContext context context'.
Proof.
  intros Hrec. revert context out.
  induction members as [|[propName propType] rest IH]; intros context out; simpl.
  - unfold ret. intros [= <- <-]. apply extendsContext_refl.
  - unfold bind.
    destruct (derive _ _ _ _) as [r c1| |] eqn:E1; try discriminate.
    destruct (derivePropertyTypes _ _ _ _ _ _) as [[[ps es] ws] c2| |] eqn:E2; try discriminate.
    intros H. assert (context' = c2) as -> by (destruct r; inversion H; reflexivity).
    eapply extendsContext_trans; [eapply Hrec; exact E1 | eapply IH; exact E2].
Qed.

Lemma deriveSchemaTypeIfObjectType_extends (derive : Derive) tsType typePath d context r context' :
  extending derive (S d) ->
  deriveSchemaTypeIfObjectType derive tsType typePath d context = Returned r context' ->
  extendsContext context context'.
Proof.
  intros Hrec. rewrite deriveSchemaTypeIfObjectType_spec.
  destruct (getObjectTypeInfo _ _ _ _) as [[info|]|]; try discriminate.
  2:{ intros [= <- <-]. apply extendsContext_refl. }
  cbv zeta. destruct (_ !! _) eqn:El.
  { intros [= <- <-]. apply extendsContext_refl. }
  destruct (derivePropertyTypes _ _ _ _ _ _) as [[[ps es] ws] c1| |] eqn:Ep; try discriminate.
  apply derivePropertyTypes_extends in Ep; [|assumption].
  destruct es; intros [= <- <-].
  - eapply extendsContext_overwrite; eassumption.
  - eapply extendsContext_trans; [|exact Ep].
    apply extendsContext_setObjectType_fresh. exact El.
Qed.

Lemma deriveSchemaTypeForTsType_extends tsType typePath d context r context' :
  deriveSchemaTypeForTsType tsType typePath d context = Returned r context' ->
  extendsContext context context'.
Proof.
  revert tsType typePath context r context'.
  induction d as [d Hd|d Hd IH] using depth_induction;
    intros tsType typePath context r context'.
  - rewrite deriveSchemaTypeForTsType_exceeded by assumption. discriminate.
  - rewrite deriveSchemaTypeForTsType_by_form by assumption.
    destruct (classify _ _); simpl; unfold bind, ret, modifyContext.
    + intros [= <- <-]. apply extendsContext_refl.
    + intros [= <- <-]. apply extendsContext_refl.
    + intros [= <- <-]. apply extendsContext_refl.
    + destruct (deriveSchemaTypeForTsType _ _ _ _) eqn:E; try discriminate.
      intros [= <- <-]. eapply IH. exact E.
    + intros [= <- <-]. apply extendsContext_setScalarType.
    + destruct (deriveSchemaTypeForTsType _ _ _ _) eqn:E; try discriminate.
      intros [= <- <-]. eapply IH. exact E.
    + destruct (deriveSchemaTypeIfObjectType _ _ _ _ _) eqn:E; try discriminate.
      intros [= <- <-]. eapply deriveSchemaTypeIfObjectType_extends; [|exact E].
      exact IH.
    + intros [= <- <-]. apply extendsContext_refl.
Qed.

(** ** Termination: the fuel never runs out *)

Lemma derivePropertyTypes_total (derive : Derive) name typePath d members context :
  (forall t p c, derive t p (S d) c <> OutOfFuel) ->
  derivePropertyTypes derive name typePath d members context <> OutOfFuel.
Proof.
  intros Hrec. revert context.
  induction members as [|[propName propType] rest IH]; intros context; simpl.
  - discriminate.
  - unfold bind.
    destruct (derive _ _ _ _) as [r c1| |] eqn:E1; [|discriminate|by apply Hrec in E1].
    destruct (derivePropertyTypes _ _ _ _ _ _) as [[[ps es] ws] c2| |] eqn:E2;
      [|discriminate|by apply IH in E2].
    destruct r; discriminate.
Qed.

Lemma deriveSchemaTypeForTsType_total tsType typePath d context :
  deriveSchemaTypeForTsType tsType typePath d context <> OutOfFuel.
Proof.
  revert tsType typePath context.
  induction d as [d Hd|d Hd IH] using depth_induction; intros tsType typePath context.
  - rewrite deriveSchemaTypeForTsType_exceeded by assumption. discriminate.
  - rewrite deriveSchemaTypeForTsType_by_form by assumption.
    destruct (classify _ _); simpl; unfold bind, ret, modifyContext; try discriminate.
    + destruct (deriveSchemaTypeForTsType _ _ _ _) eqn:E; try discriminate. by apply IH in E.
    + destruct (deriveSchemaTypeForTsType _ _ _ _) eqn:E; try discriminate. by apply IH in E.
    + rewrite deriveSchemaTypeIfObjectType_spec.
      destruct (getObjectTypeInfo _ _ _ _) as [[info|]|]; try discriminate.
      cbv zeta. destruct (_ !! _); [discriminate|].
      destruct (derivePropertyTypes _ _ _ _ _ _) as [[[ps es] ws] c1| |] eqn:Ep;
        try discriminate.
      * destruct es; discriminate.
      * by apply derivePropertyTypes_total in Ep.
Qed.

(** ** Fatal errors are never empty *)

Lemma deriveSchemaTypeForTsType_errors_nonempty tsType typePath d context errors context' :
  deriveSchemaTypeForTsType tsType typePath d context = Returned (TypeErrors errors) context' ->
  errors <> [].
Proof.
  revert tsType typePath context errors context'.
  induction d as [d Hd|d Hd IH] using depth_induction;
    intros tsType typePath context errors context'.
  - rewrite deriveSchemaTypeForTsType_exceeded by assumption. discriminate.
  - rewrite deriveSchemaTypeForTsType_by_form by assumption.
    destruct (classify _ _); simpl; unfold bind, ret, modifyContext;
      try (intros [= <- <-]; discriminate); try discriminate.
    + destruct (deriveSchemaTypeForTsType _ _ _ _) as [[]| |] eqn:E; try discriminate.
      intros [= <- <-]. eapply IH. exact E.
    + destruct (deriveSchemaTypeForTsType _ _ _ _) as [[]| |] eqn:E; try discriminate.
      intros [= <- <-]. eapply IH. exact E.
    + rewrite deriveSchemaTypeIfObjectType_spec.
      destruct (getObjectTypeInfo _ _ _ _) as [[info|]|]; try discriminate.
      2:{ intros [= <- <-]. discriminate. }
      cbv zeta. destruct (_ !! _); [discriminate|].
      destruct (derivePropertyTypes _ _ _ _ _ _) as [[[ps es] ws] c1| |]; try discriminate.
      destruct es; [discriminate|]. intros [= <- <-]. discriminate.
Qed.

(** ** Function derivation in terms of its type derivations *)

Lemma deriveParameters_spec functionName parameters context :
  deriveParameters functionName parameters context =
  match deriveParameterTypes functionName parameters context with
  | Returned results context' =>
      Returned (keptArguments results,
                flat_map (fun pr => resultIssues (snd pr)) results,
                existsb (fun pr => isFatal (snd pr)) results) context'
  | Thrown message => Thrown message
  | OutOfFuel => OutOfFuel
  end.
Proof.
  revert context. induction parameters as [|p rest IH]; intros context; [reflexivity|].
  simpl. unfold bind.
  destruct (liftCompletion _ _) as [paramType c0| |]; try reflexivity.
  destruct (deriveSchemaTypeForTsType _ _ _ _) as [r c1| |]; try reflexivity.
  rewrite IH.
  destruct (deriveParameterTypes _ _ _) as [results c2| |]; try reflexivity.
  destruct r; reflexivity.
Qed.

Lemma deriveFunctionSchema_spec functionDeclaration context :
  deriveFunctionSchema functionDeclaration context =
  match declarationName functionDeclaration with
  | None => Thrown "Function didn't have an identifier"
  | Some functionName =>
      match declarationSymbol functionDeclaration with
      | None => Thrown ("Function '" +:+ functionName +:+ "' didn't have a symbol")
      | Some functionSymbol =>
          match head (callSignatures functionSymbol) with
          | None =>
              Thrown ("Function '" +:+ functionName +:+ "' didn't have a call signature")
          | Some functionCallSig =>
              (results <- deriveParameterTypes functionName
                            (signatureParameters functionCallSig);;
               returnResult <- deriveSchemaTypeForTsType
                                 (signatureReturnType functionCallSig)
                                 [FunctionReturn functionName] 0;;
               ret (functionResultOf functionName functionSymbol results returnResult))
                context
          end
      end
  end.
Proof.
  unfold deriveFunctionSchema.
  destruct (declarationName _) as [functionName|]; [|reflexivity].
  destruct (declarationSymbol _) as [functionSymbol|]; [|reflexivity].
  simpl. unfold bind, ret.
  destruct (head _) as [functionCallSig|]; [|reflexivity].
  simpl. rewrite deriveParameters_spec.
  destruct (deriveParameterTypes _ _ _) as [results c1| |]; try reflexivity.
  destruct (deriveSchemaTypeForTsType _ _ _ _) as [r c2| |]; try reflexivity.
  destruct r; reflexivity.
Qed.

Lemma deriveParameterTypes_total functionName parameters context :
  deriveParameterTypes functionName parameters context <> OutOfFuel.
Proof.
  revert context. induction parameters as [|p rest IH]; intros context; [discriminate|].
  simpl. unfold bind.
  destruct (liftCompletion _ _) as [paramType c0| |] eqn:E0; try discriminate.
  { destruct (deriveSchemaTypeForTsType _ _ _ _) as [r c1| |] eqn:E1; try discriminate.
    - destruct (deriveParameterTypes _ _ _) eqn:E2; try discriminate. by apply IH in E2.
    - by apply deriveSchemaTypeForTsType_total in E1. }
  destruct (valueDeclarationType p); discriminate.
Qed.

Lemma deriveParameterTypes_extends functionName parameters context results context' :
  deriveParameterTypes functionName parameters context = Returned results context' ->
  extendsContext context context'.
Proof.
  revert context results. induction parameters as [|p rest IH]; intros context results.
  - intros [= <- <-]. apply extendsContext_refl.
  - simpl. unfold bind.
    destruct (liftCompletion _ _) as [paramType c0| |] eqn:E0; try discriminate.
    assert (c0 = context) as ->.
    { destruct (valueDeclarationType p); simpl in E0; [|discriminate].
      by injection E0. }
    destruct (deriveSchemaTypeForTsType _ _ _ _) as [r c1| |] eqn:E1; try discriminate.
    destruct (deriveParameterTypes _ _ _) as [others c2| |] eqn:E2; try discriminate.
    intros [= <- <-].
    eapply extendsContext_trans;
      [eapply deriveSchemaTypeForTsType_extends; exact E1 | eapply IH; exact E2].
Qed.

Lemma deriveFunctionSchema_total functionDeclaration context :
  deriveFunctionSchema functionDeclaration context <> OutOfFuel.
Proof.
  rewrite deriveFunctionSchema_spec.
  repeat case_match; try discriminate. unfold bind.
  destruct (deriveParameterTypes _ _ _) as [results c1| |] eqn:E1; try discriminate.
  - destruct (deriveSchemaTypeForTsType _ _ _ _) as [r c2| |] eqn:E2; try discriminate.
    by apply deriveSchemaTypeForTsType_total in E2.
  - by apply deriveParameterTypes_total in E1.
Qed.

Lemma deriveFunctionSchema_extends functionDeclaration context result context' :
  deriveFunctionSchema functionDeclaration context = Returned result context' ->
  extendsContext context context'.
Proof.
  rewrite deriveFunctionSchema_spec.
  repeat case_match; try discriminate. unfold bind.
  destruct (deriveParameterTypes _ _ _) as [results c1| |] eqn:E1; try discriminate.
  destruct (deriveSchemaTypeForTsType _ _ _ _) as [r c2| |] eqn:E2; try discriminate.
  intros [= <- <-].
  eapply extendsContext_trans;
    [eapply deriveParameterTypes_extends; exact E1
    |eapply deriveSchemaTypeForTsType_extends; exact E2].
Qed.

(** ** The pass in terms of the results of its functions *)

Lemma deriveFunctionSchemas_spec functionDeclarations acc context :
  deriveFunctionSchemas functionDeclarations acc context =
  match deriveAllFunctionSchemas functionDeclarations context with
  | Returned results context' => Returned (recordAll results acc) context'
  | Thrown message => Thrown message
  | OutOfFuel => OutOfFuel
  end.
Proof.
  revert acc context.
  induction functionDeclarations as [|fd rest IH]; intros acc context; [reflexivity|].
  simpl. unfold bind.
  destruct (deriveFunctionSchema _ _) as [result c1| |]; try reflexivity.
  rewrite IH. destruct (deriveAllFunctionSchemas _ _); reflexivity.
Qed.

Lemma deriveSchemaFromFunctions_spec sourceFile checker :
  deriveSchemaFromFunctions sourceFile checker =
  match deriveAllFunctionSchemas (exportedFunctionDeclarations sourceFile)
          (initialContext sourceFile checker) with
  | Returned results context' =>
      Returned {| functions := fst (recordAll results (∅, ∅));
                  objectTypes := objectTypeDefinitions context';
                  scalarTypes := scalarTypeDefinitions context';
                  functionIssues := snd (recordAll results (∅, ∅)) |} context'
  | Thrown message => Thrown message
  | OutOfFuel => OutOfFuel
  end.
Proof.
  unfold deriveSchemaFromFunctions, bind. rewrite deriveFunctionSchemas_spec.
  destruct (deriveAllFunctionSchemas _ _); reflexivity.
Qed.

Lemma deriveAllFunctionSchemas_total functionDeclarations context :
  deriveAllFunctionSchemas functionDeclarations context <> OutOfFuel.
Proof.
  revert context. induction functionDeclarations as [|fd rest IH]; intros context;
    [discriminate|].
  simpl. unfold bind.
  destruct (deriveFunctionSchema _ _) as [result c1| |] eqn:E1; try discriminate.
  - destruct (deriveAllFunctionSchemas _ _) eqn:E2; try discriminate. by apply IH in E2.
  - by apply deriveFunctionSchema_total in E1.
Qed.

Lemma deriveAllFunctionSchemas_extends functionDeclarations context results context' :
  deriveAllFunctionSchemas functionDeclarations context = Returned results context' ->
  extendsContext context context'.
Proof.
  revert context results.
  induction functionDeclarations as [|fd rest IH]; intros context results.
  - intros [= <- <-]. apply extendsContext_refl.
  - simpl. unfold bind.
    destruct (deriveFunctionSchema _ _) as [result c1| |] eqn:E1; try discriminate.
    destruct (deriveAllFunctionSchemas _ _) as [others c2| |] eqn:E2; try discriminate.
    intros [= <- <-].
    eapply extendsContext_trans;
      [eapply deriveFunctionSchema_extends; exact E1 | eapply IH; exact E2].
Qed.


Lemma deriveFunctionSchema_malformed functionDeclaration context :
  isMalformed functionDeclaration ->
  exists message, deriveFunctionSchema functionDeclaration context = Thrown message.
Proof.
  intros Hbad. rewrite deriveFunctionSchema_spec.
  destruct (declarationName _) as [name|] eqn:En; [|by eexists].
  destruct (declarationSymbol _) as [sym|] eqn:Es; [|by eexists].
  destruct Hbad as [H|[H|(sym' & H & Hsig)]]; try congruence.
  assert (sym' = sym) as -> by congruence.
  rewrite Hsig. by eexists.
Qed.

Lemma deriveAllFunctionSchemas_malformed functionDeclarations context bad :
  In bad functionDeclarations ->
  isMalformed bad ->
  exists message, deriveAllFunctionSchemas functionDeclarations context = Thrown message.
Proof.
  intros Hin Hbad. revert context.
  induction functionDeclarations as [|fd rest IH]; intros context; [destruct Hin|].
  simpl. unfold bind.
  destruct (deriveFunctionSchema fd context) as [result c1| |] eqn:E1.
  - destruct Hin as [->|Hin].
    + destruct (deriveFunctionSchema_malformed bad context Hbad) as [m Hm]. congruence.
    + destruct (IH Hin c1) as [m ->]. by exists m.
  - by eexists.
  - by apply deriveFunctionSchema_total in E1.
Qed.

Lemma recordAll_cons result results acc :
  recordAll (result :: results) acc = recordAll results (recordFunctionResult result acc).
Proof. reflexivity. Qed.



(** ** Wrapper chains and the ceiling *)


Lemma wrapsTo_scalar typeChecker0 wrappers : forall tsType target scalarName typePath d context,
  typeChecker context = typeChecker0 ->
  wrapsTo typeChecker0 wrappers tsType target ->
  classify typeChecker0 target = ScalarForm scalarName ->
  d + length wrappers <= MAX_TYPE_DERIVATION_RECURSION ->
  deriveSchemaTypeForTsType tsType typePath d context =
  Returned (TypeOk (wrapDefinition wrappers (named scalarName scalar)) [])
    (setScalarType scalarName context).
Proof.
  induction wrappers as [|w rest IH];
    intros tsType target scalarName typePath d context Hc Hw Hs Hlen; simpl in *.
  - subst. rewrite deriveSchemaTypeForTsType_by_form by lia. rewrite Hs. reflexivity.
  - rewrite deriveSchemaTypeForTsType_by_form by lia. rewrite Hc.
    destruct w as [|n]; destruct Hw as (inner & Hform & Hrest); rewrite Hform; simpl;
      unfold bind.
    + erewrite IH by (try eassumption; lia). reflexivity.
    + erewrite IH by (try eassumption; lia). reflexivity.
Qed.

(** ** Structured types already in the registry *)


Section SelfReference.

Variable checker : TypeChecker.
Variable file : string.
Variable self : TypeId.
Variable info : ObjectTypeInfo.

Hypothesis self_structured : classify checker self = StructuredForm.
Hypothesis self_named :
  forall typePath, getObjectTypeInfo checker self typePath file = Normal (Some info).






End SelfReference.

(** ** Nullable unions *)

Lemma unwrapNullableType_spec typeChecker tsType :
  unwrapNullableType typeChecker tsType =
  let t := typeChecker tsType in
  if isUnion t then
    match membersWithoutNullAndUndefined typeChecker t,
          acceptanceOfMarkers (hasNullMember typeChecker t) (hasUndefinedMember typeChecker t)
    with
    | [only], Some n => Some (only, n)
    | _, _ => None
    end
  else None.
Proof.
  unfold unwrapNullableType, membersWithoutNullAndUndefined, hasNullMember,
    hasUndefinedMember, acceptanceOfMarkers. cbv zeta.
  destruct (isUnion _); [|reflexivity]. simpl.
  destruct (existsb _ _), (existsb _ _); reflexivity.
Qed.

Lemma unwrapNullableType_Some typeChecker tsType inner n :
  unwrapNullableType typeChecker tsType = Some (inner, n) ->
  isUnion (typeChecker tsType) = true
  /\ In inner (types (typeChecker tsType))
  /\ membersWithoutNullAndUndefined typeChecker (typeChecker tsType) = [inner]
  /\ acceptanceOfMarkers (hasNullMember typeChecker (typeChecker tsType))
       (hasUndefinedMember typeChecker (typeChecker tsType)) = Some n.
Proof.
  rewrite unwrapNullableType_spec. cbv zeta.
  destruct (isUnion _); [|discriminate].
  destruct (membersWithoutNullAndUndefined _ _) as [|only [|]] eqn:Hm; try discriminate.
  destruct (acceptanceOfMarkers _ _) as [n'|]; [|discriminate].
  intros [= -> ->]. repeat split.
  assert (In inner (membersWithoutNullAndUndefined typeChecker (typeChecker tsType)))
    as Hin by (rewrite Hm; by left).
  unfold membersWithoutNullAndUndefined in Hin. apply filter_In in Hin. tauto.
Qed.

Lemma classify_nullable typeChecker tsType inner n :
  classify typeChecker tsType = NullableUnionForm inner n ->
  unwrapNullableType typeChecker tsType = Some (inner, n).
Proof.
  unfold classify. repeat case_match; try discriminate; congruence.
Qed.

Lemma classify_reaches typeChecker tsType :
  reachesNullableCheck typeChecker tsType ->
  classify typeChecker tsType =
  match unwrapNullableType typeChecker tsType with
  | Some (inner, n) => NullableUnionForm inner n
  | None => if isStructuredType (typeChecker tsType) then StructuredForm
            else UnrecognizedForm
  end.
Proof.
  intros (Hp & Hc & Hv & Ha & Hs). unfold classify. rewrite Hp, Hc, Hv, Ha, Hs.
  reflexivity.
Qed.

Lemma union_reaches typeChecker tsType :
  flags (typeChecker tsType) = TypeFlags.Union ->
  reachesNullableCheck typeChecker tsType.
Proof.
  intros Hflags.
  assert (tsutils.isObjectType (typeChecker tsType) = false) as Hobj.
  { unfold tsutils.isObjectType, tsutils.isTypeFlagSet. rewrite Hflags. reflexivity. }
  unfold reachesNullableCheck, unwrapPromiseType, isClassType, arrayElementType,
    scalarTypeName, tsutils.isTypeReference, tsutils.isIntrinsicVoidType,
    tsutils.isIntrinsicBooleanType, tsutils.isIntrinsicStringType,
    tsutils.isIntrinsicNumberType.
  rewrite Hobj, andb_false_r. unfold tsutils.isTypeFlagSet. rewrite Hflags.
  repeat split.
Qed.

Lemma orElse_fallback (handler : M (option DeriveSchemaTypeResult)) context :
  (r <- handler;; ret (default (TypeErrors ["fallback"]) r))%derive context =
  orElse handler (ret (TypeErrors ["fallback"])) context.
Proof.
  unfold orElse, bind. destruct (handler context) as [[r|] c| |]; reflexivity.
Qed.

Lemma derive_nullable_union tsType typePath d context inner n :
  d <= MAX_TYPE_DERIVATION_RECURSION ->
  reachesNullableCheck (typeChecker context) tsType ->
  unwrapNullableType (typeChecker context) tsType = Some (inner, n) ->
  deriveSchemaTypeForTsType tsType typePath d context =
  (r <- deriveSchemaTypeForTsType inner typePath (S d);;
   ret (wrapNullableResult n r))%derive context.
Proof.
  intros Hd Hreach Hun.
  rewrite deriveSchemaTypeForTsType_by_form by assumption.
  rewrite classify_reaches, Hun by assumption. reflexivity.
Qed.

Lemma derive_not_nullable_union tsType typePath d context :
  d <= MAX_TYPE_DERIVATION_RECURSION ->
  reachesNullableCheck (typeChecker context) tsType ->
  unwrapNullableType (typeChecker context) tsType = None ->
  deriveSchemaTypeForTsType tsType typePath d context =
  orElse (deriveSchemaTypeIfObjectType deriveSchemaTypeForTsType tsType typePath d)
    (ret (TypeErrors ["fallback"])) context.
Proof.
  intros Hd Hreach Hun.
  rewrite deriveSchemaTypeForTsType_by_form by assumption.
  rewrite classify_reaches, Hun by assumption.
  destruct (isStructuredType _) eqn:Hs; simpl.
  - apply orElse_fallback.
  - unfold orElse, bind.
    rewrite deriveSchemaTypeIfObjectType_unrecognized by assumption. reflexivity.
Qed.

(** ** No nullable directly inside a nullable *)

Lemma noNullableInNullable_wrap d n :
  isNullableDefinition d = false ->
  noNullableInNullable (nullable d n) = noNullableInNullable d.
Proof. destruct d; [reflexivity|discriminate|reflexivity]. Qed.

Lemma registryNullableFree_insert name entry registry :
  registryNullableFree registry ->
  (forall property, In property (properties entry) ->
                    noNullableInNullable (propertyType property) = true) ->
  registryNullableFree (<[name := entry]> registry).
Proof.
  intros Hreg Hentry name' entry' property Hl Hin.
  destruct (decide (name = name')) as [->|Hne].
  - rewrite lookup_insert_eq in Hl. injection Hl as <-. by apply Hentry.
  - rewrite lookup_insert_ne in Hl by assumption. eapply Hreg; eassumption.
Qed.

Lemma derivePropertyTypes_nullable typeChecker0 name typePath d members :
  nullableSound typeChecker0 deriveSchemaTypeForTsType (S d) ->
  forall context props errors warnings context',
    typeChecker context = typeChecker0 ->
    derivePropertyTypes deriveSchemaTypeForTsType name typePath d members context
      = Returned (props, errors, warnings) context' ->
    (forall property, In property props ->
                      noNullableInNullable (propertyType property) = true)
    /\ (registryNullableFree (objectTypeDefinitions context) ->
        registryNullableFree (objectTypeDefinitions context')).
Proof.
  intros Hrec.
  induction members as [|[propName propType] rest IH];
    intros context props errors warnings context' Hc; simpl.
  - intros [= <- <- <- <-]. split; [intros ? []|done].
  - unfold bind.
    destruct (deriveSchemaTypeForTsType _ _ _ _) as [r c1| |] eqn:E1; try discriminate.
    destruct (derivePropertyTypes _ _ _ _ _ _) as [[[ps es] ws] c2| |] eqn:E2;
      try discriminate.
    destruct (Hrec _ _ _ _ _ Hc E1) as [Hdef Hreg1].
    assert (typeChecker c1 = typeChecker0) as Hc1.
    { apply deriveSchemaTypeForTsType_extends in E1 as (_ & _ & -> & _). exact Hc. }
    destruct (IH _ _ _ _ _ Hc1 E2) as [Hps Hreg2].
    destruct r as [definition propWarnings|propErrors]; intros [= <- <- <- <-].
    + split; [|tauto]. intros property [<-|Hin]; [|by apply Hps].
      simpl. by destruct (Hdef _ _ eq_refl).
    + split; [exact Hps|tauto].
Qed.

Lemma deriveSchemaTypeForTsType_nullable typeChecker0 d :
  unionsAreFlat typeChecker0 ->
  nullableSound typeChecker0 deriveSchemaTypeForTsType d.
Proof.
  intros Hflat.
  induction d as [d Hd|d Hd IH] using depth_induction;
    intros tsType typePath context r context' Hc.
  - rewrite deriveSchemaTypeForTsType_exceeded by assumption. discriminate.
  - rewrite deriveSchemaTypeForTsType_by_form by assumption. rewrite Hc.
    destruct (classify _ _) eqn:Hform; simpl; unfold bind, ret, modifyContext.
    + intros [= <- <-]. split; [intros ? ? ?; discriminate|done].
    + intros [= <- <-]. split; [intros ? ? ?; discriminate|done].
    + intros [= <- <-]. split; [intros ? ? ?; discriminate|done].
    + destruct (deriveSchemaTypeForTsType _ _ _ _) as [r1 c1| |] eqn:E; try discriminate.
      intros [= <- <-]. destruct (IH _ _ _ _ _ Hc E) as [Hdef Hreg].
      split; [|exact Hreg]. intros definition warnings Hr.
      destruct r1 as [inner ws|]; [|discriminate]. injection Hr as <- <-.
      split; [|discriminate]. simpl. by destruct (Hdef _ _ eq_refl).
    + intros [= <- <-]. split; [|done]. intros ? ? [= <- <-]. split; [done|discriminate].
    + destruct (deriveSchemaTypeForTsType _ _ _ _) as [r1 c1| |] eqn:E; try discriminate.
      intros [= <- <-]. destruct (IH _ _ _ _ _ Hc E) as [Hdef Hreg].
      apply classify_nullable, unwrapNullableType_Some in Hform as (Hu & Hin & _ & _).
      split; [|exact Hreg]. intros definition warnings Hr.
      destruct r1 as [inner ws|]; [|discriminate]. injection Hr as <- <-.
      destruct (Hdef _ _ eq_refl) as [Hn Hnull].
      split; [|done].
      rewrite noNullableInNullable_wrap; [exact Hn|].
      destruct (isNullableDefinition inner) eqn:Hi; [|reflexivity].
      rewrite (Hflat _ _ Hu Hin) in Hnull. by specialize (Hnull eq_refl).
    + rewrite deriveSchemaTypeIfObjectType_spec.
      destruct (getObjectTypeInfo _ _ _ _) as [[info|]|]; try discriminate.
      2:{ intros [= <- <-]. split; [intros ? ? ?; discriminate|done]. }
      cbv zeta. destruct (_ !! _) eqn:El.
      { intros [= <- <-]. split; [|done].
        intros ? ? [= <- <-]. split; [done|discriminate]. }
      destruct (derivePropertyTypes _ _ _ _ _ _) as [[[ps es] ws] c1| |] eqn:Ep;
        try discriminate.
      apply derivePropertyTypes_nullable with (typeChecker0 := typeChecker0) in Ep
        as [Hps Hreg]; [|exact IH|exact Hc].
      assert (registryNullableFree (objectTypeDefinitions context) ->
              registryNullableFree (objectTypeDefinitions c1)) as Hreg'.
      { intros H0. apply Hreg. simpl. apply registryNullableFree_insert; [exact H0|].
        intros ? []. }
      destruct es; intros [= <- <-].
      * split; [intros ? ? [= <- <-]; split; [done|discriminate]|].
        intros H0. simpl. apply registryNullableFree_insert; [by apply Hreg'|exact Hps].
      * split; [intros ? ? ?; discriminate|exact Hreg'].
    + intros [= <- <-]. split; [intros ? ? ?; discriminate|done].
Qed.

(** ** Strings *)







Lemma string_append_assoc a b c : (a +:+ b) +:+ c = a +:+ b +:+ c.
Proof.
  induction a as [|x a IH]; [reflexivity|].
  change (String x ((a +:+ b) +:+ c) = String x (a +:+ b +:+ c)). by rewrite IH.
Qed.

(** ** The name qualifier *)

Lemma qualifyTypeName_located typeChecker tsType typePath name file where_ :
  firstDeclarationFile typeChecker tsType = Some where_ ->
  qualifyTypeName typeChecker tsType typePath name file =
  let short := Js.removeTsSuffix (Js.replace (Js.dirname file +:+ "/") "" where_) in
  let nameOrGeneratedName := default (generateTypeNameFromTypePath typePath) name in
  if String.eqb file where_ then Normal nameOrGeneratedName
  else if (String.length short <? String.length where_)%nat
       then Normal (gqlName short +:+ "_" +:+ nameOrGeneratedName)
       else Throw ("Unsupported location for type " +:+ nameOrGeneratedName
                   +:+ " in " +:+ where_).
Proof.
  unfold firstDeclarationFile, resolveSymbol, qualifyTypeName. cbv zeta.
  destruct (symbol (typeChecker tsType)) as [s|]; simpl.
  - destruct (declarations s) as [[|w ws]|]; simpl; try discriminate.
    by intros [= ->].
  - destruct (tsutils.isUnionOrIntersectionType _); [|discriminate].
    destruct (types _) as [|first rest]; [discriminate|].
    destruct (symbol (typeChecker first)) as [s|]; simpl; [|discriminate].
    destruct (declarations s) as [[|w ws]|]; simpl; try discriminate.
    by intros [= ->].
Qed.




(** ** Structured types whose name cannot be qualified *)




(* ===================================================================== *)
(** * The properties of the specification, claim by claim               *)
(* ===================================================================== *)

(** C7.  Classification is attempted in a fixed order.  Below the recursion
    ceiling, a Promise, then a class, then the void type short-circuit with
    their fatal error whatever else the type matches; otherwise an array is
    derived as an array even if it also matches a later form, a scalar as a
    scalar, a nullable union as a nullable, a structured type through the
    object handler, and a type matching none of these gets the fallback
    error. *)
Theorem classification_order tsType typePath d context :
  d <= MAX_TYPE_DERIVATION_RECURSION ->
  let checker := typeChecker context in
  let t := checker tsType in
  let derive := deriveSchemaTypeForTsType tsType typePath d context in
  let supported :=
    unwrapPromiseType checker tsType = None
    /\ isClassType t = false
    /\ tsutils.isIntrinsicVoidType t = false in
  (is_Some (unwrapPromiseType checker tsType) ->
   derive = Returned
              (TypeErrors ["Promise types are not supported, but one was encountered in "
                           +:+ typePathToString typePath +:+ "."]) context)
  /\ (unwrapPromiseType checker tsType = None -> isClassType t = true ->
      derive = Returned
                 (TypeErrors ["Class types are not supported, but one was encountered in "
                              +:+ typePathToString typePath]) context)
  /\ (unwrapPromiseType checker tsType = None -> isClassType t = false ->
      tsutils.isIntrinsicVoidType t = true ->
      derive = Returned
                 (TypeErrors ["The void type is not supported, but one was encountered in "
                              +:+ typePathToString typePath]) context)
  /\ (forall inner,
         supported -> arrayElementType t = Some inner ->
         derive = (r <- deriveSchemaTypeForTsType inner (typePath ++ [Array]) (S d);;
                   ret (wrapArrayResult r))%derive context)
  /\ (forall scalarName,
         supported -> arrayElementType t = None ->
         scalarTypeName t = Some scalarName ->
         derive = Returned (TypeOk (named scalarName scalar) [])
                    (setScalarType scalarName context))
  /\ (forall inner n,
         supported -> arrayElementType t = None -> scalarTypeName t = None ->
         unwrapNullableType checker tsType = Some (inner, n) ->
         derive = (r <- deriveSchemaTypeForTsType inner typePath (S d);;
                   ret (wrapNullableResult n r))%derive context)
  /\ (supported -> arrayElementType t = None -> scalarTypeName t = None ->
      unwrapNullableType checker tsType = None ->
      isStructuredType t = true ->
      derive = (r <- deriveSchemaTypeIfObjectType deriveSchemaTypeForTsType
                       tsType typePath d;;
                ret (default (TypeErrors ["fallback"]) r))%derive context
      /\ deriveSchemaTypeIfObjectType deriveSchemaTypeForTsType tsType typePath d context
         <> Returned None context)
  /\ (supported -> arrayElementType t = None -> scalarTypeName t = None ->
      unwrapNullableType checker tsType = None ->
      isStructuredType t = false ->
      derive = Returned (TypeErrors ["fallback"]) context).
Proof.
  intros Hd checker t derive supported. subst derive supported.
  rewrite deriveSchemaTypeForTsType_by_form by assumption.
  fold checker. unfold classify. fold t.
  refine (conj _ (conj _ (conj _ (conj _ (conj _ (conj _ (conj _ _))))))).
  - intros [awaited ->]. reflexivity.
  - intros -> ->. reflexivity.
  - intros -> -> ->. reflexivity.
  - intros inner (-> & -> & ->) ->. reflexivity.
  - intros scalarName (-> & -> & ->) -> ->. reflexivity.
  - intros inner n (-> & -> & ->) -> -> ->. reflexivity.
  - intros (-> & -> & ->) -> -> -> Hstructured. rewrite Hstructured.
    split; [reflexivity|].
    rewrite deriveSchemaTypeIfObjectType_spec.
    pose proof (getObjectTypeInfo_structured checker tsType typePath
                  (functionsFilePath context) Hstructured) as Hinfo.
    fold checker.
    destruct (getObjectTypeInfo _ _ _ _) as [[info|]|]; try discriminate; [|done].
    cbv zeta. destruct (_ !! _); [discriminate|].
    destruct (derivePropertyTypes _ _ _ _ _ _) as [[[ps es] ws] c1| |]; try discriminate.
    destruct es; discriminate.
  - intros (-> & -> & ->) -> -> -> ->. reflexivity.
Qed.

Lemma classification_order_witness :
  0 <= MAX_TYPE_DERIVATION_RECURSION
  /\ deriveSchemaTypeForTsType 2 [FunctionReturn "f"] 0
       (Fixtures.contextOf Fixtures.brokenChecker)
     = Returned
         (TypeErrors ["Promise types are not supported, but one was encountered in "
                      +:+ typePathToString [FunctionReturn "f"] +:+ "."])
         (Fixtures.contextOf Fixtures.brokenChecker).
Proof.
  assert (0 <= MAX_TYPE_DERIVATION_RECURSION) as H by (unfold MAX_TYPE_DERIVATION_RECURSION; lia).
  split; [exact H|].
  apply (proj1 (classification_order 2 [FunctionReturn "f"] 0
                  (Fixtures.contextOf Fixtures.brokenChecker) H)).
  vm_compute. by eexists.
Defined.



(** C10.  An exported function declaration without a name identifier, without
    a resolvable symbol or without a call signature makes the whole pass
    throw: no schema and no issue report is produced, for any function. *)
Theorem malformed_declaration_aborts_pass sourceFile checker bad :
  In bad (exportedFunctionDeclarations sourceFile) ->
  isMalformed bad ->
  (exists message, deriveSchemaFromFunctions sourceFile checker = Thrown message)
  /\ passResult (deriveSchemaFromFunctions sourceFile checker) = None.
Proof.
  intros Hin Hbad. rewrite deriveSchemaFromFunctions_spec.
  destruct (deriveAllFunctionSchemas_malformed _ (initialContext sourceFile checker)
              bad Hin Hbad) as [message ->].
  split; [by exists message|reflexivity].
Qed.

Lemma malformed_declaration_aborts_pass_witness :
  (exists message,
      deriveSchemaFromFunctions Fixtures.namelessSource Fixtures.brokenChecker
      = Thrown message)
  /\ passResult (deriveSchemaFromFunctions Fixtures.namelessSource Fixtures.brokenChecker)
     = None.
Proof.
  apply (malformed_declaration_aborts_pass Fixtures.namelessSource Fixtures.brokenChecker
           {| declarationName := None;
              declarationSymbol := Some (Fixtures.functionSymbolOf [] 0);
              modifiers := Some [ExportKeyword; DefaultKeyword] |}).
  - simpl. right. left. reflexivity.
  - left. reflexivity.
Defined.



(** ** The results of the parameters *)

Lemma deriveParameterTypes_results functionName parameters context results context' :
  deriveParameterTypes functionName parameters context = Returned results context' ->
  map fst results = parameters
  /\ forall pr errors, In pr results -> snd pr = TypeErrors errors -> errors <> [].
Proof.
  revert context results. induction parameters as [|p rest IH]; intros context results.
  - intros [= <- <-]. split; [reflexivity|intros ? ? []].
  - simpl. unfold bind.
    destruct (liftCompletion _ _) as [paramType c0| |] eqn:E0; try discriminate.
    destruct (deriveSchemaTypeForTsType _ _ _ _) as [r c1| |] eqn:E1; try discriminate.
    destruct (deriveParameterTypes _ _ _) as [others c2| |] eqn:E2; try discriminate.
    intros [= <- <-]. destruct (IH _ _ E2) as [Hfst Herr].
    split; [simpl; by rewrite Hfst|].
    intros pr errors [<-|Hin] Hsnd; [|by eapply Herr].
    simpl in Hsnd. subst r.
    eapply deriveSchemaTypeForTsType_errors_nonempty. exact E1.
Qed.




Lemma fatal_issues_nonempty (results : list DeriveSchemaTypeResult) :
  (forall r errors, In r results -> r = TypeErrors errors -> errors <> []) ->
  existsb isFatal results = true ->
  flat_map resultIssues results <> [].
Proof.
  induction results as [|r rest IH]; [discriminate|].
  intros Hne. simpl. destruct r as [definition warnings|errors]; simpl.
  - intros Hex Hnil. apply app_eq_nil in Hnil as [_ Hnil].
    eapply IH; [|exact Hex|exact Hnil]. intros r errors Hin. apply Hne. by right.
  - intros _ Hnil. apply app_eq_nil in Hnil as [Hnil _].
    eapply Hne; [by left|reflexivity|exact Hnil].
Qed.


(** A function with two unsupported parameters and an unsupported return
    type: all three errors are reported, in order, and the function next to it
    is unaffected. *)
Example several_problems_all_reported :
  exists schema,
    passResult (deriveSchemaFromFunctions Fixtures.severalProblemsSource
                  Fixtures.brokenChecker) = Some schema
    /\ functions schema !! "m" = None
    /\ functionIssues schema !! "m"
       = Some [ "Promise types are not supported, but one was encountered in "
                +:+ "function 'm' parameter 'a'.";
                "The void type is not supported, but one was encountered in "
                +:+ "function 'm' parameter 'c'";
                "Promise types are not supported, but one was encountered in "
                +:+ "function 'm' return value." ]
    /\ (arguments <$> functions schema !! "n")
       = Some [ {| argumentName := "b"; argumentDescription := None;
                   argumentType := named "Float" scalar |} ]
    /\ functionIssues schema !! "n" = None.
Proof.
  eexists. split; [vm_compute; reflexivity|]. vm_compute. repeat split.
Qed.


(** ** A structured type whose derivation fails *)

Lemma failed_structured_type_keeps_placeholder tsType typePath d context info errors context' :
  d <= MAX_TYPE_DERIVATION_RECURSION ->
  classify (typeChecker context) tsType = StructuredForm ->
  getObjectTypeInfo (typeChecker context) tsType typePath (functionsFilePath context)
    = Normal (Some info) ->
  objectTypeDefinitions context !! generatedTypeName info = None ->
  deriveSchemaTypeForTsType tsType typePath d context
    = Returned (TypeErrors errors) context' ->
  objectTypeDefinitions context' !! generatedTypeName info = Some {| properties := [] |}
  /\ exists props warnings,
       derivePropertyTypes deriveSchemaTypeForTsType (generatedTypeName info) typePath d
         (members info)
         (setObjectType (generatedTypeName info) {| properties := [] |} context)
       = Returned (props, errors, warnings) context'.
Proof.
  intros Hd Hform Hinfo Hfresh.
  rewrite deriveSchemaTypeForTsType_by_form by assumption. rewrite Hform. simpl.
  unfold bind. rewrite deriveSchemaTypeIfObjectType_spec, Hinfo. cbv zeta.
  rewrite Hfresh.
  destruct (derivePropertyTypes _ _ _ _ _ _) as [[[ps es] ws] c1| |] eqn:Ep;
    try discriminate.
  destruct es as [|e es]; [discriminate|]. intros [= <- <-].
  split; [|by exists ps, ws].
  eapply extendsContext_lookup.
  - eapply derivePropertyTypes_extends; [|exact Ep].
    intros t p c r c' Hr. eapply deriveSchemaTypeForTsType_extends. exact Hr.
  - simpl. apply lookup_insert_eq.
Qed.

(** C1 (the code departs from the claim).  For
    [type Broken = { a: number; b: Promise<string> }] and the functions
    [f(x: Broken)] and [g(y: Broken)], the derivation of [Broken] fails for [f]
    and all property errors are reported for [f], but the placeholder is left
    in the registry: the final schema has an object type [Broken] without
    properties, and [g], which refers to the same type, is derived as if the
    type were fine. *)
Theorem placeholder_left_after_failure :
  exists schema,
    passResult (deriveSchemaFromFunctions Fixtures.brokenSource Fixtures.brokenChecker)
      = Some schema
    /\ functions schema !! "f" = None
    /\ functionIssues schema !! "f"
       = Some ["Promise types are not supported, but one was encountered in "
               +:+ "function 'f' parameter 'x', type 'Broken' property 'b'."]
    /\ objectTypes schema !! "Broken" = Some {| properties := [] |}
    /\ (arguments <$> functions schema !! "g")
       = Some [ {| argumentName := "y"; argumentDescription := None;
                   argumentType := named "Broken" object |} ]
    /\ functionIssues schema !! "g" = None.
Proof.
  eexists. split; [vm_compute; reflexivity|]. vm_compute. repeat split.
Qed.

(** C8 (the code departs from the claim).  The name generated from a type
    path joins the rendered segments with underscores, and a function
    parameter, a function return and an array segment render as the claim
    says; an object property segment renders with a stray quote, as
    [field_'propertyName], and the quote ends up in the names of the registry. *)
Theorem generated_name_has_stray_quote :
  (forall typePath,
      generateTypeNameFromTypePath typePath =
      String.concat "_"
        (map (fun segment =>
                match segment with
                | FunctionParameter functionName parameterName =>
                    functionName +:+ "_arguments_" +:+ parameterName
                | FunctionReturn functionName => functionName +:+ "_output"
                | ObjectProperty _ propertyName => "field_'" +:+ propertyName
                | Array => "array"
                end) typePath))
  /\ generateTypeNameFromTypePath
       [FunctionParameter "f" "p"; ObjectProperty "f_arguments_p" "a"]
     = "f_arguments_p_field_'a"
  /\ generateTypeNameFromTypePath
       [FunctionParameter "f" "p"; ObjectProperty "f_arguments_p" "a"]
     <> "f_arguments_p_field_a"
  /\ exists schema,
       passResult (deriveSchemaFromFunctions Fixtures.nestedSource Fixtures.nestedChecker)
         = Some schema
       /\ objectTypes schema !! "f_arguments_p"
          = Some {| properties :=
                      [ {| propertyName := "a";
                           propertyType := named "f_arguments_p_field_'a" object |} ] |}
       /\ objectTypes schema !! "f_arguments_p_field_a" = None.
Proof.
  split; [reflexivity|]. split; [reflexivity|]. split; [discriminate|].
  eexists. split; [vm_compute; reflexivity|]. vm_compute. split; reflexivity.
Qed.

(** C3.  Nullable unions.  For a union with a null or an undefined member:
    when exactly one member remains after the null and undefined members are
    stripped, the union unwraps to that member with the acceptance the markers
    present stand for, and derivation (below the ceiling, no earlier form
    matching) derives the remaining member under the same path, one level
    deeper, and wraps its definition in a nullable; when none or several
    remain, the union is not a nullable and derivation goes on to the object
    handler and the fallback.  As the compiler flattens unions, no nullable
    definition directly wraps another one, in results and in the registry. *)
Theorem nullable_union_unwrapping :
  (forall checker tsType,
      let t := checker tsType in
      isUnion t = true ->
      hasNullMember checker t || hasUndefinedMember checker t = true ->
      (forall only,
          membersWithoutNullAndUndefined checker t = [only] ->
          exists n,
            acceptanceOfMarkers (hasNullMember checker t) (hasUndefinedMember checker t)
              = Some n
            /\ unwrapNullableType checker tsType = Some (only, n))
      /\ (length (membersWithoutNullAndUndefined checker t) <> 1 ->
          unwrapNullableType checker tsType = None))
  /\ (forall tsType typePath d context,
         d <= MAX_TYPE_DERIVATION_RECURSION ->
         reachesNullableCheck (typeChecker context) tsType ->
         (forall inner n,
             unwrapNullableType (typeChecker context) tsType = Some (inner, n) ->
             deriveSchemaTypeForTsType tsType typePath d context =
             (r <- deriveSchemaTypeForTsType inner typePath (S d);;
              ret (wrapNullableResult n r))%derive context)
         /\ (unwrapNullableType (typeChecker context) tsType = None ->
             deriveSchemaTypeForTsType tsType typePath d context =
             orElse (deriveSchemaTypeIfObjectType deriveSchemaTypeForTsType
                       tsType typePath d)
               (ret (TypeErrors ["fallback"])) context))
  /\ (forall tsType typePath d context definition warnings context',
         unionsAreFlat (typeChecker context) ->
         deriveSchemaTypeForTsType tsType typePath d context
           = Returned (TypeOk definition warnings) context' ->
         noNullableInNullable definition = true
         /\ (registryNullableFree (objectTypeDefinitions context) ->
             registryNullableFree (objectTypeDefinitions context'))).
Proof.
  refine (conj _ (conj _ _)).
  - intros checker tsType t Hunion Hmarker.
    rewrite unwrapNullableType_spec. cbv zeta. fold t. rewrite Hunion.
    split.
    + intros only ->.
      destruct (hasNullMember checker t), (hasUndefinedMember checker t);
        try discriminate; by eexists.
    + intros Hlen.
      destruct (membersWithoutNullAndUndefined checker t) as [|only [|]]; try reflexivity.
      by destruct Hlen.
  - intros tsType typePath d context Hd Hreach. split.
    + intros inner n Hun. by apply derive_nullable_union.
    + intros Hun. by apply derive_not_nullable_union.
  - intros tsType typePath d context definition warnings context' Hflat Hderive.
    destruct (deriveSchemaTypeForTsType_nullable (typeChecker context) d Hflat
                tsType typePath context _ context' eq_refl Hderive) as [Hdef Hreg].
    split; [|exact Hreg]. by destruct (Hdef definition warnings eq_refl).
Qed.

Lemma listChecker_flat : unionsAreFlat Fixtures.listChecker.
Proof.
  intros tsType member.
  destruct tsType as [|[|[|[|[|[|[|[|[|[|[|?]]]]]]]]]]];
    try (intros Hunion; vm_compute in Hunion; discriminate).
  all: intros _ Hin; simpl in Hin;
    repeat (destruct Hin as [<-|Hin]; [reflexivity|]); destruct Hin.
Defined.

Lemma nullable_union_unwrapping_witness :
  unwrapNullableType Fixtures.listChecker 9 = Some (8, AcceptsEither)
  /\ unwrapNullableType Fixtures.listChecker 10 = None
  /\ deriveSchemaTypeForTsType 5 [FunctionReturn "f"] 0
       (Fixtures.contextOf Fixtures.listChecker)
     = (r <- deriveSchemaTypeForTsType 4 [FunctionReturn "f"] 1;;
        ret (wrapNullableResult AcceptsNullOnly r))%derive
         (Fixtures.contextOf Fixtures.listChecker)
  /\ noNullableInNullable (nullable (named "Node" object) AcceptsNullOnly) = true.
Proof.
  assert (0 <= MAX_TYPE_DERIVATION_RECURSION) as Hd
    by (unfold MAX_TYPE_DERIVATION_RECURSION; lia).
  refine (conj _ (conj _ (conj _ _))).
  - destruct (proj1 (proj1 nullable_union_unwrapping Fixtures.listChecker 9
                       eq_refl eq_refl) 8 eq_refl) as (n & Hn & ->).
    vm_compute in Hn. by injection Hn as <-.
  - apply (proj2 (proj1 nullable_union_unwrapping Fixtures.listChecker 10
                    eq_refl eq_refl)).
    vm_compute. lia.
  - apply (proj1 (proj1 (proj2 nullable_union_unwrapping) 5 [FunctionReturn "f"] 0
                    (Fixtures.contextOf Fixtures.listChecker) Hd
                    (union_reaches Fixtures.listChecker 5 eq_refl))).
    reflexivity.
  - refine (proj1 (proj2 (proj2 nullable_union_unwrapping) 5 [FunctionReturn "f"] 0
                    (Fixtures.contextOf Fixtures.listChecker)
                    (nullable (named "Node" object) AcceptsNullOnly) []
                    (setObjectType "Node"
                       {| properties :=
                            [ {| propertyName := "next";
                                 propertyType := nullable (named "Node" object) AcceptsNullOnly |};
                              {| propertyName := "value";
                                 propertyType := named "Float" scalar |} ] |}
                       (setScalarType "Float"
                          (setObjectType "Node" {| properties := [] |}
                             (Fixtures.contextOf Fixtures.listChecker))))
                    listChecker_flat _)).
    vm_compute. reflexivity.
Defined.

(** ** Exceptions abort the pass *)





(** The length test of the qualifier also succeeds when nothing but the
    final [.ts] was removed: a type alias declared in a [.ts] file outside the
    directory of the entry file is qualified with its whole sanitized path. *)
Remark outside_ts_file_is_qualified :
  qualifyTypeName Fixtures.locationChecker 5 [FunctionParameter "area" "shape"]
    (Some "Shape") Fixtures.entryFile = Normal "shared_shapes_Shape".
Proof. vm_compute. reflexivity. Qed.


(** ** Types with a name of their own are named alike on every path *)






(* ===================================================================== *)
(** * Further properties of the code                                      *)
(* ===================================================================== *)

(** ** No derivation produces a warning *)

Lemma derivePropertyTypes_no_warnings (derive : Derive) name typePath d members :
  (forall t p c definition warnings c',
      derive t p (S d) c = Returned (TypeOk definition warnings) c' -> warnings = []) ->
  forall context props errors warnings context',
    derivePropertyTypes derive name typePath d members context
      = Returned (props, errors, warnings) context' ->
    warnings = [].
Proof.
  intros Hrec. induction members as [|[propName propType] rest IH];
    intros context props errors warnings context'; simpl.
  - by intros [= <- <- <- <-].
  - unfold bind.
    destruct (derive _ _ _ _) as [r c1| |] eqn:E1; try discriminate.
    destruct (derivePropertyTypes _ _ _ _ _ _) as [[[ps es] ws] c2| |] eqn:E2;
      try discriminate.
    pose proof (IH _ _ _ _ _ E2) as ->.
    destruct r as [definition propWarnings|propErrors]; intros [= <- <- <- <-];
      [|reflexivity].
    by rewrite (Hrec _ _ _ _ _ _ E1).
Qed.

Lemma deriveSchemaTypeForTsType_no_warnings tsType typePath d context definition warnings
    context' :
  deriveSchemaTypeForTsType tsType typePath d context
    = Returned (TypeOk definition warnings) context' ->
  warnings = [].
Proof.
  revert tsType typePath context definition warnings context'.
  induction d as [d Hd|d Hd IH] using depth_induction;
    intros tsType typePath context definition warnings context'.
  - rewrite deriveSchemaTypeForTsType_exceeded by assumption. discriminate.
  - rewrite deriveSchemaTypeForTsType_by_form by assumption.
    destruct (classify _ _); simpl; unfold bind, ret, modifyContext; try discriminate.
    + destruct (deriveSchemaTypeForTsType _ _ _ _) as [[]| |] eqn:E; try discriminate.
      intros [= <- <- <-]. eapply IH. exact E.
    + by intros [= <- <- <-].
    + destruct (deriveSchemaTypeForTsType _ _ _ _) as [[]| |] eqn:E; try discriminate.
      intros [= <- <- <-]. eapply IH. exact E.
    + rewrite deriveSchemaTypeIfObjectType_spec.
      destruct (getObjectTypeInfo _ _ _ _) as [[info|]|]; try discriminate.
      cbv zeta. destruct (_ !! _); [by intros [= <- <- <-]|].
      destruct (derivePropertyTypes _ _ _ _ _ _) as [[[ps es] ws] c1| |] eqn:Ep;
        try discriminate.
      apply derivePropertyTypes_no_warnings in Ep; [|exact IH]. subst ws.
      destruct es; [|discriminate]. by intros [= <- <- <-].
Qed.

(** ** The registries stay well formed *)

Lemma extendsContext_keepsKeys before after :
  extendsContext before after -> keepsKeys before after.
Proof.
  intros (Ho & Hs & _). split; intros name [x Hx]; exists x;
    eapply lookup_weaken; eassumption.
Qed.

Lemma keepsKeys_trans c1 c2 c3 : keepsKeys c1 c2 -> keepsKeys c2 c3 -> keepsKeys c1 c3.
Proof. intros [Ho1 Hs1] [Ho2 Hs2]. split; intros name H; auto. Qed.

Lemma keepsKeys_setObjectType name entry context :
  keepsKeys context (setObjectType name entry context).
Proof.
  split; [|done]. intros name' H. simpl.
  destruct (decide (name = name')) as [->|Hne].
  - rewrite lookup_insert_eq. by eexists.
  - by rewrite lookup_insert_ne.
Qed.

Lemma definitionClosed_keepsKeys before after d :
  keepsKeys before after ->
  definitionClosed (objectTypeDefinitions before) (scalarTypeDefinitions before) d ->
  definitionClosed (objectTypeDefinitions after) (scalarTypeDefinitions after) d.
Proof.
  intros [Ho Hs]. induction d as [e IH|u IH n|name kind]; simpl; try assumption.
  destruct kind; auto.
Qed.

Lemma contextWellFormed_setScalarType scalarName context :
  scalarName = "Boolean" \/ scalarName = "String" \/ scalarName = "Float" ->
  contextWellFormed context ->
  contextWellFormed (setScalarType scalarName context).
Proof.
  intros Hname (Hclosed & Hscalars & Hdistinct).
  pose proof (extendsContext_keepsKeys _ _ (extendsContext_setScalarType scalarName context))
    as Hkeys.
  split; [|split].
  - intros name entry property Hentry Hin.
    eapply definitionClosed_keepsKeys; [exact Hkeys|]. eapply Hclosed; eassumption.
  - intros name. simpl. destruct (decide (scalarName = name)) as [<-|Hne].
    + intros _. exact Hname.
    + rewrite lookup_insert_ne by assumption. apply Hscalars.
  - exact Hdistinct.
Qed.

Lemma contextWellFormed_setObjectType name entry context :
  contextWellFormed context ->
  NoDup (map propertyName (properties entry)) ->
  (forall property,
      In property (properties entry) ->
      definitionClosed (<[name := entry]> (objectTypeDefinitions context))
        (scalarTypeDefinitions context) (propertyType property)) ->
  contextWellFormed (setObjectType name entry context).
Proof.
  intros (Hclosed & Hscalars & Hdistinct) Hnodup Hentry.
  split; [|split].
  - intros name' entry' property Hl Hin. simpl in Hl.
    destruct (decide (name = name')) as [<-|Hne].
    + rewrite lookup_insert_eq in Hl. injection Hl as <-. by apply Hentry.
    + rewrite lookup_insert_ne in Hl by assumption.
      eapply (definitionClosed_keepsKeys context); [apply keepsKeys_setObjectType|].
      eapply Hclosed; eassumption.
  - exact Hscalars.
  - intros name' entry' Hl. simpl in Hl.
    destruct (decide (name = name')) as [<-|Hne].
    + rewrite lookup_insert_eq in Hl. by injection Hl as <-.
    + rewrite lookup_insert_ne in Hl by assumption. eapply Hdistinct. exact Hl.
Qed.

Lemma scalarTypeName_known t scalarName :
  scalarTypeName t = Some scalarName ->
  scalarName = "Boolean" \/ scalarName = "String" \/ scalarName = "Float".
Proof.
  unfold scalarTypeName. repeat case_match; intros [= <-]; auto.
Qed.

Lemma classify_scalar typeChecker tsType scalarName :
  classify typeChecker tsType = ScalarForm scalarName ->
  scalarTypeName (typeChecker tsType) = Some scalarName.
Proof. unfold classify. repeat case_match; try discriminate; congruence. Qed.

Lemma mapSet_keys {V : Type} key (value : V) m :
  map fst (mapSet key value m) =
  if bool_decide (key ∈ map fst m) then map fst m else map fst m ++ [key].
Proof.
  induction m as [|[k v] rest IH]; [reflexivity|]. simpl.
  destruct (String.eqb k key) eqn:Heq.
  - apply String.eqb_eq in Heq as ->. simpl.
    rewrite bool_decide_eq_true_2; [reflexivity|]. apply elem_of_cons. by left.
  - apply String.eqb_neq in Heq. simpl. rewrite IH.
    case_bool_decide as Hin.
    + rewrite bool_decide_eq_true_2; [reflexivity|]. apply elem_of_cons. by right.
    + rewrite bool_decide_eq_false_2; [reflexivity|].
      apply not_elem_of_cons. split; [congruence|assumption].
Qed.

Lemma mapSet_NoDup {V : Type} key (value : V) m :
  NoDup (map fst m) -> NoDup (map fst (mapSet key value m)).
Proof.
  intros Hnd. rewrite mapSet_keys. case_bool_decide as Hin; [exact Hnd|].
  apply NoDup_app. split; [exact Hnd|]. split; [|apply NoDup_singleton].
  intros x Hx Hx'. apply list_elem_of_singleton in Hx' as ->. contradiction.
Qed.

Lemma newMap_NoDup {V : Type} (entries : list (string * V)) :
  NoDup (map fst (newMap entries)).
Proof.
  unfold newMap.
  assert (forall acc, NoDup (map fst acc) ->
            NoDup (map fst (fold_left (fun m kv => mapSet (fst kv) (snd kv) m)
                              entries acc))) as H.
  { induction entries as [|[k v] rest IH]; intros acc Hacc; [exact Hacc|].
    simpl. apply IH. by apply mapSet_NoDup. }
  apply H. constructor.
Qed.

Lemma getObjectTypeInfo_members typeChecker tsType typePath file info :
  getObjectTypeInfo typeChecker tsType typePath file = Normal (Some info) ->
  members info = getMembers (propertySymbols (typeChecker tsType)).
Proof.
  unfold getObjectTypeInfo, completionBind. cbv zeta.
  repeat case_match; try discriminate; by intros [= <-].
Qed.

Lemma derivePropertyTypes_wellFormed name typePath d members :
  keepsWellFormed deriveSchemaTypeForTsType (S d) ->
  forall context props errors warnings context',
    contextWellFormed context ->
    derivePropertyTypes deriveSchemaTypeForTsType name typePath d members context
      = Returned (props, errors, warnings) context' ->
    contextWellFormed context'
    /\ map propertyName props `sublist_of` map fst members
    /\ (errors = [] -> map propertyName props = map fst members)
    /\ forall property,
         In property props ->
         definitionClosed (objectTypeDefinitions context') (scalarTypeDefinitions context')
           (propertyType property).
Proof.
  intros Hrec. induction members as [|[propName propType] rest IH];
    intros context props errors warnings context' Hwf; simpl.
  - intros [= <- <- <- <-]. split; [exact Hwf|]. split; [constructor|].
    split; [done|]. intros ? [].
  - unfold bind.
    destruct (deriveSchemaTypeForTsType _ _ _ _) as [r c1| |] eqn:E1; try discriminate.
    destruct (derivePropertyTypes _ _ _ _ _ _) as [[[ps es] ws] c2| |] eqn:E2;
      try discriminate.
    destruct (Hrec _ _ _ _ _ Hwf E1) as [Hwf1 Hr].
    destruct (IH _ _ _ _ _ Hwf1 E2) as (Hwf2 & Hsub & Hall & Hps).
    assert (keepsKeys c1 c2) as Hkeys.
    { apply extendsContext_keepsKeys. eapply derivePropertyTypes_extends; [|exact E2].
      intros t p c r' c' Hr'. eapply deriveSchemaTypeForTsType_extends. exact Hr'. }
    destruct r as [definition propWarnings|propErrors]; intros [= <- <- <- <-].
    + split; [exact Hwf2|]. split; [simpl; by apply sublist_skip|].
      split; [intros ->; simpl; by rewrite Hall|].
      intros property [<-|Hin]; [|by apply Hps].
      simpl. eapply definitionClosed_keepsKeys; [exact Hkeys|exact Hr].
    + split; [exact Hwf2|]. split; [simpl; by apply sublist_cons|].
      split; [|exact Hps].
      intros Hnil. apply app_eq_nil in Hnil as [-> _].
      by apply deriveSchemaTypeForTsType_errors_nonempty in E1.
Qed.

Lemma deriveSchemaTypeForTsType_wellFormed d :
  keepsWellFormed deriveSchemaTypeForTsType d.
Proof.
  induction d as [d Hd|d Hd IH] using depth_induction;
    intros tsType typePath context r context' Hwf.
  - rewrite deriveSchemaTypeForTsType_exceeded by assumption. discriminate.
  - rewrite deriveSchemaTypeForTsType_by_form by assumption.
    destruct (classify _ _) eqn:Hform; simpl; unfold bind, ret, modifyContext.
    + by intros [= <- <-].
    + by intros [= <- <-].
    + by intros [= <- <-].
    + destruct (deriveSchemaTypeForTsType _ _ _ _) as [r1 c1| |] eqn:E; try discriminate.
      intros [= <- <-]. destruct (IH _ _ _ _ _ Hwf E) as [Hwf1 Hr].
      split; [exact Hwf1|]. by destruct r1.
    + intros [= <- <-].
      apply classify_scalar, scalarTypeName_known in Hform.
      split; [by apply contextWellFormed_setScalarType|].
      simpl. rewrite lookup_insert_eq. by eexists.
    + destruct (deriveSchemaTypeForTsType _ _ _ _) as [r1 c1| |] eqn:E; try discriminate.
      intros [= <- <-]. destruct (IH _ _ _ _ _ Hwf E) as [Hwf1 Hr].
      split; [exact Hwf1|]. by destruct r1.
    + rewrite deriveSchemaTypeIfObjectType_spec.
      destruct (getObjectTypeInfo _ _ _ _) as [[info|]|] eqn:Hinfo; try discriminate.
      2:{ by intros [= <- <-]. }
      cbv zeta. destruct (_ !! _) eqn:El.
      { intros [= <- <-]. split; [exact Hwf|]. simpl. rewrite El. by eexists. }
      destruct (derivePropertyTypes _ _ _ _ _ _) as [[[ps es] ws] c1| |] eqn:Ep;
        try discriminate.
      assert (contextWellFormed
                (setObjectType (generatedTypeName info) {| properties := [] |} context))
        as Hwf0.
      { apply contextWellFormed_setObjectType; [exact Hwf|constructor|intros ? []]. }
      destruct (derivePropertyTypes_wellFormed _ _ _ _ IH _ _ _ _ _ Hwf0 Ep)
        as (Hwf1 & Hsub & Hall & Hps).
      destruct es; intros [= <- <-]; [|by split].
      split.
      * apply contextWellFormed_setObjectType; [exact Hwf1| |].
        -- simpl. rewrite Hall by reflexivity.
           rewrite (getObjectTypeInfo_members _ _ _ _ _ Hinfo). apply newMap_NoDup.
        -- intros property Hin.
           apply (definitionClosed_keepsKeys c1
                    (setObjectType (generatedTypeName info) {| properties := ps |} c1));
             [apply keepsKeys_setObjectType|by apply Hps].
      * simpl. rewrite lookup_insert_eq. by eexists.
    + by intros [= <- <-].
Qed.

(** ** Results of functions and passes *)

Lemma deriveParameterTypes_wellFormed functionName parameters :
  forall context results context',
    contextWellFormed context ->
    deriveParameterTypes functionName parameters context = Returned results context' ->
    contextWellFormed context'
    /\ forall pr, In pr results -> resultClosed context' (snd pr).
Proof.
  induction parameters as [|p rest IH]; intros context results context' Hwf.
  - intros [= <- <-]. split; [exact Hwf|intros ? []].
  - simpl. unfold bind.
    destruct (liftCompletion _ _) as [paramType c0| |] eqn:E0; try discriminate.
    assert (c0 = context) as ->.
    { destruct (valueDeclarationType p); simpl in E0; [|discriminate]. by injection E0. }
    destruct (deriveSchemaTypeForTsType _ _ _ _) as [r c1| |] eqn:E1; try discriminate.
    destruct (deriveParameterTypes _ _ _) as [others c2| |] eqn:E2; try discriminate.
    intros [= <- <-].
    destruct (deriveSchemaTypeForTsType_wellFormed _ _ _ _ _ _ Hwf E1) as [Hwf1 Hr].
    destruct (IH _ _ _ Hwf1 E2) as [Hwf2 Hothers].
    split; [exact Hwf2|]. intros pr [<-|Hin]; [|by apply Hothers].
    simpl. destruct r as [definition warnings|]; [|exact I]. simpl in *.
    eapply definitionClosed_keepsKeys; [|exact Hr].
    apply extendsContext_keepsKeys. eapply deriveParameterTypes_extends. exact E2.
Qed.

Lemma deriveParameterTypes_no_warnings functionName parameters :
  forall context results context',
    deriveParameterTypes functionName parameters context = Returned results context' ->
    forall pr definition warnings,
      In pr results -> snd pr = TypeOk definition warnings -> warnings = [].
Proof.
  induction parameters as [|p rest IH]; intros context results context'.
  - intros [= <- <-] ? ? ? [].
  - simpl. unfold bind.
    destruct (liftCompletion _ _) as [paramType c0| |] eqn:E0; try discriminate.
    destruct (deriveSchemaTypeForTsType _ _ _ _) as [r c1| |] eqn:E1; try discriminate.
    destruct (deriveParameterTypes _ _ _) as [others c2| |] eqn:E2; try discriminate.
    intros [= <- <-] pr definition warnings [<-|Hin] Hsnd; [|by eapply IH].
    simpl in Hsnd. subst r. eapply deriveSchemaTypeForTsType_no_warnings. exact E1.
Qed.

Lemma keptArguments_closed objectTypes scalarTypes results argument :
  (forall pr definition warnings,
      In pr results -> snd pr = TypeOk definition warnings ->
      definitionClosed objectTypes scalarTypes definition) ->
  In argument (keptArguments results) ->
  definitionClosed objectTypes scalarTypes (argumentType argument).
Proof.
  intros Hall Hin. unfold keptArguments in Hin.
  apply in_flat_map in Hin as ([p r] & Hpr & Hin). simpl in Hin.
  destruct r as [definition warnings|]; [|destruct Hin].
  destruct Hin as [<-|[]]. simpl. eapply Hall; [exact Hpr|reflexivity].
Qed.

Lemma deriveFunctionSchema_returns functionDeclaration context result context' :
  deriveFunctionSchema functionDeclaration context = Returned result context' ->
  exists functionName functionSymbol functionCallSig results context1 returnResult,
    declarationName functionDeclaration = Some functionName
    /\ declarationSymbol functionDeclaration = Some functionSymbol
    /\ head (callSignatures functionSymbol) = Some functionCallSig
    /\ deriveParameterTypes functionName (signatureParameters functionCallSig) context
       = Returned results context1
    /\ deriveSchemaTypeForTsType (signatureReturnType functionCallSig)
         [FunctionReturn functionName] 0 context1 = Returned returnResult context'
    /\ result = functionResultOf functionName functionSymbol results returnResult.
Proof.
  rewrite deriveFunctionSchema_spec.
  destruct (declarationName _) as [functionName|] eqn:Hname; [|discriminate].
  destruct (declarationSymbol _) as [functionSymbol|] eqn:Hsymbol; [|discriminate].
  destruct (head _) as [functionCallSig|] eqn:Hsig; [|discriminate].
  unfold bind.
  destruct (deriveParameterTypes _ _ _) as [results context1| |] eqn:Hparams;
    try discriminate.
  destruct (deriveSchemaTypeForTsType _ _ _ _) as [returnResult c2| |] eqn:Hreturn;
    try discriminate.
  intros [= <- <-].
  by exists functionName, functionSymbol, functionCallSig, results, context1, returnResult.
Qed.

Lemma no_warnings_no_issues (results : list (ParameterSymbol * DeriveSchemaTypeResult)) :
  (forall pr definition warnings,
      In pr results -> snd pr = TypeOk definition warnings -> warnings = []) ->
  existsb (fun pr => isFatal (snd pr)) results = false ->
  flat_map (fun pr => resultIssues (snd pr)) results = [].
Proof.
  induction results as [|[p r] rest IH]; [reflexivity|].
  intros Hall. simpl. destruct r as [definition warnings|]; [|discriminate].
  simpl. intros Hok.
  rewrite (Hall (p, TypeOk definition warnings) definition warnings (or_introl eq_refl)
             eq_refl).
  apply IH; [|exact Hok]. intros pr d w Hin. apply Hall. by right.
Qed.

Lemma deriveFunctionSchema_issues functionDeclaration context result context' :
  deriveFunctionSchema functionDeclaration context = Returned result context' ->
  (is_Some (definition result) <-> issues result = [])
  /\ declarationName functionDeclaration = Some (resultName result).
Proof.
  intros Hderive.
  destruct (deriveFunctionSchema_returns _ _ _ _ Hderive)
    as (functionName & functionSymbol & functionCallSig & results & context1
        & returnResult & Hname & Hsymbol & Hsig & Hparams & Hreturn & ->).
  split; [|exact Hname].
  pose proof (deriveParameterTypes_no_warnings _ _ _ _ _ Hparams) as Hnw.
  destruct (deriveParameterTypes_results _ _ _ _ _ Hparams) as [_ Hne].
  simpl. destruct returnResult as [definition warnings|errors].
  - apply deriveSchemaTypeForTsType_no_warnings in Hreturn as ->. simpl.
    rewrite app_nil_r.
    destruct (existsb _ results) eqn:Hfatal.
    + split; [intros [? [=]]|]. intros Hnil. exfalso.
      assert (existsb isFatal (map snd results) = true) as Hfatal'.
      { clear -Hfatal. induction results as [|pr rest IH]; [discriminate|].
        simpl in *. destruct (isFatal (snd pr)); [reflexivity|]. by apply IH. }
      eapply (fatal_issues_nonempty (map snd results)); [|exact Hfatal'|].
      * intros r errors Hin ->. apply in_map_iff in Hin as (pr & Hsnd & Hin).
        by eapply Hne.
      * rewrite <- Hnil. clear. induction results as [|pr rest IH]; [reflexivity|].
        simpl. by rewrite IH.
    + split; [intros _|by eexists]. by apply no_warnings_no_issues.
  - simpl. split; [intros [? [=]]|].
    intros Hnil. apply app_eq_nil in Hnil as [_ ->].
    by apply deriveSchemaTypeForTsType_errors_nonempty in Hreturn.
Qed.

Lemma deriveFunctionSchema_wellFormed functionDeclaration context result context' :
  contextWellFormed context ->
  deriveFunctionSchema functionDeclaration context = Returned result context' ->
  contextWellFormed context'
  /\ forall f, definition result = Some f ->
               functionDefinitionClosed (objectTypeDefinitions context')
                 (scalarTypeDefinitions context') f.
Proof.
  intros Hwf Hderive.
  destruct (deriveFunctionSchema_returns _ _ _ _ Hderive)
    as (functionName & functionSymbol & functionCallSig & results & context1
        & returnResult & Hname & Hsymbol & Hsig & Hparams & Hreturn & ->).
  destruct (deriveParameterTypes_wellFormed _ _ _ _ _ Hwf Hparams) as [Hwf1 Hclosed].
  destruct (deriveSchemaTypeForTsType_wellFormed _ _ _ _ _ _ Hwf1 Hreturn) as [Hwf2 Hr].
  split; [exact Hwf2|]. intros f. simpl.
  destruct returnResult as [definition warnings|]; [|discriminate].
  destruct (existsb _ _); [discriminate|]. intros [= <-].
  split; [exact Hr|]. simpl. intros argument Hin.
  eapply keptArguments_closed; [|exact Hin].
  intros pr d w Hpr Hsnd.
  eapply definitionClosed_keepsKeys.
  - apply extendsContext_keepsKeys. eapply deriveSchemaTypeForTsType_extends.
    exact Hreturn.
  - specialize (Hclosed pr Hpr). by rewrite Hsnd in Hclosed.
Qed.

Lemma functionDefinitionClosed_keepsKeys before after f :
  keepsKeys before after ->
  functionDefinitionClosed (objectTypeDefinitions before) (scalarTypeDefinitions before) f ->
  functionDefinitionClosed (objectTypeDefinitions after) (scalarTypeDefinitions after) f.
Proof.
  intros Hkeys [Hr Hargs]. split.
  - eapply definitionClosed_keepsKeys; eassumption.
  - intros argument Hin. eapply definitionClosed_keepsKeys; [exact Hkeys|by apply Hargs].
Qed.

Lemma deriveAllFunctionSchemas_wellFormed functionDeclarations :
  forall context results context',
    contextWellFormed context ->
    deriveAllFunctionSchemas functionDeclarations context = Returned results context' ->
    contextWellFormed context'
    /\ forall result f,
         In result results -> definition result = Some f ->
         functionDefinitionClosed (objectTypeDefinitions context')
           (scalarTypeDefinitions context') f.
Proof.
  induction functionDeclarations as [|fd rest IH]; intros context results context' Hwf.
  - intros [= <- <-]. split; [exact Hwf|intros ? ? []].
  - simpl. unfold bind.
    destruct (deriveFunctionSchema _ _) as [result c1| |] eqn:E1; try discriminate.
    destruct (deriveAllFunctionSchemas _ _) as [others c2| |] eqn:E2; try discriminate.
    intros [= <- <-].
    destruct (deriveFunctionSchema_wellFormed _ _ _ _ Hwf E1) as [Hwf1 Hclosed].
    destruct (IH _ _ _ Hwf1 E2) as [Hwf2 Hothers].
    split; [exact Hwf2|]. intros r f [<-|Hin] Hdef; [|by eapply Hothers].
    eapply functionDefinitionClosed_keepsKeys; [|by apply Hclosed].
    apply extendsContext_keepsKeys. eapply deriveAllFunctionSchemas_extends. exact E2.
Qed.

Lemma deriveAllFunctionSchemas_results functionDeclarations :
  forall context results context',
    deriveAllFunctionSchemas functionDeclarations context = Returned results context' ->
    map declarationName functionDeclarations = map (fun r => Some (resultName r)) results
    /\ forall result, In result results ->
                      (is_Some (definition result) <-> issues result = []).
Proof.
  induction functionDeclarations as [|fd rest IH]; intros context results context'.
  - intros [= <- <-]. split; [reflexivity|intros ? []].
  - simpl. unfold bind.
    destruct (deriveFunctionSchema _ _) as [result c1| |] eqn:E1; try discriminate.
    destruct (deriveAllFunctionSchemas _ _) as [others c2| |] eqn:E2; try discriminate.
    intros [= <- <-].
    destruct (deriveFunctionSchema_issues _ _ _ _ E1) as [Hiff Hname].
    destruct (IH _ _ _ E2) as [Hnames Hothers].
    split; [simpl; by rewrite Hname, Hnames|].
    intros r [<-|Hin]; [exact Hiff|by apply Hothers].
Qed.

Lemma recordAll_sources results : forall acc name,
  (forall f, fst (recordAll results acc) !! name = Some f ->
             (exists result, In result results /\ resultName result = name
                             /\ definition result = Some f)
             \/ fst acc !! name = Some f)
  /\ (forall reported, snd (recordAll results acc) !! name = Some reported ->
                       (exists result, In result results /\ resultName result = name
                                       /\ issues result = reported /\ reported <> [])
                       \/ snd acc !! name = Some reported).
Proof.
  induction results as [|r rest IH]; intros [fns iss] name; [split; auto|].
  rewrite recordAll_cons.
  destruct (IH (recordFunctionResult r (fns, iss)) name) as [Hf Hi].
  split.
  - intros f Hl. destruct (Hf f Hl) as [(result & Hin & Hn & Hd)|Hacc].
    + left. exists result. split; [by right|done].
    + unfold recordFunctionResult in Hacc. simpl in Hacc.
      destruct (definition r) as [f'|] eqn:Hdef; [|by right].
      destruct (decide (resultName r = name)) as [Heq|Hne].
      * rewrite Heq, lookup_insert_eq in Hacc. injection Hacc as ->.
        left. exists r. split; [by left|done].
      * rewrite lookup_insert_ne in Hacc by assumption. by right.
  - intros reported Hl. destruct (Hi reported Hl) as [(result & Hin & Hn & Hd)|Hacc].
    + left. exists result. split; [by right|done].
    + unfold recordFunctionResult in Hacc. simpl in Hacc.
      destruct (issues r) as [|e es] eqn:Hiss; [by right|].
      destruct (decide (resultName r = name)) as [Heq|Hne].
      * rewrite Heq, lookup_insert_eq in Hacc. injection Hacc as <-.
        left. exists r. split; [by left|]. by rewrite Hiss.
      * rewrite lookup_insert_ne in Hacc by assumption. by right.
Qed.

Lemma initialContext_wellFormed sourceFile checker :
  contextWellFormed (initialContext sourceFile checker).
Proof.
  split; [|split].
  - intros name entry property Hl. simpl in Hl. by rewrite lookup_empty in Hl.
  - intros name [x Hx]. simpl in Hx. by rewrite lookup_empty in Hx.
  - intros name entry Hl. simpl in Hl. by rewrite lookup_empty in Hl.
Qed.

Lemma exportedFunctionDeclarations_In sourceFile functionDeclaration :
  In functionDeclaration (exportedFunctionDeclarations sourceFile) <->
  In (FunctionDeclarationNode functionDeclaration) (children sourceFile)
  /\ isExportedFunction functionDeclaration = true.
Proof.
  unfold exportedFunctionDeclarations. rewrite in_flat_map. split.
  - intros ([fd|] & Hin & Hfd); [|destruct Hfd].
    destruct (isExportedFunction fd) eqn:Hexp; [|destruct Hfd].
    destruct Hfd as [<-|[]]. by split.
  - intros [Hin Hexp]. exists (FunctionDeclarationNode functionDeclaration).
    split; [exact Hin|]. rewrite Hexp. by left.
Qed.




(** ** Scalar registrations *)

Lemma addsKnownScalars_refl context : addsKnownScalars context context.
Proof. intros name H. by left. Qed.

Lemma addsKnownScalars_trans c1 c2 c3 :
  addsKnownScalars c1 c2 -> addsKnownScalars c2 c3 -> addsKnownScalars c1 c3.
Proof.
  intros H12 H23 name H3. destruct (H23 name H3) as [H2|Hknown]; [|by right].
  by apply H12.
Qed.

Lemma derivePropertyTypes_scalars name typePath d members :
  (forall t p c r c', deriveSchemaTypeForTsType t p (S d) c = Returned r c' ->
                      addsKnownScalars c c') ->
  forall context out context',
    derivePropertyTypes deriveSchemaTypeForTsType name typePath d members context
      = Returned out context' ->
    addsKnownScalars context context'.
Proof.
  intros Hrec. induction members as [|[propName propType] rest IH];
    intros context out context'; simpl.
  - intros [= <- <-]. apply addsKnownScalars_refl.
  - unfold bind.
    destruct (deriveSchemaTypeForTsType _ _ _ _) as [r c1| |] eqn:E1; try discriminate.
    destruct (derivePropertyTypes _ _ _ _ _ _) as [[[ps es] ws] c2| |] eqn:E2;
      try discriminate.
    intros H. assert (context' = c2) as -> by (destruct r; by injection H).
    eapply addsKnownScalars_trans; [eapply Hrec; exact E1|eapply IH; exact E2].
Qed.

Lemma deriveSchemaTypeForTsType_scalars tsType typePath d context r context' :
  deriveSchemaTypeForTsType tsType typePath d context = Returned r context' ->
  addsKnownScalars context context'.
Proof.
  revert tsType typePath context r context'.
  induction d as [d Hd|d Hd IH] using depth_induction;
    intros tsType typePath context r context'.
  - rewrite deriveSchemaTypeForTsType_exceeded by assumption. discriminate.
  - rewrite deriveSchemaTypeForTsType_by_form by assumption.
    destruct (classify _ _) eqn:Hform; simpl; unfold bind, ret, modifyContext;
      try (intros [= <- <-]; apply addsKnownScalars_refl).
    + destruct (deriveSchemaTypeForTsType _ _ _ _) eqn:E; try discriminate.
      intros [= <- <-]. eapply IH. exact E.
    + intros [= <- <-] name. simpl.
      destruct (decide (scalarName = name)) as [<-|Hne].
      * intros _. right. eapply scalarTypeName_known, classify_scalar. exact Hform.
      * rewrite lookup_insert_ne by assumption. by left.
    + destruct (deriveSchemaTypeForTsType _ _ _ _) eqn:E; try discriminate.
      intros [= <- <-]. eapply IH. exact E.
    + rewrite deriveSchemaTypeIfObjectType_spec.
      destruct (getObjectTypeInfo _ _ _ _) as [[info|]|]; try discriminate.
      2:{ intros [= <- <-]. apply addsKnownScalars_refl. }
      cbv zeta. destruct (_ !! _).
      { intros [= <- <-]. apply addsKnownScalars_refl. }
      destruct (derivePropertyTypes _ _ _ _ _ _) as [[[ps es] ws] c1| |] eqn:Ep;
        try discriminate.
      apply derivePropertyTypes_scalars in Ep; [|exact IH].
      destruct es; intros [= <- <-]; exact Ep.
Qed.

(** X2.  The only scalar types ever registered are [Boolean], [String] and
    [Float]: a type derivation that returns adds no other key to the scalar
    registry, and [scalarTypes] of the schema of a pass that completes has no
    other key. *)
Theorem only_known_scalars_registered :
  (forall tsType typePath d context r context' name,
      deriveSchemaTypeForTsType tsType typePath d context = Returned r context' ->
      is_Some (scalarTypeDefinitions context' !! name) ->
      is_Some (scalarTypeDefinitions context !! name)
      \/ name = "Boolean" \/ name = "String" \/ name = "Float")
  /\ (forall sourceFile checker schema final,
         deriveSchemaFromFunctions sourceFile checker = Returned schema final ->
         scalarNamesKnown (scalarTypes schema)).
Proof.
  split.
  - intros tsType typePath d context r context' name Hderive.
    eapply deriveSchemaTypeForTsType_scalars. exact Hderive.
  - intros sourceFile checker schema final.
    rewrite deriveSchemaFromFunctions_spec.
    destruct (deriveAllFunctionSchemas _ _) as [results c'| |] eqn:Hall; try discriminate.
    intros [= <- <-]. simpl.
    by destruct (deriveAllFunctionSchemas_wellFormed _ _ _ _
                   (initialContext_wellFormed sourceFile checker) Hall)
      as [(_ & Hscalars & _) _].
Qed.

Lemma only_known_scalars_registered_witness :
  match deriveSchemaFromFunctions Fixtures.brokenSource Fixtures.brokenChecker with
  | Returned schema _ => scalarNamesKnown (scalarTypes schema)
  | _ => False
  end.
Proof.
  destruct (deriveSchemaFromFunctions _ _) as [schema final| |] eqn:Hpass;
    [|vm_compute in Hpass; discriminate..].
  exact (proj2 only_known_scalars_registered _ _ _ _ Hpass).
Defined.





(** X5.  Only exported function declarations contribute.  In a pass that
    completes, every key of [functions] and every key of [functionIssues] is
    the name of a function declaration that is a child of the source file and
    carries the export modifier; the entry under the key comes from deriving
    such a declaration, and an issue list in the report is never empty. *)
Theorem only_exported_functions_contribute sourceFile checker schema final name :
  deriveSchemaFromFunctions sourceFile checker = Returned schema final ->
  is_Some (functions schema !! name) \/ is_Some (functionIssues schema !! name) ->
  (exists functionDeclaration,
      In (FunctionDeclarationNode functionDeclaration) (children sourceFile)
      /\ isExportedFunction functionDeclaration = true
      /\ declarationName functionDeclaration = Some name)
  /\ functionIssues schema !! name <> Some [].
Proof.
  rewrite deriveSchemaFromFunctions_spec.
  destruct (deriveAllFunctionSchemas _ _) as [results c'| |] eqn:Hall; try discriminate.
  intros [= <- <-]. simpl. intros Hkey.
  destruct (deriveAllFunctionSchemas_results _ _ _ _ Hall) as [Hnames _].
  destruct (recordAll_sources results (∅, ∅) name) as [Hf Hi].
  assert (forall result, In result results -> resultName result = name ->
            exists functionDeclaration,
              In (FunctionDeclarationNode functionDeclaration) (children sourceFile)
              /\ isExportedFunction functionDeclaration = true
              /\ declarationName functionDeclaration = Some name) as Hsource.
  { intros result Hin <-.
    apply (in_map (fun r => Some (resultName r))) in Hin. rewrite <- Hnames in Hin.
    apply in_map_iff in Hin as (fd & Hname & Hin).
    apply exportedFunctionDeclarations_In in Hin as [Hchild Hexp]. by exists fd. }
  split.
  - destruct Hkey as [[f Hl]|[reported Hl]].
    + destruct (Hf f Hl) as [(result & Hin & Hn & _)|Hempty]; [by eapply Hsource|].
      simpl in Hempty. by rewrite lookup_empty in Hempty.
    + destruct (Hi reported Hl) as [(result & Hin & Hn & _)|Hempty]; [by eapply Hsource|].
      simpl in Hempty. by rewrite lookup_empty in Hempty.
  - intros Hl. destruct (Hi [] Hl) as [(result & _ & _ & _ & Hne)|Hempty]; [done|].
    simpl in Hempty. by rewrite lookup_empty in Hempty.
Qed.

Lemma only_exported_functions_contribute_witness :
  match deriveSchemaFromFunctions Fixtures.brokenSource Fixtures.brokenChecker with
  | Returned schema _ =>
      (exists functionDeclaration,
          In (FunctionDeclarationNode functionDeclaration)
            (children Fixtures.brokenSource)
          /\ isExportedFunction functionDeclaration = true
          /\ declarationName functionDeclaration = Some "g")
      /\ functionIssues schema !! "g" <> Some []
  | _ => False
  end.
Proof.
  destruct (deriveSchemaFromFunctions _ _) as [schema final| |] eqn:Hpass;
    [|vm_compute in Hpass; discriminate..].
  apply (only_exported_functions_contribute _ _ _ _ "g" Hpass).
  left. vm_compute in Hpass. injection Hpass as <- _. vm_compute. by eexists.
Defined.

(** ** Where errors are reported *)

Lemma typePathToString_cons segment typePath :
  typePathToString (segment :: typePath) =
  typePathSegmentToString segment
  +:+ match typePath with
      | [] => ""
      | _ :: _ => ", " +:+ typePathToString typePath
      end.
Proof.
  unfold typePathToString. destruct typePath as [|s rest]; simpl.
  - induction (typePathSegmentToString segment) as [|c t IH]; [reflexivity|].
    change (String c t = String c (t +:+ "")). by rewrite <- IH.
  - reflexivity.
Qed.

Lemma errorsWithin_extend typePath segment errors :
  errorsWithin (typePath ++ [segment]) errors -> errorsWithin typePath errors.
Proof.
  intros H e Hin. destruct (H e Hin) as [->|[suffix Hr]]; [by left|].
  right. exists (segment :: suffix). by rewrite <- app_assoc in Hr.
Qed.

Lemma errorsWithin_app typePath errors1 errors2 :
  errorsWithin typePath errors1 -> errorsWithin typePath errors2 ->
  errorsWithin typePath (errors1 ++ errors2).
Proof. intros H1 H2 e Hin. apply in_app_or in Hin as [Hin|Hin]; auto. Qed.

Lemma errorsWithin_here typePath e :
  reportsPath typePath e -> errorsWithin typePath [e].
Proof.
  intros Hr e' [<-|[]]. right. exists []. by rewrite app_nil_r.
Qed.

Lemma derivePropertyTypes_errorsWithin name typePath d members :
  (forall t p c errors c',
      deriveSchemaTypeForTsType t p (S d) c = Returned (TypeErrors errors) c' ->
      errorsWithin p errors) ->
  forall context props errors warnings context',
    derivePropertyTypes deriveSchemaTypeForTsType name typePath d members context
      = Returned (props, errors, warnings) context' ->
    errorsWithin typePath errors.
Proof.
  intros Hrec. induction members as [|[propName propType] rest IH];
    intros context props errors warnings context'; simpl.
  - intros [= <- <- <- <-] e [].
  - unfold bind.
    destruct (deriveSchemaTypeForTsType _ _ _ _) as [r c1| |] eqn:E1; try discriminate.
    destruct (derivePropertyTypes _ _ _ _ _ _) as [[[ps es] ws] c2| |] eqn:E2;
      try discriminate.
    pose proof (IH _ _ _ _ _ E2) as Hrest.
    destruct r as [definition propWarnings|propErrors]; intros [= <- <- <- <-];
      [exact Hrest|].
    apply errorsWithin_app; [|exact Hrest].
    eapply errorsWithin_extend, Hrec. exact E1.
Qed.

Lemma deriveSchemaTypeForTsType_errorsWithin tsType typePath d context errors context' :
  deriveSchemaTypeForTsType tsType typePath d context = Returned (TypeErrors errors) context' ->
  errorsWithin typePath errors.
Proof.
  revert tsType typePath context errors context'.
  induction d as [d Hd|d Hd IH] using depth_induction;
    intros tsType typePath context errors context'.
  - rewrite deriveSchemaTypeForTsType_exceeded by assumption. discriminate.
  - rewrite deriveSchemaTypeForTsType_by_form by assumption.
    destruct (classify _ _); simpl; unfold bind, ret, modifyContext; try discriminate.
    + intros [= <- <-]. apply errorsWithin_here. by left.
    + intros [= <- <-]. apply errorsWithin_here. right. by left.
    + intros [= <- <-]. apply errorsWithin_here. right. by right.
    + destruct (deriveSchemaTypeForTsType _ _ _ _) as [[]| |] eqn:E; try discriminate.
      intros [= <- <-]. eapply errorsWithin_extend, IH. exact E.
    + destruct (deriveSchemaTypeForTsType _ _ _ _) as [[]| |] eqn:E; try discriminate.
      intros [= <- <-]. eapply IH. exact E.
    + rewrite deriveSchemaTypeIfObjectType_spec.
      destruct (getObjectTypeInfo _ _ _ _) as [[info|]|]; try discriminate.
      2:{ intros [= <- <-] e [<-|[]]. by left. }
      cbv zeta. destruct (_ !! _); [discriminate|].
      destruct (derivePropertyTypes _ _ _ _ _ _) as [[[ps es] ws] c1| |] eqn:Ep;
        try discriminate.
      apply derivePropertyTypes_errorsWithin in Ep; [|exact IH].
      destruct es; [discriminate|]. by intros [= <- <-].
    + intros [= <- <-] e [<-|[]]. by left.
Qed.

Lemma deriveParameterTypes_errorsWithin functionName parameters :
  forall context results context',
    deriveParameterTypes functionName parameters context = Returned results context' ->
    forall pr errors,
      In pr results -> snd pr = TypeErrors errors ->
      errorsWithin [FunctionParameter functionName (parameterSymbolName (fst pr))] errors.
Proof.
  induction parameters as [|p rest IH]; intros context results context'.
  - intros [= <- <-] ? ? [].
  - simpl. unfold bind.
    destruct (liftCompletion _ _) as [paramType c0| |] eqn:E0; try discriminate.
    destruct (deriveSchemaTypeForTsType _ _ _ _) as [r c1| |] eqn:E1; try discriminate.
    destruct (deriveParameterTypes _ _ _) as [others c2| |] eqn:E2; try discriminate.
    intros [= <- <-] pr errors [<-|Hin] Hsnd; [|by eapply IH].
    simpl in *. subst r. eapply deriveSchemaTypeForTsType_errorsWithin. exact E1.
Qed.

(** X6.  Issues say where.  Every issue of a function is either the bare
    text [fallback] or one of the three unsupported-form messages, and such a
    message reports a type path that starts at a parameter of that very
    function or at its return value, so its text names the function; the
    [fallback] issue carries no location at all. *)
Theorem issues_name_their_function functionDeclaration context result context' e :
  deriveFunctionSchema functionDeclaration context = Returned result context' ->
  In e (issues result) ->
  e = "fallback"
  \/ exists root suffix rest,
       reportsPath (root :: suffix) e
       /\ typePathToString (root :: suffix) = typePathSegmentToString root +:+ rest
       /\ (root = FunctionReturn (resultName result)
           \/ exists functionSymbol functionCallSig paramSymbol,
                declarationSymbol functionDeclaration = Some functionSymbol
                /\ head (callSignatures functionSymbol) = Some functionCallSig
                /\ In paramSymbol (signatureParameters functionCallSig)
                /\ root = FunctionParameter (resultName result)
                            (parameterSymbolName paramSymbol)).
Proof.
  intros Hderive Hin.
  destruct (deriveFunctionSchema_returns _ _ _ _ Hderive)
    as (functionName & functionSymbol & functionCallSig & results & context1
        & returnResult & Hname & Hsymbol & Hsig & Hparams & Hreturn & ->).
  simpl in *.
  assert (forall root errors,
             errorsWithin [root] errors -> In e errors ->
             e = "fallback"
             \/ exists suffix rest,
                  reportsPath (root :: suffix) e
                  /\ typePathToString (root :: suffix)
                     = typePathSegmentToString root +:+ rest) as Hlocate.
  { intros root errors Hwithin He. destruct (Hwithin e He) as [->|[suffix Hr]];
      [by left|]. right. exists suffix. eexists. split; [exact Hr|].
    apply typePathToString_cons. }
  apply in_app_or in Hin as [Hin|Hin].
  - apply in_flat_map in Hin as ([p r] & Hpr & He). simpl in He.
    destruct r as [definition warnings|errors].
    + rewrite (deriveParameterTypes_no_warnings _ _ _ _ _ Hparams _ _ _ Hpr eq_refl) in He.
      destruct He.
    + pose proof (deriveParameterTypes_errorsWithin _ _ _ _ _ Hparams _ _ Hpr eq_refl)
        as Hwithin. simpl in Hwithin.
      destruct (Hlocate _ _ Hwithin He) as [->|(suffix & rest & Hr & Ht)]; [by left|].
      right. exists (FunctionParameter functionName (parameterSymbolName p)), suffix, rest.
      split; [exact Hr|]. split; [exact Ht|]. right.
      exists functionSymbol, functionCallSig, p.
      split; [exact Hsymbol|]. split; [exact Hsig|]. split; [|reflexivity].
      destruct (deriveParameterTypes_results _ _ _ _ _ Hparams) as [<- _].
      apply (in_map fst) in Hpr. exact Hpr.
  - destruct returnResult as [definition warnings|errors]; simpl in Hin.
    + apply deriveSchemaTypeForTsType_no_warnings in Hreturn as ->. destruct Hin.
    + apply deriveSchemaTypeForTsType_errorsWithin in Hreturn.
      destruct (Hlocate _ _ Hreturn Hin) as [->|(suffix & rest & Hr & Ht)]; [by left|].
      right. exists (FunctionReturn functionName), suffix, rest.
      split; [exact Hr|]. split; [exact Ht|]. by left.
Qed.

Lemma issues_name_their_function_witness :
  match deriveFunctionSchema
          (Fixtures.exportedDeclaration "f" [Fixtures.parameter "x" 3] 0)
          (Fixtures.contextOf Fixtures.brokenChecker) with
  | Returned result _ =>
      exists root suffix,
        reportsPath (root :: suffix)
          ("Promise types are not supported, but one was encountered in "
           +:+ "function 'f' parameter 'x', type 'Broken' property 'b'.")
  | _ => False
  end.
Proof.
  destruct (deriveFunctionSchema _ _) as [result final| |] eqn:Hderive;
    [|vm_compute in Hderive; discriminate..].
  destruct (issues_name_their_function _ _ _ _
              ("Promise types are not supported, but one was encountered in "
               +:+ "function 'f' parameter 'x', type 'Broken' property 'b'.") Hderive)
    as [Hfallback|(root & suffix & rest & Hr & _)].
  - vm_compute in Hderive. injection Hderive as <- _. left. reflexivity.
  - discriminate.
  - by exists root, suffix.
Defined.

(** ** Sanitized names *)

Lemma replaceNonAlphanumerics_characters s :
  Forall (fun c => isNameCharacter c = true)
    (list_ascii_of_string (Js.replaceNonAlphanumerics s)).
Proof.
  induction s as [|c s IH]; simpl; [constructor|]. constructor; [|exact IH].
  unfold isNameCharacter.
  destruct (Js.isDigit c || Js.isLetter c) eqn:Hc; [by rewrite Hc|reflexivity].
Qed.

Lemma replaceNonAlphanumerics_length s :
  String.length (Js.replaceNonAlphanumerics s) = String.length s.
Proof. induction s as [|c s IH]; simpl; [reflexivity|by rewrite IH]. Qed.

Lemma replaceNonAlphanumerics_fixes s :
  Forall (fun c => isAlphanumeric c = true) (list_ascii_of_string s) ->
  Js.replaceNonAlphanumerics s = s.
Proof.
  induction s as [|c s IH]; simpl; [reflexivity|]. intros H.
  apply Forall_cons in H as [Hc Hs]. unfold isAlphanumeric in Hc.
  rewrite Hc, IH by assumption. reflexivity.
Qed.

(** X7.  Sanitized names.  [gqlName] only produces letters, digits and
    underscores, and drops at most the first character; it leaves a name of
    letters and digits that starts with a letter as it is.  It strips one
    leading character only: when the first two characters are not letters the
    result still starts with something else than a letter. *)
Theorem gqlName_sanitizes :
  (forall n,
      Forall (fun c => isNameCharacter c = true) (list_ascii_of_string (gqlName n))
      /\ String.length n - 1 <= String.length (gqlName n) <= String.length n)
  /\ (forall n,
         startsWith Js.isLetter n = true ->
         Forall (fun c => isAlphanumeric c = true) (list_ascii_of_string n) ->
         gqlName n = n)
  /\ (forall c1 c2 rest,
         Js.isLetter c1 = false -> Js.isLetter c2 = false ->
         startsWith Js.isLetter (gqlName (String c1 (String c2 rest))) = false).
Proof.
  refine (conj _ (conj _ _)).
  - intros n. unfold gqlName. split; [apply replaceNonAlphanumerics_characters|].
    rewrite replaceNonAlphanumerics_length.
    destruct n as [|c n]; simpl; [lia|]. destruct (Js.isLetter c); simpl; lia.
  - intros n Hstart Hall. unfold gqlName.
    destruct n as [|c n]; [discriminate|]. simpl in Hstart.
    cbn [Js.removeLeadingNonLetter]. rewrite Hstart.
    by apply replaceNonAlphanumerics_fixes.
  - intros c1 c2 rest H1 H2. unfold gqlName. cbn [Js.removeLeadingNonLetter].
    rewrite H1. simpl. rewrite H2, orb_false_r.
    destruct (Js.isDigit c2); [exact H2|reflexivity].
Qed.

Lemma gqlName_sanitizes_witness :
  gqlName "lib42" = "lib42"
  /\ startsWith Js.isLetter (gqlName "42lib") = false.
Proof.
  split.
  - apply (proj1 (proj2 gqlName_sanitizes) "lib42"); [reflexivity|].
    repeat constructor.
  - apply (proj2 (proj2 gqlName_sanitizes) "4"%char "2"%char "lib"); reflexivity.
Defined.

(** ** When the qualifier gives a name *)

(** X8.  The qualifier gives a name exactly when the symbol it looks at has a
    first declaration and the file of that declaration is the entry file or
    passes the length test of the relative path.  A type without a symbol
    (that is not a union or intersection) makes it throw the missing-symbol
    error with the rendered type path, and a symbol without declarations the
    missing-declarations error with the name, or [null] for a type without
    one. *)
Theorem qualifier_outcomes :
  (forall checker tsType typePath name file,
      (exists qualified,
          qualifyTypeName checker tsType typePath name file = Normal qualified)
      <-> exists where_,
            firstDeclarationFile checker tsType = Some where_
            /\ (where_ = file
                \/ String.length
                     (Js.removeTsSuffix (Js.replace (Js.dirname file +:+ "/") "" where_))
                   < String.length where_))
  /\ (forall checker tsType typePath name file,
         symbol (checker tsType) = None ->
         tsutils.isUnionOrIntersectionType (checker tsType) = false ->
         qualifyTypeName checker tsType typePath name file
         = Throw ("Couldn't find symbol for type at " +:+ typePathToString typePath))
  /\ (forall checker tsType typePath name file sym,
         resolveSymbol checker tsType = Some sym ->
         default [] (declarations sym) = [] ->
         qualifyTypeName checker tsType typePath name file
         = Throw ("Couldn't find any declarations for type " +:+ default "null" name)).
Proof.
  refine (conj _ (conj _ _)).
  - intros checker tsType typePath name file. split.
    + intros [qualified Hq].
      destruct (firstDeclarationFile checker tsType) as [where_|] eqn:Hfirst.
      * exists where_. split; [reflexivity|].
        rewrite (qualifyTypeName_located _ _ _ _ _ _ Hfirst) in Hq. cbv zeta in Hq.
        destruct (String.eqb file where_) eqn:Heq.
        { left. symmetry. by apply String.eqb_eq. }
        destruct (_ <? _)%nat eqn:Hlt; [|discriminate].
        right. by apply Nat.ltb_lt.
      * exfalso. revert Hq Hfirst.
        unfold firstDeclarationFile, resolveSymbol, qualifyTypeName. cbv zeta.
        destruct (symbol (checker tsType)) as [s|]; simpl.
        -- destruct (declarations s) as [[|w ws]|]; simpl; discriminate.
        -- destruct (tsutils.isUnionOrIntersectionType _); [|discriminate].
           destruct (types _) as [|first rest]; [discriminate|].
           destruct (symbol (checker first)) as [s|]; simpl; [|discriminate].
           destruct (declarations s) as [[|w ws]|]; simpl; discriminate.
    + intros (where_ & Hfirst & Hcase).
      rewrite (qualifyTypeName_located _ _ _ _ _ _ Hfirst). cbv zeta.
      destruct (String.eqb file where_) eqn:Heq; [by eexists|].
      destruct Hcase as [->|Hlt].
      * by rewrite String.eqb_refl in Heq.
      * apply Nat.ltb_lt in Hlt. rewrite Hlt. by eexists.
  - intros checker tsType typePath name file Hsym Hui.
    unfold qualifyTypeName. cbv zeta. by rewrite Hsym, Hui.
  - intros checker tsType typePath name file sym.
    unfold resolveSymbol, qualifyTypeName, renderNullable. cbv zeta.
    destruct (symbol (checker tsType)) as [s|].
    + intros [= ->] ->. reflexivity.
    + destruct (tsutils.isUnionOrIntersectionType _); [|discriminate].
      destruct (types _) as [|first rest]; [discriminate|].
      intros -> ->. reflexivity.
Qed.

Lemma qualifier_outcomes_witness :
  (exists qualified,
      qualifyTypeName Fixtures.locationChecker 6 [FunctionReturn "f"] (Some "Point")
        Fixtures.entryFile = Normal qualified)
  /\ qualifyTypeName Fixtures.locationChecker 0 [FunctionReturn "f"] None
       Fixtures.entryFile
     = Throw "Couldn't find symbol for type at function 'f' return value".
Proof.
  split.
  - apply (proj1 qualifier_outcomes). exists "/functions/lib/geo.ts".
    split; [reflexivity|]. right. vm_compute. lia.
  - apply (proj1 (proj2 qualifier_outcomes)); reflexivity.
Defined.

(** ** Parameters without a value declaration *)

Lemma deriveAllFunctionSchemas_always_thrown functionDeclarations context bad :
  In bad functionDeclarations ->
  (forall c, exists message, deriveFunctionSchema bad c = Thrown message) ->
  exists message, deriveAllFunctionSchemas functionDeclarations context = Thrown message.
Proof.
  intros Hin Hbad. revert context.
  induction functionDeclarations as [|fd rest IH]; intros context; [destruct Hin|].
  simpl. unfold bind.
  destruct (deriveFunctionSchema fd context) as [result c1| |] eqn:E1.
  - destruct Hin as [->|Hin].
    + destruct (Hbad context) as [m Hm]. congruence.
    + destruct (IH Hin c1) as [m ->]. by exists m.
  - by eexists.
  - by apply deriveFunctionSchema_total in E1.
Qed.

Lemma deriveParameterTypes_undeclared functionName parameters paramSymbol :
  In paramSymbol parameters ->
  valueDeclarationType paramSymbol = None ->
  forall context,
    exists message, deriveParameterTypes functionName parameters context = Thrown message.
Proof.
  intros Hin Hnone. induction parameters as [|p rest IH]; [destruct Hin|].
  intros context. simpl. unfold bind.
  destruct (valueDeclarationType p) as [paramType|] eqn:Hdecl; simpl; [|by eexists].
  destruct Hin as [->|Hin]; [congruence|].
  destruct (deriveSchemaTypeForTsType _ _ _ _) as [r c1| |] eqn:E1.
  - destruct (IH Hin c1) as [m ->]. by exists m.
  - by eexists.
  - by apply deriveSchemaTypeForTsType_total in E1.
Qed.

(** X9.  A parameter symbol without a value declaration, in the first call
    signature of any exported function, makes the whole pass throw: there is
    no schema and no issue report. *)
Theorem undeclared_parameter_aborts_pass sourceFile checker functionDeclaration :
  In functionDeclaration (exportedFunctionDeclarations sourceFile) ->
  hasUndeclaredParameter functionDeclaration ->
  (exists message, deriveSchemaFromFunctions sourceFile checker = Thrown message)
  /\ passResult (deriveSchemaFromFunctions sourceFile checker) = None.
Proof.
  intros Hin (functionSymbol & functionCallSig & paramSymbol & Hsym & Hsig & Hp & Hnone).
  rewrite deriveSchemaFromFunctions_spec.
  destruct (deriveAllFunctionSchemas_always_thrown _
              (initialContext sourceFile checker) functionDeclaration Hin)
    as [message ->]; [|split; [by exists message|reflexivity]].
  intros c. rewrite deriveFunctionSchema_spec.
  destruct (declarationName _) as [functionName|]; [|by eexists].
  rewrite Hsym, Hsig. unfold bind.
  destruct (deriveParameterTypes_undeclared functionName _ _ Hp Hnone c) as [m ->].
  by exists m.
Qed.

Lemma undeclared_parameter_aborts_pass_witness :
  (exists message,
      deriveSchemaFromFunctions MoreFixtures.undeclaredSource Fixtures.brokenChecker
      = Thrown message)
  /\ passResult (deriveSchemaFromFunctions MoreFixtures.undeclaredSource
                   Fixtures.brokenChecker) = None.
Proof.
  apply (undeclared_parameter_aborts_pass MoreFixtures.undeclaredSource
           Fixtures.brokenChecker MoreFixtures.undeclaredDeclaration).
  - simpl. right. left. reflexivity.
  - eexists _, _, MoreFixtures.undeclaredParameter.
    split; [reflexivity|]. split; [reflexivity|]. split; [|reflexivity].
    right. left. reflexivity.
Defined.

(** ** Descriptions *)

Lemma trimStart_start s : startsWith Js.isWhitespace (Js.trimStart s) = false.
Proof.
  induction s as [|c s IH]; [reflexivity|]. simpl.
  destruct (Js.isWhitespace c) eqn:Hc; [exact IH|exact Hc].
Qed.

Lemma trimEnd_start s :
  startsWith Js.isWhitespace s = false ->
  startsWith Js.isWhitespace (Js.trimEnd s) = false.
Proof.
  destruct s as [|c s]; [reflexivity|]. simpl. intros Hc.
  destruct (Js.trimEnd s); [by rewrite Hc|exact Hc].
Qed.

Lemma trimEnd_end s : endsWith Js.isWhitespace (Js.trimEnd s) = false.
Proof.
  induction s as [|c s IH]; [reflexivity|]. simpl.
  destruct (Js.trimEnd s) as [|c' t] eqn:Ht.
  - destruct (Js.isWhitespace c) eqn:Hc; [reflexivity|exact Hc].
  - exact IH.
Qed.

Lemma trimEnd_blank s :
  Forall (fun c => Js.isWhitespace c = true) (list_ascii_of_string s) ->
  Js.trimEnd s = "".
Proof.
  induction s as [|c s IH]; [reflexivity|]. simpl. intros H.
  apply Forall_cons in H as [Hc Hs]. by rewrite (IH Hs), Hc.
Qed.

Lemma trimStart_blank s :
  Forall (fun c => Js.isWhitespace c = true) (list_ascii_of_string s) ->
  Js.trimStart s = "".
Proof.
  induction s as [|c s IH]; [reflexivity|]. simpl. intros H.
  apply Forall_cons in H as [Hc Hs]. by rewrite Hc, (IH Hs).
Qed.

Lemma nonEmptyOrNull_trim_tidy text : isTidyDescription (nonEmptyOrNull (Js.trim text)).
Proof.
  unfold nonEmptyOrNull. destruct (Js.trim text) as [|c t] eqn:Htrim; [exact I|].
  unfold isTidyDescription. rewrite <- Htrim. refine (conj _ (conj _ _)).
  - by rewrite Htrim.
  - apply trimEnd_start, trimStart_start.
  - apply trimEnd_end.
Qed.

Lemma deriveAllFunctionSchemas_each functionDeclarations :
  forall context results context',
    deriveAllFunctionSchemas functionDeclarations context = Returned results context' ->
    forall result,
      In result results ->
      exists functionDeclaration c c',
        In functionDeclaration functionDeclarations
        /\ deriveFunctionSchema functionDeclaration c = Returned result c'.
Proof.
  induction functionDeclarations as [|fd rest IH]; intros context results context'.
  - intros [= <- <-] result [].
  - simpl. unfold bind.
    destruct (deriveFunctionSchema _ _) as [r c1| |] eqn:E1; try discriminate.
    destruct (deriveAllFunctionSchemas _ _) as [others c2| |] eqn:E2; try discriminate.
    intros [= <- <-] result [<-|Hin].
    + exists fd, context, c1. split; [by left|exact E1].
    + destruct (IH _ _ _ E2 result Hin) as (fd' & c & c' & Hin' & Hd).
      exists fd', c, c'. split; [by right|exact Hd].
Qed.

(** X10.  Descriptions.  In a pass that completes, the description of every
    recorded function and of each of its arguments is either absent or a text
    that is not empty and has no white space at its start or end; a
    documentation comment of white space only gives an absent description. *)
Theorem descriptions_are_trimmed :
  (forall sourceFile checker schema final name f,
      deriveSchemaFromFunctions sourceFile checker = Returned schema final ->
      functions schema !! name = Some f ->
      isTidyDescription (description f)
      /\ Forall (fun a => isTidyDescription (argumentDescription a)) (arguments f))
  /\ (forall text,
         Forall (fun c => Js.isWhitespace c = true) (list_ascii_of_string text) ->
         nonEmptyOrNull (Js.trim text) = None).
Proof.
  split.
  - intros sourceFile checker schema final name f.
    rewrite deriveSchemaFromFunctions_spec.
    destruct (deriveAllFunctionSchemas _ _) as [results c'| |] eqn:Hall; try discriminate.
    intros [= <- <-]. simpl. intros Hl.
    destruct (recordAll_sources results (∅, ∅) name) as [Hf _].
    destruct (Hf f Hl) as [(result & Hin & _ & Hdef)|Hempty];
      [|simpl in Hempty; by rewrite lookup_empty in Hempty].
    destruct (deriveAllFunctionSchemas_each _ _ _ _ Hall result Hin)
      as (fd & c & c1 & _ & Hderive).
    apply deriveFunctionSchema_returns in Hderive
      as (fn & fs & sig & prs & c2 & rr & _ & _ & _ & _ & _ & ->).
    simpl in Hdef. destruct rr as [returnDefinition warnings|]; [|discriminate].
    destruct (existsb _ _); [discriminate|]. injection Hdef as <-. simpl. split.
    + apply nonEmptyOrNull_trim_tidy.
    + unfold keptArguments. apply Forall_forall. intros a Ha.
      apply list_elem_of_In, in_flat_map in Ha as ([p r] & _ & Ha). simpl in Ha.
      destruct r as [definition ws|]; [|destruct Ha].
      destruct Ha as [<-|[]]. simpl. apply nonEmptyOrNull_trim_tidy.
  - intros text Hblank. unfold Js.trim.
    by rewrite (trimStart_blank _ Hblank).
Qed.

Lemma descriptions_are_trimmed_witness :
  match deriveSchemaFromFunctions MoreFixtures.documentedSource Fixtures.brokenChecker with
  | Returned schema _ =>
      exists f,
        functions schema !! "inc" = Some f
        /\ description f = Some "Adds one."
        /\ map argumentDescription (arguments f) = [Some "the number"; None]
        /\ isTidyDescription (description f)
  | _ => False
  end.
Proof.
  destruct (deriveSchemaFromFunctions _ _) as [schema final| |] eqn:Hpass;
    [|vm_compute in Hpass; discriminate..].
  assert (exists f, functions schema !! "inc" = Some f
                    /\ description f = Some "Adds one."
                    /\ map argumentDescription (arguments f) = [Some "the number"; None])
    as (f & Hl & Hd & Ha).
  { vm_compute in Hpass. injection Hpass as <- _. eexists. vm_compute. by repeat split. }
  exists f. refine (conj Hl (conj Hd (conj Ha _))).
  exact (proj1 (proj1 descriptions_are_trimmed _ _ _ _ "inc" f Hpass Hl)).
Defined.

(** ** Generated names *)

Lemma concat_snoc sep items item :
  items <> [] ->
  String.concat sep (items ++ [item]) = String.concat sep items +:+ sep +:+ item.
Proof.
  induction items as [|a [|b rest] IH]; intros Hne; [done|reflexivity|].
  change (String.concat sep ((a :: b :: rest) ++ [item]))
    with (a +:+ sep +:+ String.concat sep ((b :: rest) ++ [item])).
  rewrite IH by discriminate.
  change (String.concat sep (a :: b :: rest))
    with (a +:+ sep +:+ String.concat sep (b :: rest)).
  by rewrite !string_append_assoc.
Qed.

(** X11.  Generated names.  The name generated for a path that is extended
    by one segment is the name of the path, an underscore and the part of the
    segment, and the rendering of the path in messages grows in the same way
    with a comma; the name of a property segment does not depend on the type
    the property belongs to.  Names do not determine their path: the elements
    of the array parameter [x] of a function and its parameter [x_array] get
    the same generated name. *)
Theorem generated_names_compose :
  (forall typePath segment,
      typePath <> [] ->
      generateTypeNameFromTypePath (typePath ++ [segment])
      = generateTypeNameFromTypePath typePath +:+ "_"
        +:+ generateTypeNameFromTypePath [segment]
      /\ typePathToString (typePath ++ [segment])
         = typePathToString typePath +:+ ", " +:+ typePathSegmentToString segment)
  /\ (forall typePath typeName typeName' propertyName,
         generateTypeNameFromTypePath (typePath ++ [ObjectProperty typeName propertyName])
         = generateTypeNameFromTypePath (typePath ++ [ObjectProperty typeName' propertyName]))
  /\ (forall functionName parameterName,
         generateTypeNameFromTypePath [FunctionParameter functionName parameterName; Array]
         = generateTypeNameFromTypePath
             [FunctionParameter functionName (parameterName +:+ "_array")]).
Proof.
  refine (conj _ (conj _ _)).
  - intros typePath segment Hne. unfold generateTypeNameFromTypePath, typePathToString.
    rewrite !map_app. simpl map. split; apply concat_snoc; by destruct typePath.
  - intros typePath typeName typeName' propertyName.
    unfold generateTypeNameFromTypePath. by rewrite !map_app.
  - intros functionName parameterName. unfold generateTypeNameFromTypePath. simpl.
    by rewrite !string_append_assoc.
Qed.

Lemma generated_names_compose_witness :
  generateTypeNameFromTypePath ([FunctionReturn "f"; Array] ++ [ObjectProperty "T" "a"])
  = generateTypeNameFromTypePath [FunctionReturn "f"; Array] +:+ "_"
    +:+ generateTypeNameFromTypePath [ObjectProperty "T" "a"]
  /\ typePathToString ([FunctionReturn "f"; Array] ++ [ObjectProperty "T" "a"])
     = typePathToString [FunctionReturn "f"; Array] +:+ ", "
       +:+ typePathSegmentToString (ObjectProperty "T" "a").
Proof. apply (proj1 generated_names_compose); discriminate. Defined.

(** ** The entry point *)

Lemma deriveSchemaFromFunctions_total sourceFile checker :
  deriveSchemaFromFunctions sourceFile checker <> OutOfFuel.
Proof.
  rewrite deriveSchemaFromFunctions_spec.
  destruct (deriveAllFunctionSchemas _ _) eqn:Hall; try discriminate.
  by apply deriveAllFunctionSchemas_total in Hall.
Qed.

Lemma createTsProgram_spec ts functionsFilePath :
  createTsProgram ts functionsFilePath =
  match findConfigFile ts (Js.dirname functionsFilePath) with
  | Some configPath =>
      match error (readConfigFile ts configPath) with
      | Some configError =>
          Failure (TsError [configError]
                     "Error loading TypeScript compiler configuration (tsconfig.json)")
      | None =>
          Success (programOf ts functionsFilePath (config (readConfigFile ts configPath)))
      end
  | None => Success (programOf ts functionsFilePath defaultTsConfig)
  end.
Proof.
  unfold createTsProgram, loadTsConfig. cbv zeta.
  destruct (findConfigFile _ _); [|reflexivity]. by destruct (error _).
Qed.

(** X12.  The entry point.  [deriveSchema] always finishes.  It gives a
    schema exactly when the program of the functions file has no pre-emit
    diagnostics, contains the functions file and the derivation pass over
    that file returns, and the schema is the one of the pass.  A [TsError]
    carries at least one diagnostic: the error of reading the configuration
    file that was found, or all pre-emit diagnostics of the program, in which
    case no derivation is run whatever the source file holds.  Without a
    configuration file the program is compiled under the default
    configuration. *)
Theorem deriveSchema_outcomes ts functionsFilePath :
  deriveSchema ts functionsFilePath <> Unfinished
  /\ (forall schema,
         deriveSchema ts functionsFilePath = Success schema <->
         exists program sourceFile final,
           createTsProgram ts functionsFilePath = Success program
           /\ getPreEmitDiagnostics ts program = []
           /\ getSourceFile program functionsFilePath = Some sourceFile
           /\ deriveSchemaFromFunctions sourceFile (getTypeChecker program)
              = Returned schema final)
  /\ (forall diagnostics message,
         deriveSchema ts functionsFilePath = Failure (TsError diagnostics message) ->
         diagnostics <> []
         /\ ((message = "Error loading TypeScript compiler configuration (tsconfig.json)"
              /\ exists configPath configError,
                   findConfigFile ts (Js.dirname functionsFilePath) = Some configPath
                   /\ error (readConfigFile ts configPath) = Some configError
                   /\ diagnostics = [configError])
             \/ (message = "Compiler errors"
                 /\ exists program,
                      createTsProgram ts functionsFilePath = Success program
                      /\ diagnostics = getPreEmitDiagnostics ts program)))
  /\ (forall program,
         createTsProgram ts functionsFilePath = Success program ->
         getPreEmitDiagnostics ts program <> [] ->
         deriveSchema ts functionsFilePath
         = Failure (TsError (getPreEmitDiagnostics ts program) "Compiler errors"))
  /\ (findConfigFile ts (Js.dirname functionsFilePath) = None ->
      createTsProgram ts functionsFilePath
      = Success (programOf ts functionsFilePath defaultTsConfig)).
Proof.
  refine (conj _ (conj _ (conj _ (conj _ _)))).
  - unfold deriveSchema, throwIfCompilerErrors. rewrite createTsProgram_spec. cbv zeta.
    repeat case_match; try discriminate;
      match goal with
      | H : deriveSchemaFromFunctions _ _ = OutOfFuel |- _ =>
          by apply deriveSchemaFromFunctions_total in H
      end.
  - intros schema. unfold deriveSchema, throwIfCompilerErrors. cbv zeta.
    destruct (createTsProgram ts functionsFilePath) as [program|e|].
    + destruct (getPreEmitDiagnostics ts program) as [|d ds] eqn:Hdiag; simpl.
      * destruct (getSourceFile program functionsFilePath) as [sourceFile|] eqn:Hfile.
        -- destruct (deriveSchemaFromFunctions _ _) as [s final| |] eqn:Hpass.
           ++ split.
              ** intros [= <-]. by exists program, sourceFile, final.
              ** intros (p & sf & f & [= <-] & _ & Hsf & Hd).
                 rewrite Hfile in Hsf. injection Hsf as <-. congruence.
           ++ split; [discriminate|].
              intros (p & sf & f & [= <-] & _ & Hsf & Hd).
              rewrite Hfile in Hsf. injection Hsf as <-. congruence.
           ++ split; [discriminate|].
              intros (p & sf & f & [= <-] & _ & Hsf & Hd).
              rewrite Hfile in Hsf. injection Hsf as <-. congruence.
        -- split; [discriminate|].
           intros (p & sf & f & [= <-] & _ & Hsf & _). congruence.
      * split; [discriminate|].
        intros (p & sf & f & [= <-] & Hnone & _). congruence.
    + split; [discriminate|]. by intros (p & sf & f & Hp & _).
    + split; [discriminate|]. by intros (p & sf & f & Hp & _).
  - intros diagnostics message. unfold deriveSchema, throwIfCompilerErrors.
    rewrite createTsProgram_spec. cbv zeta.
    destruct (findConfigFile _ _) as [configPath|] eqn:Hfind.
    + destruct (error _) as [configError|] eqn:Herror.
      * intros [= <- <-]. split; [discriminate|]. left. split; [reflexivity|].
        by exists configPath, configError.
      * destruct (getPreEmitDiagnostics _ _) as [|d ds] eqn:Hdiag; simpl.
        -- repeat case_match; discriminate.
        -- intros [= <- <-]. split; [discriminate|]. right. split; [reflexivity|].
           eexists. split; [reflexivity|]. by rewrite Hdiag.
    + destruct (getPreEmitDiagnostics _ _) as [|d ds] eqn:Hdiag; simpl.
      * repeat case_match; discriminate.
      * intros [= <- <-]. split; [discriminate|]. right. split; [reflexivity|].
        eexists. split; [reflexivity|]. by rewrite Hdiag.
  - intros program Hprogram Hdiag. unfold deriveSchema, throwIfCompilerErrors.
    rewrite Hprogram. cbv zeta.
    by destruct (getPreEmitDiagnostics ts program).
  - intros Hfind. by rewrite createTsProgram_spec, Hfind.
Qed.

Lemma deriveSchema_outcomes_witness :
  (exists schema,
      deriveSchema (MoreFixtures.compiler Fixtures.brokenSource Fixtures.brokenChecker [])
        Fixtures.entryFile = Success schema
      /\ passResult (deriveSchemaFromFunctions Fixtures.brokenSource Fixtures.brokenChecker)
         = Some schema)
  /\ deriveSchema
       (MoreFixtures.compiler Fixtures.brokenSource Fixtures.brokenChecker
          [{| code := 2322; messageText := "Type 'string' is not assignable to type 'number'." |}])
       Fixtures.entryFile
     = Failure (TsError
                  [{| code := 2322;
                      messageText := "Type 'string' is not assignable to type 'number'." |}]
                  "Compiler errors").
Proof.
  split.
  - destruct (deriveSchemaFromFunctions Fixtures.brokenSource Fixtures.brokenChecker)
      as [schema final| |] eqn:Hpass; [|vm_compute in Hpass; discriminate..].
    exists schema. split; [|reflexivity].
    apply (proj1 (proj2 (deriveSchema_outcomes _ _))).
    eexists _, Fixtures.brokenSource, final.
    split; [reflexivity|]. split; [reflexivity|]. split; [reflexivity|]. exact Hpass.
  - apply (proj1 (proj2 (proj2 (proj2 (deriveSchema_outcomes
             (MoreFixtures.compiler Fixtures.brokenSource Fixtures.brokenChecker
                [{| code := 2322;
                    messageText := "Type 'string' is not assignable to type 'number'." |}])
             Fixtures.entryFile))))
             (programOf
                (MoreFixtures.compiler Fixtures.brokenSource Fixtures.brokenChecker [])
                Fixtures.entryFile defaultTsConfig)); [reflexivity|discriminate].
Defined.

(** ** Several declarations of one name *)





(** ** Unsupported types at the boundary of a function *)

Lemma deriveSchemaTypeForTsType_unsupported tsType typePath context r context' e :
  deriveSchemaTypeForTsType tsType typePath 0 context = Returned r context' ->
  unsupportedMessage (typeChecker context) tsType typePath = Some e ->
  r = TypeErrors [e].
Proof.
  rewrite deriveSchemaTypeForTsType_by_form by (unfold MAX_TYPE_DERIVATION_RECURSION; lia).
  unfold unsupportedMessage.
  destruct (classify _ _); simpl; unfold ret; try discriminate;
    intros [= <- <-] [= <-]; reflexivity.
Qed.

Lemma deriveParameterTypes_unsupported functionName parameters :
  forall context results context' paramSymbol paramType e,
    deriveParameterTypes functionName parameters context = Returned results context' ->
    In paramSymbol parameters ->
    valueDeclarationType paramSymbol = Some paramType ->
    unsupportedMessage (typeChecker context) paramType
      [FunctionParameter functionName (parameterSymbolName paramSymbol)] = Some e ->
    In (paramSymbol, TypeErrors [e]) results.
Proof.
  induction parameters as [|p rest IH];
    intros context results context' paramSymbol paramType e; [intros _ []|].
  simpl. unfold bind.
  destruct (valueDeclarationType p) as [ty|] eqn:Hdecl; simpl; [|discriminate].
  destruct (deriveSchemaTypeForTsType _ _ _ _) as [r c1| |] eqn:E1; try discriminate.
  destruct (deriveParameterTypes _ _ _) as [others c2| |] eqn:E2; try discriminate.
  intros [= <- <-] [->|Hin] Hty Hmsg.
  - left. rewrite Hdecl in Hty. injection Hty as ->.
    by rewrite (deriveSchemaTypeForTsType_unsupported _ _ _ _ _ _ E1 Hmsg).
  - right. eapply IH; [exact E2|exact Hin|exact Hty|].
    destruct (deriveSchemaTypeForTsType_extends _ _ _ _ _ _ E1) as (_ & _ & -> & _).
    exact Hmsg.
Qed.

(** X14.  Unsupported types at the boundary of a function.  A function whose
    return type is a Promise (so every [async] function), a class or [void],
    or one of whose parameters has such a type, has no definition, and its
    issues hold the message for that type with the return value or the
    parameter as the place. *)
Theorem unsupported_boundary_type_breaks_function functionDeclaration context result
    context' functionName functionSymbol functionCallSig :
  deriveFunctionSchema functionDeclaration context = Returned result context' ->
  declarationName functionDeclaration = Some functionName ->
  declarationSymbol functionDeclaration = Some functionSymbol ->
  head (callSignatures functionSymbol) = Some functionCallSig ->
  (forall e,
      unsupportedMessage (typeChecker context) (signatureReturnType functionCallSig)
        [FunctionReturn functionName] = Some e ->
      definition result = None /\ In e (issues result))
  /\ (forall paramSymbol paramType e,
         In paramSymbol (signatureParameters functionCallSig) ->
         valueDeclarationType paramSymbol = Some paramType ->
         unsupportedMessage (typeChecker context) paramType
           [FunctionParameter functionName (parameterSymbolName paramSymbol)] = Some e ->
         definition result = None /\ In e (issues result)).
Proof.
  intros Hderive Hname Hsym Hsig.
  apply deriveFunctionSchema_returns in Hderive
    as (fn & fs & sig & results & c1 & rr & Hname' & Hsym' & Hsig' & Hparams & Hreturn & ->).
  rewrite Hname in Hname'. injection Hname' as <-.
  rewrite Hsym in Hsym'. injection Hsym' as <-.
  rewrite Hsig in Hsig'. injection Hsig' as <-.
  split.
  - intros e Hmsg.
    destruct (deriveParameterTypes_extends _ _ _ _ _ Hparams) as (_ & _ & Hchecker & _).
    rewrite <- Hchecker in Hmsg.
    rewrite (deriveSchemaTypeForTsType_unsupported _ _ _ _ _ _ Hreturn Hmsg).
    simpl. split; [reflexivity|]. apply in_or_app. right. by left.
  - intros paramSymbol paramType e Hin Hty Hmsg.
    pose proof (deriveParameterTypes_unsupported _ _ _ _ _ _ _ _ Hparams Hin Hty Hmsg)
      as Hres.
    simpl. split.
    + destruct rr as [returnDefinition warnings|]; [|reflexivity].
      assert (existsb (fun pr => isFatal (snd pr)) results = true) as ->; [|reflexivity].
      apply existsb_exists. by exists (paramSymbol, TypeErrors [e]).
    + apply in_or_app. left. apply in_flat_map.
      exists (paramSymbol, TypeErrors [e]). split; [exact Hres|by left].
Qed.

Lemma unsupported_boundary_type_breaks_function_witness :
  match deriveFunctionSchema
          (Fixtures.exportedDeclaration "m"
             [Fixtures.parameter "a" 2; Fixtures.parameter "b" 0; Fixtures.parameter "c" 5] 2)
          (Fixtures.contextOf Fixtures.brokenChecker) with
  | Returned result _ =>
      definition result = None
      /\ In "Promise types are not supported, but one was encountered in function 'm' return value."
           (issues result)
      /\ In "The void type is not supported, but one was encountered in function 'm' parameter 'c'"
           (issues result)
  | _ => False
  end.
Proof.
  destruct (deriveFunctionSchema _ _) as [result context'| |] eqn:Hderive;
    [|vm_compute in Hderive; discriminate..].
  destruct (unsupported_boundary_type_breaks_function _ _ _ _ "m" _ _ Hderive
              eq_refl eq_refl eq_refl) as [Hreturn Hparam].
  destruct (Hreturn _ eq_refl) as [Hnone Hpromise].
  destruct (Hparam (Fixtures.parameter "c" 5) 5 _ (or_intror (or_intror (or_introl eq_refl)))
              eq_refl eq_refl) as [_ Hvoid].
  exact (conj Hnone (conj Hpromise Hvoid)).
Defined.

(** ** Functions over scalars *)

Lemma deriveParameterTypes_scalars functionName parameters definitions :
  forall context,
    Forall2 (hasWrappedScalarType (typeChecker context)) parameters definitions ->
    exists context',
      deriveParameterTypes functionName parameters context
      = Returned (zip_with (fun p d => (p, TypeOk d [])) parameters definitions) context'
      /\ typeChecker context' = typeChecker context
      /\ objectTypeDefinitions context' = objectTypeDefinitions context.
Proof.
  intros context Hall. revert context Hall.
  induction parameters as [|p rest IH] in definitions |- *; intros context Hall.
  - apply Forall2_nil_inv_l in Hall as ->. by exists context.
  - apply Forall2_cons_inv_l in Hall
      as (d & ds & (ty & Hty & ws & target & s & Hw & Hs & Hlen & ->) & Hrest & ->).
    simpl. unfold bind. rewrite Hty. simpl.
    rewrite (wrapsTo_scalar (typeChecker context) ws ty target s _ 0 context
               eq_refl Hw Hs Hlen).
    destruct (IH ds (setScalarType s context) Hrest) as (c' & -> & Hchecker & Hobjects).
    exists c'. by rewrite Hchecker, Hobjects.
Qed.

Lemma keptArguments_zip parameters : forall definitions,
  length parameters = length definitions ->
  keptArguments (zip_with (fun p d => (p, TypeOk d [])) parameters definitions)
  = zip_with argumentOf parameters definitions
  /\ existsb (fun pr => isFatal (snd pr))
       (zip_with (fun p d => (p, TypeOk d [])) parameters definitions) = false
  /\ flat_map (fun pr => resultIssues (snd pr))
       (zip_with (fun p d => (p, TypeOk d [])) parameters definitions) = [].
Proof.
  induction parameters as [|p rest IH]; intros [|d ds] Hlen; try discriminate;
    [done|].
  injection Hlen as Hlen. destruct (IH ds Hlen) as (Hk & He & Hf).
  unfold keptArguments in *. simpl. by rewrite Hk, He, Hf.
Qed.

(** X15.  Functions over scalars.  A function with an identifier, a symbol and
    a call signature, whose parameter types and return type are scalars under
    array and nullable wrappers within the recursion ceiling, is always derived
    as usable: the result has no issues and a definition with one argument per
    parameter, in order, with the wrapped scalar definitions as types; no
    object type is registered. *)
Theorem functions_over_scalars_are_defined functionDeclaration context functionName
    functionSymbol functionCallSig definitions returnDefinition :
  declarationName functionDeclaration = Some functionName ->
  declarationSymbol functionDeclaration = Some functionSymbol ->
  head (callSignatures functionSymbol) = Some functionCallSig ->
  Forall2 (hasWrappedScalarType (typeChecker context))
    (signatureParameters functionCallSig) definitions ->
  isWrappedScalar (typeChecker context) (signatureReturnType functionCallSig)
    returnDefinition ->
  exists context',
    deriveFunctionSchema functionDeclaration context
    = Returned
        {| resultName := functionName;
           definition :=
             Some {| description :=
                       nonEmptyOrNull (Js.trim (functionDocumentation functionSymbol));
                     ndcKind := if existsb (String.eqb "pure") (jsDocTags functionSymbol)
                                then Function_ else Procedure;
                     arguments :=
                       zip_with argumentOf (signatureParameters functionCallSig) definitions;
                     resultType := returnDefinition |};
           issues := [] |} context'
    /\ objectTypeDefinitions context' = objectTypeDefinitions context.
Proof.
  intros Hname Hsym Hsig Hparams (ws & target & s & Hw & Hs & Hlen & ->).
  rewrite deriveFunctionSchema_spec, Hname, Hsym, Hsig. unfold bind, ret.
  destruct (deriveParameterTypes_scalars functionName _ _ context Hparams)
    as (c1 & -> & Hchecker & Hobjects).
  rewrite (wrapsTo_scalar (typeChecker context) ws _ target s _ 0 c1 Hchecker Hw Hs Hlen).
  exists (setScalarType s c1). split; [|exact Hobjects].
  destruct (keptArguments_zip _ _ (Forall2_length _ _ _ Hparams)) as (Hk & He & Hf).
  unfold functionResultOf, functionDefinitionOf. simpl. by rewrite Hk, He, Hf.
Qed.

Lemma functions_over_scalars_are_defined_witness :
  exists context',
    deriveFunctionSchema
      (Fixtures.exportedDeclaration "k"
         [Fixtures.parameter "s" 9; Fixtures.parameter "n" 3] 8)
      (Fixtures.contextOf Fixtures.listChecker)
    = Returned
        {| resultName := "k";
           definition :=
             Some {| description := None;
                     ndcKind := Procedure;
                     arguments :=
                       [ {| argumentName := "s"; argumentDescription := None;
                            argumentType := nullable (named "String" scalar) AcceptsEither |};
                         {| argumentName := "n"; argumentDescription := None;
                            argumentType := named "Float" scalar |} ];
                     resultType := named "String" scalar |};
           issues := [] |} context'
    /\ objectTypeDefinitions context' = ∅.
Proof.
  apply (functions_over_scalars_are_defined
           (Fixtures.exportedDeclaration "k"
              [Fixtures.parameter "s" 9; Fixtures.parameter "n" 3] 8)
           (Fixtures.contextOf Fixtures.listChecker) "k" _ _
           [nullable (named "String" scalar) AcceptsEither; named "Float" scalar]
           (named "String" scalar) eq_refl eq_refl eq_refl).
  - repeat constructor.
    + exists 9. split; [reflexivity|].
      exists [NullableOf AcceptsEither], 8, "String".
      split; [exists 8; split; reflexivity|].
      split; [reflexivity|]. split; [unfold MAX_TYPE_DERIVATION_RECURSION; simpl; lia|].
      reflexivity.
    + exists 3. split; [reflexivity|]. exists [], 3, "Float".
      split; [reflexivity|]. split; [reflexivity|].
      split; [unfold MAX_TYPE_DERIVATION_RECURSION; simpl; lia|reflexivity].
  - exists [], 8, "String".
    split; [reflexivity|]. split; [reflexivity|].
    split; [unfold MAX_TYPE_DERIVATION_RECURSION; simpl; lia|reflexivity].
Defined.
